(** * Attendance core: QR tokens, geofence and attendance records

    A shallow embedding of [src/utils/mockBackend.tsx]: the in-browser
    [MockDatabase] (modules [Mock] and [MockQueries]) and the edge-function
    server (modules [Server] and [ServerQueries]), over a small model of the
    JavaScript values and built-ins that the two programs use (module
    [JS]); and of the helpers of the pages that build and show their data
    (module [Ui]).

    Conventions of the model.
    - A JavaScript Number is a binary64 float ([PrimFloat.float]); [+], [*],
      [/], [<], [<=] are the IEEE operations of the Rocq kernel.
    - A JavaScript string is a Rocq [string], read as the UTF-8 encoding of
      the text (every character the code inspects is ASCII).
    - Built-ins whose result is left to the engine or to a library
      ([Math.sin], [Math.cos], [Math.atan2], the HMAC of [node:crypto],
      [Date.prototype.toISOString], the conversion of arbitrary strings to
      numbers) are fields of the class [Host].
    - [Date.now()] and [new Date()] read a clock: a function takes the
      readings it makes as [clock 0], [clock 1], ... in program order. *)

From Stdlib Require Import ZArith String Ascii List Bool Lia DecimalString DecimalPos.
From Stdlib Require Import Floats.
From stdpp Require Import gmap strings.

#[local] Set Warnings "-register-all,-inexact-float".

Local Open Scope string_scope.
Local Open Scope Z_scope.

(** ** The JavaScript fragment *)

Module JS.

(** The built-ins that the model takes from the host engine. *)
Class Host := {
  Math_sin : float -> float;
  Math_cos : float -> float;
  Math_atan2 : float -> float -> float;
  (** [crypto.createHmac('sha256', key).update(msg).digest('hex')] *)
  hmac_sha256_hex : string -> string -> string;
  (** [new Date(t).toISOString()] *)
  toISOString : float -> string;
  (** ECMAScript StringToNumber, used when a string is coerced by [<], [>] *)
  StringToNumber : string -> float;
  (** Number::toString on the numbers that are not integers below 2^53 *)
  NumberToString_other : float -> string
}.

(** JSON values, with [JUndefined] for absent properties. *)
Inductive JsValue : Type :=
| JUndefined
| JNull
| JBool (b : bool)
| JNum (x : float)
| JStr (s : string)
| JArr (l : list JsValue)
| JObj (members : list (string * JsValue)).

(** Exceptions: [throw new Error(msg)] and the engine's own errors. *)
Inductive JsError : Type :=
| Error (msg : string)
| TypeError
| SyntaxError.

(** The result of a call that may throw. *)
Inductive Completion (A : Type) : Type :=
| Return (a : A)
| Throw (e : JsError).
Arguments Return {A} a.
Arguments Throw {A} e.

#[global] Instance Completion_bind : MBind Completion :=
  fun A B k c =>
    match c with
    | Return a => k a
    | Throw e => Throw e
    end.

(** *** Strings *)

Definition ascii_eqb (a b : ascii) : bool := Ascii.eqb a b.

(** [s.split(c)] for a one-character separator: never the empty list. *)
Fixpoint split (c : ascii) (s : string) : list string :=
  match s with
  | EmptyString => [EmptyString]
  | String a r =>
      if ascii_eqb a c then EmptyString :: split c r
      else match split c r with
           | h :: t => String a h :: t
           | [] => [String a EmptyString]
           end
  end.

(** [const [a, b] = arr] for the array of a split, which has a first
    element: [a] is [arr[0]], [b] is [arr[1]] or undefined ([None]). *)
Definition destructure2 (arr : list string) : string * option string :=
  (hd EmptyString arr, nth_error arr 1).

(** [s.startsWith(p)] *)
Definition startsWith (s p : string) : bool := String.prefix p s.

Definition contains (c : ascii) (s : string) : bool :=
  existsb (ascii_eqb c) (list_ascii_of_string s).

(** *** Numbers *)

Definition two53 : Z := 9007199254740992.

(** The integer a float denotes, when it denotes one. *)
Definition float_to_Z (x : float) : option Z :=
  match Prim2SF x with
  | S754_zero _ => Some 0
  | S754_finite s m e =>
      let v := if (0 <=? e) then Some (Zpos m * 2 ^ e)
               else if (Zpos m mod 2 ^ (- e) =? 0) then Some (Zpos m / 2 ^ (- e))
               else None in
      option_map (fun n => if s then - n else n) v
  | _ => None
  end.

Definition Z_to_string (z : Z) : string :=
  NilZero.string_of_int (Z.to_int z).

(** Number::toString(x): decimal digits for the integers below 2^53 (what
    [Date.now()] returns), the host's answer elsewhere. *)
Definition NumberToString `{Host} (x : float) : string :=
  match float_to_Z x with
  | Some z => if (Z.abs z <? two53) then Z_to_string z else NumberToString_other x
  | None => NumberToString_other x
  end.

(** The float nearest to [m * 10^e10] (ties to even), as the engine reads a
    decimal literal. For a negative exponent the quotient is computed with
    more than 64 bits and a sticky bit, then rounded once. *)
Definition float_of_decimal (neg : bool) (m : Z) (e10 : Z) : float :=
  let sf :=
    if (m =? 0) then S754_zero neg
    else if (0 <=? e10) then
      binary_normalize prec emax ((if neg then - m else m) * 10 ^ e10) 0 neg
    else
      let d := 10 ^ (- e10) in
      let s := 64 + Z.log2 d + 1 in
      let q := (m * 2 ^ s) / d in
      let r := (m * 2 ^ s) mod d in
      let mant := 2 * q + (if (r =? 0) then 0 else 1) in
      binary_normalize prec emax (if neg then - mant else mant) (- s - 1) neg
  in SF2Prim sf.

Definition float_of_Z (z : Z) : float := float_of_decimal (z <? 0) (Z.abs z) 0.

(** *** Values: property access, coercions *)

(** The value of the last member named [k], as a later duplicate key of a
    JSON text replaces an earlier one. *)
Fixpoint obj_get (k : string) (members : list (string * JsValue)) : JsValue :=
  match members with
  | [] => JUndefined
  | (k', v) :: rest =>
      match obj_get k rest with
      | JUndefined => if String.eqb k k' then v else JUndefined
      | found => found
      end
  end.

(** [v.k] for a property name that no prototype defines ([expiry],
    [sessionId], [scanType]): a member of an object, undefined on the other
    values, a TypeError on null and undefined. *)
Definition js_get (k : string) (v : JsValue) : Completion JsValue :=
  match v with
  | JUndefined | JNull => Throw TypeError
  | JObj members => Return (obj_get k members)
  | _ => Return JUndefined
  end.

Definition js_truthy (v : JsValue) : bool :=
  match v with
  | JUndefined | JNull => false
  | JBool b => b
  | JNum x => negb (PrimFloat.eqb x 0%float) && negb (PrimFloat.is_nan x)
  | JStr s => negb (String.eqb s "")
  | JArr _ | JObj _ => true
  end.

(** [v === 'lit'] *)
Definition js_strict_eq_str (v : JsValue) (lit : string) : bool :=
  match v with
  | JStr s => String.eqb s lit
  | _ => false
  end.

Definition join (sep : string) (parts : list string) : string :=
  match parts with
  | [] => ""
  | p :: rest => fold_left (fun acc q => acc +:+ sep +:+ q) rest p
  end.

(** ToString, as a template literal applies it. *)
Fixpoint js_to_string `{Host} (v : JsValue) : string :=
  match v with
  | JUndefined => "undefined"
  | JNull => "null"
  | JBool b => if b then "true" else "false"
  | JNum x => NumberToString x
  | JStr s => s
  | JArr l =>
      join "," (map (fun e => match e with
                              | JUndefined | JNull => ""
                              | _ => js_to_string e
                              end) l)
  | JObj _ => "[object Object]"
  end.

(** ToNumber, as [<] and [>] apply it to an operand that faces a Number. *)
Definition ToNumber `{Host} (v : JsValue) : float :=
  match v with
  | JUndefined => nan
  | JNull => 0%float
  | JBool b => if b then 1%float else 0%float
  | JNum x => x
  | JStr s => StringToNumber s
  | JArr _ | JObj _ => StringToNumber (js_to_string v)
  end.

(** [v < n] and [v > n] where [n] is a Number. *)
Definition js_lt `{Host} (v : JsValue) (n : float) : bool := PrimFloat.ltb (ToNumber v) n.
Definition js_gt `{Host} (v : JsValue) (n : float) : bool := PrimFloat.ltb n (ToNumber v).

(** *** JSON.stringify *)

Definition dquote : ascii := ascii_of_N 34.

Definition hex_digit (n : N) : ascii :=
  ascii_of_N (if (n <? 10)%N then 48 + n else 87 + n)%N.

(** QuoteJSONString: the two-character escapes, [\u00xx] for the other
    control characters, every other character as it is. *)
Definition quote_char (c : ascii) : string :=
  let n := N_of_ascii c in
  if (n =? 34)%N then String "\" (String dquote "")
  else if (n =? 92)%N then "\\"
  else if (n =? 8)%N then "\b"
  else if (n =? 12)%N then "\f"
  else if (n =? 10)%N then "\n"
  else if (n =? 13)%N then "\r"
  else if (n =? 9)%N then "\t"
  else if (n <? 32)%N then
    "\u00" +:+ String (hex_digit (n / 16)) (String (hex_digit (n mod 16)) "")
  else String c "".

Fixpoint quote_chars (s : string) : string :=
  match s with
  | EmptyString => ""
  | String c r => quote_char c +:+ quote_chars r
  end.

Definition QuoteJSONString (s : string) : string :=
  String dquote (quote_chars s) +:+ String dquote "".

(** [JSON.stringify(v)]; [None] is the undefined that it returns for
    undefined. Members whose value is undefined are left out, an undefined
    array element is written null, a number that is not finite too. *)
Fixpoint JSON_stringify_value `{Host} (v : JsValue) : option string :=
  match v with
  | JUndefined => None
  | JNull => Some "null"
  | JBool b => Some (if b then "true" else "false")
  | JNum x => Some (if PrimFloat.is_finite x then NumberToString x else "null")
  | JStr s => Some (QuoteJSONString s)
  | JArr l =>
      Some ("[" +:+ join "," (map (fun e => match JSON_stringify_value e with
                                            | Some t => t
                                            | None => "null"
                                            end) l) +:+ "]")
  | JObj members =>
      Some ("{" +:+ join "," (flat_map (fun kv => match JSON_stringify_value (snd kv) with
                                                  | Some t => [QuoteJSONString (fst kv) +:+ ":" +:+ t]
                                                  | None => []
                                                  end) members) +:+ "}")
  end.

(** [JSON.stringify] of an object literal, which is never undefined. *)
Definition JSON_stringify `{Host} (v : JsValue) : string :=
  match JSON_stringify_value v with
  | Some t => t
  | None => "undefined"
  end.

(** *** JSON.parse *)

Definition is_ws (c : ascii) : bool :=
  let n := N_of_ascii c in
  ((n =? 32) || (n =? 9) || (n =? 10) || (n =? 13))%N.

Fixpoint skip_ws (s : string) : string :=
  match s with
  | String c r => if is_ws c then skip_ws r else s
  | EmptyString => s
  end.

Definition digit_of (c : ascii) : option Z :=
  let n := N_of_ascii c in
  if ((48 <=? n) && (n <=? 57))%N then Some (Z.of_N n - 48) else None.

Definition hex_of (c : ascii) : option N :=
  let n := N_of_ascii c in
  if ((48 <=? n) && (n <=? 57))%N then Some (n - 48)%N
  else if ((97 <=? n) && (n <=? 102))%N then Some (n - 87)%N
  else if ((65 <=? n) && (n <=? 70))%N then Some (n - 55)%N
  else None.

(** UTF-8 bytes of a UTF-16 code unit given by a [\uXXXX] escape (the two
    halves of an escaped surrogate pair are encoded one by one). *)
Definition utf8_of_unit (u : N) : string :=
  if (u <? 128)%N then String (ascii_of_N u) ""
  else if (u <? 2048)%N then
    String (ascii_of_N (192 + u / 64)) (String (ascii_of_N (128 + u mod 64)) "")
  else
    String (ascii_of_N (224 + u / 4096))
      (String (ascii_of_N (128 + (u / 64) mod 64))
         (String (ascii_of_N (128 + u mod 64)) "")).

(** The characters of a string literal after its opening quote, up to the
    closing quote; the rest of the text follows. *)
Fixpoint parse_chars (s : string) : option (string * string) :=
  match s with
  | EmptyString => None
  | String c r =>
      let n := N_of_ascii c in
      if (n =? 34)%N then Some ("", r)
      else if (n =? 92)%N then
        match r with
        | String e r1 =>
            let simple (out : ascii) :=
              match parse_chars r1 with
              | Some (t, rest) => Some (String out t, rest)
              | None => None
              end in
            let m := N_of_ascii e in
            if (m =? 34)%N then simple e
            else if (m =? 92)%N then simple e
            else if (m =? 47)%N then simple e
            else if (m =? 98)%N then simple (ascii_of_N 8)
            else if (m =? 102)%N then simple (ascii_of_N 12)
            else if (m =? 110)%N then simple (ascii_of_N 10)
            else if (m =? 114)%N then simple (ascii_of_N 13)
            else if (m =? 116)%N then simple (ascii_of_N 9)
            else if (m =? 117)%N then
              match r1 with
              | String h1 (String h2 (String h3 (String h4 r2))) =>
                  match hex_of h1, hex_of h2, hex_of h3, hex_of h4, parse_chars r2 with
                  | Some a, Some b, Some c', Some d, Some (t, rest) =>
                      Some (utf8_of_unit (((a * 16 + b) * 16 + c') * 16 + d) +:+ t, rest)
                  | _, _, _, _, _ => None
                  end
              | _ => None
              end
            else None
        | EmptyString => None
        end
      else if (n <? 32)%N then None
      else match parse_chars r with
           | Some (t, rest) => Some (String c t, rest)
           | None => None
           end
  end.

(** A run of decimal digits: their value on top of [acc], how many there
    were, and the rest of the text. *)
Fixpoint take_digits (s : string) (acc : Z) (count : nat) : Z * nat * string :=
  match s with
  | String c r =>
      match digit_of c with
      | Some d => take_digits r (acc * 10 + d) (S count)
      | None => (acc, count, s)
      end
  | EmptyString => (acc, count, s)
  end.

(** A JSON number: an optional minus sign; an integer part, 0 or digits that
    do not start with 0; an optional fraction, a point and digits; an
    optional exponent, e or E, an optional sign and digits. *)
Definition parse_number (s : string) : option (float * string) :=
  let '(neg, s1) := match s with
                    | String "-" r => (true, r)
                    | _ => (false, s)
                    end in
  let '(int_part, n_int, s2) := take_digits s1 0 0 in
  let leading_zero := match s1 with
                      | String "0" _ => true
                      | _ => false
                      end in
  if (n_int =? 0)%nat || (leading_zero && (1 <? n_int)%nat) then None
  else
    let frac := match s2 with
                | String "." r =>
                    let '(m, n_frac, s3) := take_digits r int_part 0 in
                    if (n_frac =? 0)%nat then None else Some (m, n_frac, s3)
                | _ => Some (int_part, 0%nat, s2)
                end in
    match frac with
    | None => None
    | Some (m, n_frac, s3) =>
        let scale := - Z.of_nat n_frac in
        match s3 with
        | String e r =>
            if ascii_eqb e "e" || ascii_eqb e "E" then
              let '(eneg, r1) := match r with
                                 | String "-" r' => (true, r')
                                 | String "+" r' => (false, r')
                                 | _ => (false, r)
                                 end in
              let '(ex, n_ex, s4) := take_digits r1 0 0 in
              if (n_ex =? 0)%nat then None
              else Some (float_of_decimal neg m (scale + (if eneg then - ex else ex)), s4)
            else Some (float_of_decimal neg m scale, s3)
        | EmptyString => Some (float_of_decimal neg m scale, s3)
        end
    end.

Definition expect_word (w : string) (s : string) : option string :=
  if String.prefix w s then Some (String.substring (String.length w) (String.length s - String.length w) s)
  else None.

(** A later member with the same name replaces the earlier one in place. *)
Fixpoint obj_set (k : string) (v : JsValue) (members : list (string * JsValue)) :=
  match members with
  | [] => [(k, v)]
  | (k', v') :: rest =>
      if String.eqb k k' then (k, v) :: rest else (k', v') :: obj_set k v rest
  end.

(** Recursive descent; [fuel] bounds the number of nested calls. *)
Fixpoint parse_value (fuel : nat) (s : string) : option (JsValue * string) :=
  match fuel with
  | O => None
  | S fuel' =>
      match skip_ws s with
      | String c r =>
          let n := N_of_ascii c in
          if (n =? 123)%N then                       (* { *)
            match skip_ws r with
            | String "}" rest => Some (JObj [], rest)
            | _ => parse_members fuel' r []
            end
          else if (n =? 91)%N then                   (* [ *)
            match skip_ws r with
            | String "]" rest => Some (JArr [], rest)
            | _ => parse_elements fuel' r []
            end
          else if (n =? 34)%N then
            match parse_chars r with
            | Some (t, rest) => Some (JStr t, rest)
            | None => None
            end
          else if (n =? 116)%N then option_map (pair (JBool true)) (expect_word "true" (String c r))
          else if (n =? 102)%N then option_map (pair (JBool false)) (expect_word "false" (String c r))
          else if (n =? 110)%N then option_map (pair JNull) (expect_word "null" (String c r))
          else match parse_number (String c r) with
               | Some (x, rest) => Some (JNum x, rest)
               | None => None
               end
      | EmptyString => None
      end
  end
with parse_elements (fuel : nat) (s : string) (acc : list JsValue)
  : option (JsValue * string) :=
  match fuel with
  | O => None
  | S fuel' =>
      match parse_value fuel' s with
      | Some (v, rest) =>
          match skip_ws rest with
          | String "," rest' => parse_elements fuel' rest' (acc ++ [v])
          | String "]" rest' => Some (JArr (acc ++ [v]), rest')
          | _ => None
          end
      | None => None
      end
  end
with parse_members (fuel : nat) (s : string) (acc : list (string * JsValue))
  : option (JsValue * string) :=
  match fuel with
  | O => None
  | S fuel' =>
      match skip_ws s with
      | String q r =>
          match (if ascii_eqb q dquote then parse_chars r else None) with
          | Some (k, rest) =>
              match skip_ws rest with
              | String ":" rest1 =>
                  match parse_value fuel' rest1 with
                  | Some (v, rest2) =>
                      match skip_ws rest2 with
                      | String "," rest3 => parse_members fuel' rest3 (obj_set k v acc)
                      | String "}" rest3 => Some (JObj (obj_set k v acc), rest3)
                      | _ => None
                      end
                  | None => None
                  end
              | _ => None
              end
          | None => None
          end
      | _ => None
      end
  end.

(** [JSON.parse(text)]: one value between optional white space, or a
    SyntaxError. *)
Definition JSON_parse (text : string) : Completion JsValue :=
  match parse_value (2 * String.length text + 2) text with
  | Some (v, rest) =>
      match skip_ws rest with
      | EmptyString => Return v
      | _ => Throw SyntaxError
      end
  | None => Throw SyntaxError
  end.

(** *** Math *)

Definition Math_PI : float := 0x1.921fb54442d18p+1%float.

(** [Math.sqrt] is the correctly rounded IEEE square root. *)
Definition Math_sqrt (x : float) : float := PrimFloat.sqrt x.

(** [Math.round(x)]: the nearest integer, a tie going towards +infinity;
    NaN, the infinities and the zeros are returned as they are, and a
    result of zero keeps the sign of [x]. *)
Definition Math_round (x : float) : float :=
  match Prim2SF x with
  | S754_finite s m e =>
      if (0 <=? e) then x
      else
        let num := if s then Zneg m else Zpos m in
        let den := 2 ^ (- e) in
        let n := (2 * num + den) / (2 * den) in
        if (n =? 0) then (if s then (-0)%float else 0%float) else float_of_Z n
  | _ => x
  end.

(** The Number of an array length. *)
Definition float_of_nat (n : nat) : float := float_of_Z (Z.of_nat n).

(** The readings of the clock that one call makes, in program order. *)
Definition Clock : Type := nat -> float.

End JS.

Import JS.

(** ** The mock backend: class [MockDatabase] *)

Module Mock.

Record Location := { lat : float; lng : float }.

Module User.
Record t := {
    id : string;
    name : string;
    role : string;
    phone : string;
    rollNo : option string;
    enrollmentNo : option string;
    course : option string;
    department : option string;
    password : option string
  }.
End User.

Module Subject.
Record t := { id : string; name : string; code : string; facultyId : string }.
End Subject.

Module Session.
Record t := {
    id : string;
    subjectId : string;
    facultyId : string;
    date : string;
    inGenerationTs : string;
    outGenerationTs : option string;
    inQrToken : option string;
    outQrToken : option string;
    status : string
  }.
End Session.

(** [session.outGenerationTs = ts] *)
Definition set_outGenerationTs (session : Session.t) (ts : string) : Session.t :=
  {| Session.id := Session.id session;
     Session.subjectId := Session.subjectId session;
     Session.facultyId := Session.facultyId session;
     Session.date := Session.date session;
     Session.inGenerationTs := Session.inGenerationTs session;
     Session.outGenerationTs := Some ts;
     Session.inQrToken := Session.inQrToken session;
     Session.outQrToken := Session.outQrToken session;
     Session.status := Session.status session |}.

Module AttendanceRecord.
Record t := {
    id : string;
    sessionId : string;
    studentId : string;
    subjectId : string;
    inScanTs : option string;
    outScanTs : option string;
    inScanLocation : option Location;
    outScanLocation : option Location
  }.
End AttendanceRecord.

(** [attendance.inScanTs = timestamp; attendance.inScanLocation = location] *)
Definition set_inScan (a : AttendanceRecord.t) (timestamp : string) (location : Location)
  : AttendanceRecord.t :=
  {| AttendanceRecord.id := AttendanceRecord.id a;
     AttendanceRecord.sessionId := AttendanceRecord.sessionId a;
     AttendanceRecord.studentId := AttendanceRecord.studentId a;
     AttendanceRecord.subjectId := AttendanceRecord.subjectId a;
     AttendanceRecord.inScanTs := Some timestamp;
     AttendanceRecord.outScanTs := AttendanceRecord.outScanTs a;
     AttendanceRecord.inScanLocation := Some location;
     AttendanceRecord.outScanLocation := AttendanceRecord.outScanLocation a |}.

(** [attendance.outScanTs = timestamp; attendance.outScanLocation = location] *)
Definition set_outScan (a : AttendanceRecord.t) (timestamp : string) (location : Location)
  : AttendanceRecord.t :=
  {| AttendanceRecord.id := AttendanceRecord.id a;
     AttendanceRecord.sessionId := AttendanceRecord.sessionId a;
     AttendanceRecord.studentId := AttendanceRecord.studentId a;
     AttendanceRecord.subjectId := AttendanceRecord.subjectId a;
     AttendanceRecord.inScanTs := AttendanceRecord.inScanTs a;
     AttendanceRecord.outScanTs := Some timestamp;
     AttendanceRecord.inScanLocation := AttendanceRecord.inScanLocation a;
     AttendanceRecord.outScanLocation := Some location |}.

(** The four private maps of the class. *)
Record MockDatabase := {
  users : gmap string User.t;
  subjects : gmap string Subject.t;
  sessions : gmap string Session.t;
  attendance : gmap string AttendanceRecord.t
}.

Definition set_sessions (db : MockDatabase) (m : gmap string Session.t) : MockDatabase :=
  {| users := users db; subjects := subjects db; sessions := m; attendance := attendance db |}.

Definition set_attendance (db : MockDatabase) (m : gmap string AttendanceRecord.t) : MockDatabase :=
  {| users := users db; subjects := subjects db; sessions := sessions db; attendance := m |}.

(** [Array.from(map.values())], in an order that the model does not fix. *)
Definition values {V} (m : gmap string V) : list V := (map_to_list m).*2.

(** Truthiness of an optional string field: present and not empty. *)
Definition truthy_field (f : option string) : bool :=
  match f with
  | Some s => negb (String.eqb s "")
  | None => false
  end.

Section Impl.
Context `{Host}.
Local Open Scope float_scope.

(** [private calculateDistance(lat1, lng1, lat2, lng2)] *)
Definition calculateDistance (lat1 lng1 lat2 lng2 : float) : float :=
  let R := 6371e3 in
  let phi1 := lat1 * Math_PI / 180 in
  let phi2 := lat2 * Math_PI / 180 in
  let dphi := (lat2 - lat1) * Math_PI / 180 in
  let dlambda := (lng2 - lng1) * Math_PI / 180 in
  let a := Math_sin (dphi / 2) * Math_sin (dphi / 2) +
           Math_cos phi1 * Math_cos phi2 *
           Math_sin (dlambda / 2) * Math_sin (dlambda / 2) in
  let c := 2 * Math_atan2 (Math_sqrt a) (Math_sqrt (1 - a)) in
  R * c.

(** The payload object literal of [createSession] and [generateOutQR]. *)
Definition qrPayload_object (sessionId scanType : string) (timestamp expiry : float) : JsValue :=
  JObj [("sessionId", JStr sessionId); ("scanType", JStr scanType);
        ("timestamp", JNum timestamp); ("expiry", JNum expiry)].

(** [async createSession(facultyId, subjectId, date, startTime?)]. The
    clock is read for the id, for [inGenerationTs] when [startTime] is
    absent or empty, then for [timestamp], [expiry] and the signature. *)
Definition createSession (db : MockDatabase) (facultyId subjectId date : string)
    (startTime : option string) (clock : Clock) : MockDatabase * (string * string) :=
  let sessionId := subjectId +:+ ":" +:+ NumberToString (clock 0%nat) in
  let '(inGenerationTs, k) :=
    match startTime with
    | Some t => if truthy_field startTime then (t, 1%nat) else (toISOString (clock 1%nat), 2%nat)
    | None => (toISOString (clock 1%nat), 2%nat)
    end in
  let session := {| Session.id := sessionId; Session.subjectId := subjectId;
                    Session.facultyId := facultyId; Session.date := date;
                    Session.inGenerationTs := inGenerationTs;
                    Session.outGenerationTs := None; Session.inQrToken := None;
                    Session.outQrToken := None; Session.status := "active" |} in
  let db' := set_sessions db (<[sessionId := session]> (sessions db)) in
  let qrPayload := qrPayload_object sessionId "IN" (clock k) (clock (S k) + 30 * 60 * 1000) in
  let qrToken := JSON_stringify qrPayload in
  let signature := "mock-signature-" +:+ NumberToString (clock (S (S k))) in
  (db', (sessionId, qrToken +:+ ":" +:+ signature)).

(** [async generateOutQR(sessionId)] *)
Definition generateOutQR (db : MockDatabase) (sessionId : string) (clock : Clock)
  : MockDatabase * Completion string :=
  match sessions db !! sessionId with
  | None => (db, Throw (Error "Session not found"))
  | Some session =>
      let qrPayload := qrPayload_object sessionId "OUT" (clock 0%nat) (clock 1%nat + 30 * 60 * 1000) in
      let qrToken := JSON_stringify qrPayload in
      let signature := "mock-signature-" +:+ NumberToString (clock 2%nat) in
      let session' := set_outGenerationTs session (toISOString (clock 3%nat)) in
      (set_sessions db (<[sessionId := session']> (sessions db)),
       Return (qrToken +:+ ":" +:+ signature))
  end.

(** The value that [scanAttendance] returns; its [attendance] member is
    [scanned] here. *)
Record ScanResult := {
  success : bool;
  message : string;
  scanned : AttendanceRecord.t
}.

(** [scanAttendance], the campus check (the first statements of the body). *)
Definition scanAttendance_geofence (lat lng : float) : Completion unit :=
  let campusLat := 22.3039 in
  let campusLng := 73.3620 in
  let maxDistance := 2000 in
  let distance := calculateDistance lat lng campusLat campusLng in
  if (maxDistance <? distance)%float
  then Throw (Error "Scan location is outside campus boundary")
  else Return tt.

(** [scanAttendance], what is done with [token]: [JSON.parse] in its try
    block, and the expiry test against [Date.now()]. *)
Definition scanAttendance_parse (token : string) (now : float) : Completion JsValue :=
  qrPayload ← match JSON_parse token with
              | Return v => Return v
              | Throw _ => Throw (Error "Invalid QR code format")
              end;
  expiry ← js_get "expiry" qrPayload;
  if js_lt expiry now then Throw (Error "QR code has expired") else Return qrPayload.

(** [scanAttendance], "Parse QR data": the split, whose second part is
    never used, then the parsing of the first part. *)
Definition scanAttendance_decode (qrData : string) (now : float) : Completion JsValue :=
  let '(token, signature) := destructure2 (split ":" qrData) in
  scanAttendance_parse token now.

(** [this.sessions.get(k)] for a key of any type: only a string is a key. *)
Definition sessions_get (db : MockDatabase) (k : JsValue) : option Session.t :=
  match k with
  | JStr s => sessions db !! s
  | _ => None
  end.

(** [scanAttendance] from the destructuring of the payload to the end: the
    session lookup, "Get or create attendance record", the update of the
    fields of the scanned direction, the write and the returned object. *)
Definition scanAttendance_record (db : MockDatabase) (studentId : string)
    (qrPayload : JsValue) (lat lng : float) (now : float)
  : MockDatabase * Completion ScanResult :=
  match js_get "sessionId" qrPayload, js_get "scanType" qrPayload with
  | Return sessionId, Return scanType =>
      match sessions_get db sessionId with
      | None => (db, Throw (Error "Session not found"))
      | Some session =>
          let attendanceKey := studentId +:+ ":" +:+ js_to_string sessionId in
          let attendance0 :=
            match attendance db !! attendanceKey with
            | Some a => a
            | None => {| AttendanceRecord.id := attendanceKey;
                         AttendanceRecord.sessionId := js_to_string sessionId;
                         AttendanceRecord.studentId := studentId;
                         AttendanceRecord.subjectId := Session.subjectId session;
                         AttendanceRecord.inScanTs := None;
                         AttendanceRecord.outScanTs := None;
                         AttendanceRecord.inScanLocation := None;
                         AttendanceRecord.outScanLocation := None |}
            end in
          let timestamp := toISOString now in
          let location := {| lat := lat; lng := lng |} in
          let attendance1 :=
            if js_strict_eq_str scanType "IN"
            then set_inScan attendance0 timestamp location
            else set_outScan attendance0 timestamp location in
          (set_attendance db (<[attendanceKey := attendance1]> (attendance db)),
           Return {| success := true;
                     message := js_to_string scanType +:+ " scan recorded successfully";
                     scanned := attendance1 |})
      end
  | Throw e, _ | _, Throw e => (db, Throw e)
  end.

(** [async scanAttendance(studentId, qrData, lat, lng)]: [clock 0] is the
    [Date.now()] of the expiry test, [clock 1] the [new Date()] of the
    timestamp. *)
Definition scanAttendance (db : MockDatabase) (studentId qrData : string)
    (lat lng : float) (clock : Clock) : MockDatabase * Completion ScanResult :=
  match scanAttendance_geofence lat lng with
  | Throw e => (db, Throw e)
  | Return _ =>
      match scanAttendance_decode qrData (clock 0%nat) with
      | Throw e => (db, Throw e)
      | Return qrPayload => scanAttendance_record db studentId qrPayload lat lng (clock 1%nat)
      end
  end.

(** One entry of the [attendance] array of [getStudentProfile]. The
    [recentAttendance] slice, which depends on the insertion order of the
    map, is left out. The two counts are array lengths, kept as natural
    numbers; [totalSessions > 0] compares one of them with zero. *)
Record SubjectAttendance := {
  subject : string;
  code : string;
  totalSessions : nat;
  attendedSessions : nat;
  percentage : float
}.

(** The callback that [getStudentProfile] maps over the subjects. *)
Definition subjectAttendance (db : MockDatabase) (studentId : string) (subject : Subject.t)
  : SubjectAttendance :=
  let subjectSessions :=
    filter (fun session => Session.subjectId session = Subject.id subject) (values (sessions db)) in
  let studentAttendanceRecords :=
    filter (fun record => AttendanceRecord.studentId record = studentId
                          /\ AttendanceRecord.subjectId record = Subject.id subject)
           (values (attendance db)) in
  let totalSessions := length subjectSessions in
  let attendedSessions :=
    length (filter (fun record => truthy_field (AttendanceRecord.inScanTs record)
                                  && truthy_field (AttendanceRecord.outScanTs record) = true)
                   studentAttendanceRecords) in
  let percentage :=
    if (0 <? totalSessions)%nat
    then Math_round (float_of_nat attendedSessions / float_of_nat totalSessions * 100)
    else 0 in
  {| subject := Subject.name subject; code := Subject.code subject;
     totalSessions := totalSessions; attendedSessions := attendedSessions;
     percentage := percentage |}.

(** [async getStudentProfile(studentId)]: the profile (the user without
    the password) and one entry per subject. *)
Definition getStudentProfile (db : MockDatabase) (studentId : string)
  : Completion (User.t * list SubjectAttendance) :=
  match users db !! studentId with
  | Some student =>
      if String.eqb (User.role student) "student" then
        Return ({| User.id := User.id student; User.name := User.name student;
                   User.role := User.role student; User.phone := User.phone student;
                   User.rollNo := User.rollNo student;
                   User.enrollmentNo := User.enrollmentNo student;
                   User.course := User.course student;
                   User.department := User.department student;
                   User.password := None |},
                map (subjectAttendance db studentId) (values (subjects db)))
      else Throw (Error "Student not found")
  | None => Throw (Error "Student not found")
  end.

End Impl.
End Mock.

(** ** The server: the edge function of the second half of the file *)

Module Server.

(** *** The key-value store *)

(** Modelled from the spec: the module [kv_store.tsx] that the server
    imports is not among the sources. The spec describes it as a generic
    key-value collaborator with get, set and get-by-prefix and no logic of
    its own: a finite map from keys to values, where [get] of an absent key
    is a falsy value and [getByPrefix] returns the values whose key starts
    with the prefix, in an order that the model does not fix. *)
Definition kv_get {V} (m : gmap string V) (key : string) : option V := m !! key.

Definition kv_set {V} (m : gmap string V) (key : string) (value : V) : gmap string V :=
  <[key := value]> m.

Definition kv_getByPrefix {V} (m : gmap string V) (prefix : string) : list V :=
  (filter (fun kv => startsWith (fst kv) prefix = true) (map_to_list m)).*2.

Record Location := { lat : float; lng : float }.

(** The decoded JWT that [requireAuth] stores in the context. *)
Record CurrentUser := { user_id : string; user_role : string }.

Module User.
Record t := {
    id : string;
    name : string;
    phone : string;
    rollNo : option string;
    enrollmentNo : option string;
    course : option string;
    department : option string;
    password : option string;
    role : string
  }.
End User.

Module Subject.
Record t := { id : string; name : string; facultyId : string; code : string }.
End Subject.

Module Session.
Record t := {
    id : string;
    subjectId : string;
    facultyId : string;
    date : string;
    startTime : string;
    inGenerationTs : string;
    inQrToken : string;
    inQrSignature : string;
    status : string;
    outGenerationTs : option string;
    outQrToken : option string;
    outQrSignature : option string
  }.
End Session.

(** [session.outGenerationTs = ts; session.outQrToken = token;
    session.outQrSignature = signature] *)
Definition set_out (session : Session.t) (ts token signature : string) : Session.t :=
  {| Session.id := Session.id session;
     Session.subjectId := Session.subjectId session;
     Session.facultyId := Session.facultyId session;
     Session.date := Session.date session;
     Session.startTime := Session.startTime session;
     Session.inGenerationTs := Session.inGenerationTs session;
     Session.inQrToken := Session.inQrToken session;
     Session.inQrSignature := Session.inQrSignature session;
     Session.status := Session.status session;
     Session.outGenerationTs := Some ts;
     Session.outQrToken := Some token;
     Session.outQrSignature := Some signature |}.

(** The attendance object. Its [sessionId] is the value found in the QR
    payload, of whatever type. *)
Module AttendanceRecord.
Record t := {
    id : string;
    sessionId : JsValue;
    studentId : string;
    subjectId : string;
    inScanTs : option string;
    outScanTs : option string;
    inScanLocation : option Location;
    outScanLocation : option Location
  }.
End AttendanceRecord.

(** [attendance.inScanTs = timestamp; attendance.inScanLocation = location] *)
Definition set_inScan (a : AttendanceRecord.t) (timestamp : string) (location : Location)
  : AttendanceRecord.t :=
  {| AttendanceRecord.id := AttendanceRecord.id a;
     AttendanceRecord.sessionId := AttendanceRecord.sessionId a;
     AttendanceRecord.studentId := AttendanceRecord.studentId a;
     AttendanceRecord.subjectId := AttendanceRecord.subjectId a;
     AttendanceRecord.inScanTs := Some timestamp;
     AttendanceRecord.outScanTs := AttendanceRecord.outScanTs a;
     AttendanceRecord.inScanLocation := Some location;
     AttendanceRecord.outScanLocation := AttendanceRecord.outScanLocation a |}.

(** [attendance.outScanTs = timestamp; attendance.outScanLocation = location] *)
Definition set_outScan (a : AttendanceRecord.t) (timestamp : string) (location : Location)
  : AttendanceRecord.t :=
  {| AttendanceRecord.id := AttendanceRecord.id a;
     AttendanceRecord.sessionId := AttendanceRecord.sessionId a;
     AttendanceRecord.studentId := AttendanceRecord.studentId a;
     AttendanceRecord.subjectId := AttendanceRecord.subjectId a;
     AttendanceRecord.inScanTs := AttendanceRecord.inScanTs a;
     AttendanceRecord.outScanTs := Some timestamp;
     AttendanceRecord.inScanLocation := AttendanceRecord.inScanLocation a;
     AttendanceRecord.outScanLocation := Some location |}.

(** The store, one table per key prefix: [student:], [subject:],
    [session:] and [attendance:]. The key of an entry is the full key. *)
Record Store := {
  students : gmap string User.t;
  subjects : gmap string Subject.t;
  sessions : gmap string Session.t;
  attendance : gmap string AttendanceRecord.t
}.

Definition set_sessions (st : Store) (m : gmap string Session.t) : Store :=
  {| students := students st; subjects := subjects st; sessions := m; attendance := attendance st |}.

Definition set_attendance (st : Store) (m : gmap string AttendanceRecord.t) : Store :=
  {| students := students st; subjects := subjects st; sessions := sessions st; attendance := m |}.

(** [c.json(body)] and [c.json({ error }, status)]. *)
Inductive Response (A : Type) : Type :=
| Json (body : A)
| JsonError (error : string) (status : nat).
Arguments Json {A} body.
Arguments JsonError {A} error status.

Inductive ScanType := IN | OUT.

Definition ScanType_string (t : ScanType) : string :=
  match t with
  | IN => "IN"
  | OUT => "OUT"
  end.

Definition truthy_field (f : option string) : bool :=
  match f with
  | Some s => negb (String.eqb s "")
  | None => false
  end.

Section Impl.
Context `{Host}.
Local Open Scope float_scope.

Definition JWT_SECRET : string := "university-attendance-secret-key".

Definition CAMPUS_BOUNDARY_lat : float := 22.3039.
Definition CAMPUS_BOUNDARY_lng : float := 73.3620.
Definition CAMPUS_BOUNDARY_radius : float := 2000.

(** [generateQRToken(sessionId, scanType)]: the token and its signature. *)
Definition generateQRToken (sessionId : string) (scanType : ScanType) (clock : Clock)
  : string * string :=
  let payload := JObj [("sessionId", JStr sessionId);
                       ("scanType", JStr (ScanType_string scanType));
                       ("timestamp", JNum (clock 0%nat));
                       ("expiry", JNum (clock 1%nat + 30 * 60 * 1000))] in
  let token := JSON_stringify payload in
  let signature := hmac_sha256_hex JWT_SECRET token in
  (token, signature).

(** [verifyQRToken(token, signature)]: the payload, or [false]. The
    signature is undefined ([None]) when the split produced one part. *)
Definition verifyQRToken (token : string) (signature : option string) (now : float) : JsValue :=
  let expectedSignature := hmac_sha256_hex JWT_SECRET token in
  if negb (bool_decide (signature = Some expectedSignature)) then JBool false
  else
    match (payload ← JSON_parse token;
           expiry ← js_get "expiry" payload;
           Return (if js_gt expiry now then payload else JBool false)) with
    | Return v => v
    | Throw _ => JBool false
    end.

Definition calculateDistance (lat1 lng1 lat2 lng2 : float) : float :=
  let R := 6371e3 in
  let phi1 := lat1 * Math_PI / 180 in
  let phi2 := lat2 * Math_PI / 180 in
  let dphi := (lat2 - lat1) * Math_PI / 180 in
  let dlambda := (lng2 - lng1) * Math_PI / 180 in
  let a := Math_sin (dphi / 2) * Math_sin (dphi / 2) +
           Math_cos phi1 * Math_cos phi2 *
           Math_sin (dlambda / 2) * Math_sin (dlambda / 2) in
  let c := 2 * Math_atan2 (Math_sqrt a) (Math_sqrt (1 - a)) in
  R * c.

Definition isWithinCampus (lat lng : float) : bool :=
  let distance := calculateDistance lat lng CAMPUS_BOUNDARY_lat CAMPUS_BOUNDARY_lng in
  distance <=? CAMPUS_BOUNDARY_radius.

(** [POST /faculty/session]: the session id and the wire form of the IN
    token. [clock 0] makes the id, [clock 1] and [clock 2] the token;
    [startTime] defaults to a new reading, and [inGenerationTs] is one. *)
Definition post_faculty_session (st : Store) (currentUser : CurrentUser)
    (subjectId date : string) (startTime : option string) (clock : Clock)
  : Store * Response (string * string) :=
  if negb (String.eqb (user_role currentUser) "faculty")
  then (st, JsonError "Faculty access required" 403)
  else
    let sessionId := subjectId +:+ ":" +:+ NumberToString (clock 0%nat) in
    let inQRData := generateQRToken sessionId IN (fun n => clock (S n)) in
    let '(start, k) :=
      match startTime with
      | Some t => if truthy_field startTime then (t, 3%nat) else (toISOString (clock 3%nat), 4%nat)
      | None => (toISOString (clock 3%nat), 4%nat)
      end in
    let session := {| Session.id := sessionId; Session.subjectId := subjectId;
                      Session.facultyId := user_id currentUser; Session.date := date;
                      Session.startTime := start;
                      Session.inGenerationTs := toISOString (clock k);
                      Session.inQrToken := fst inQRData;
                      Session.inQrSignature := snd inQRData;
                      Session.status := "active";
                      Session.outGenerationTs := None; Session.outQrToken := None;
                      Session.outQrSignature := None |} in
    (set_sessions st (kv_set (sessions st) ("session:" +:+ sessionId) session),
     Json (sessionId, fst inQRData +:+ ":" +:+ snd inQRData)).

(** [POST /faculty/session/:id/generate-out]: the wire form of the OUT
    token, or an error. *)
Definition post_generate_out (st : Store) (currentUser : CurrentUser)
    (sessionId : string) (clock : Clock) : Store * Response string :=
  if negb (String.eqb (user_role currentUser) "faculty")
  then (st, JsonError "Faculty access required" 403)
  else
    match kv_get (sessions st) ("session:" +:+ sessionId) with
    | None => (st, JsonError "Session not found" 404)
    | Some session =>
        if negb (String.eqb (Session.facultyId session) (user_id currentUser))
        then (st, JsonError "Session not found" 404)
        else
          let outQRData := generateQRToken sessionId OUT clock in
          let session' := set_out session (toISOString (clock 2%nat))
                            (fst outQRData) (snd outQRData) in
          (set_sessions st (kv_set (sessions st) ("session:" +:+ sessionId) session'),
           Json (fst outQRData +:+ ":" +:+ snd outQRData))
    end.

(** The body of a successful scan response; its [attendance] member is
    [scanned] here. *)
Record ScanResult := {
  success : bool;
  message : string;
  scanned : AttendanceRecord.t
}.

(** The scan route, "Parse QR data": the split and [verifyQRToken]. *)
Definition post_attendance_scan_decode (qrData : string) (now : float) : JsValue :=
  let '(token, signature) := destructure2 (split ":" qrData) in
  verifyQRToken token signature now.

(** The scan route from the destructuring of the verified payload to the
    response: the session lookup, "Get or create attendance record", the
    update of the fields of the scanned direction and the write. *)
Definition post_attendance_scan_record (st : Store) (currentUser : CurrentUser)
    (qrPayload : JsValue) (lat lng : float) (now : float)
  : Store * Response ScanResult :=
  match js_get "sessionId" qrPayload, js_get "scanType" qrPayload with
  | Return sessionId, Return scanType =>
      match kv_get (sessions st) ("session:" +:+ js_to_string sessionId) with
      | None => (st, JsonError "Session not found" 404)
      | Some session =>
          let attendanceKey :=
            "attendance:" +:+ user_id currentUser +:+ ":" +:+ js_to_string sessionId in
          let attendance0 :=
            match kv_get (attendance st) attendanceKey with
            | Some a => a
            | None => {| AttendanceRecord.id :=
                           user_id currentUser +:+ ":" +:+ js_to_string sessionId;
                         AttendanceRecord.sessionId := sessionId;
                         AttendanceRecord.studentId := user_id currentUser;
                         AttendanceRecord.subjectId := Session.subjectId session;
                         AttendanceRecord.inScanTs := None;
                         AttendanceRecord.outScanTs := None;
                         AttendanceRecord.inScanLocation := None;
                         AttendanceRecord.outScanLocation := None |}
            end in
          let timestamp := toISOString now in
          let location := {| lat := lat; lng := lng |} in
          let attendance1 :=
            if js_strict_eq_str scanType "IN"
            then set_inScan attendance0 timestamp location
            else set_outScan attendance0 timestamp location in
          (set_attendance st (kv_set (attendance st) attendanceKey attendance1),
           Json {| success := true;
                   message := js_to_string scanType +:+ " scan recorded successfully";
                   scanned := attendance1 |})
      end
  | _, _ => (st, JsonError "Failed to record attendance" 500)
  end.

(** [POST /attendance/scan] with the body [{ qrData, lat, lng }]. [clock 0]
    is the [Date.now()] of [verifyQRToken], [clock 1] the timestamp. *)
Definition post_attendance_scan (st : Store) (currentUser : CurrentUser)
    (qrData : string) (lat lng : float) (clock : Clock) : Store * Response ScanResult :=
  if negb (String.eqb (user_role currentUser) "student")
  then (st, JsonError "Student access required" 403)
  else if negb (isWithinCampus lat lng)
  then (st, JsonError "Scan location is outside campus boundary" 400)
  else
    let qrPayload := post_attendance_scan_decode qrData (clock 0%nat) in
    if negb (js_truthy qrPayload)
    then (st, JsonError "Invalid or expired QR code" 400)
    else post_attendance_scan_record st currentUser qrPayload lat lng (clock 1%nat).

(** One entry of the [attendance] array of the profile response, without
    the [recentAttendance] slice. *)
Record SubjectAttendance := {
  subject : string;
  code : string;
  totalSessions : nat;
  attendedSessions : nat;
  percentage : float
}.

(** [record.sessionId && record.sessionId.startsWith(subject.id)]: false on
    a falsy id, a TypeError on a truthy id that is not a string. *)
Definition record_of_subject (subjectId : string) (record : AttendanceRecord.t)
  : Completion bool :=
  match AttendanceRecord.sessionId record with
  | JStr s => Return (negb (String.eqb s "") && startsWith s subjectId)
  | other => if js_truthy other then Throw TypeError else Return false
  end.

(** [arr.filter(p)] for a predicate that may throw. *)
Fixpoint filter_throwing {A} (p : A -> Completion bool) (l : list A) : Completion (list A) :=
  match l with
  | [] => Return []
  | x :: rest =>
      keep ← p x;
      kept ← filter_throwing p rest;
      Return (if (keep : bool) then x :: kept else kept)
  end.

(** The body of the loop over the subjects in the profile route. *)
Definition subjectAttendance (st : Store) (attendanceRecords : list AttendanceRecord.t)
    (subject : Subject.t) : Completion SubjectAttendance :=
  let subjectSessions :=
    kv_getByPrefix (sessions st) ("session:" +:+ Subject.id subject +:+ ":") in
  subjectAttendanceRecords ← filter_throwing (record_of_subject (Subject.id subject)) attendanceRecords;
  let totalSessions := length subjectSessions in
  let attendedSessions :=
    length (filter (fun record => truthy_field (AttendanceRecord.inScanTs record)
                                  && truthy_field (AttendanceRecord.outScanTs record) = true)
                   subjectAttendanceRecords) in
  Return {| subject := Subject.name subject; code := Subject.code subject;
            totalSessions := totalSessions; attendedSessions := attendedSessions;
            percentage :=
              if (0 <? totalSessions)%nat
              then Math_round (float_of_nat attendedSessions / float_of_nat totalSessions * 100)
              else 0 |}.

Fixpoint for_each {A B} (f : A -> Completion B) (l : list A) : Completion (list B) :=
  match l with
  | [] => Return []
  | x :: rest => y ← f x; ys ← for_each f rest; Return (y :: ys)
  end.

(** [GET /student/:id/profile]: the profile and the entries of the
    subjects, in the order of the loop (the route collects them in an
    object keyed by the subject id and answers with its values). *)
Definition get_student_profile (st : Store) (currentUser : CurrentUser) (studentId : string)
  : Response (User.t * list SubjectAttendance) :=
  if negb (String.eqb (user_role currentUser) "student")
     || negb (String.eqb (user_id currentUser) studentId)
  then JsonError "Unauthorized" 403
  else
    match kv_get (students st) ("student:" +:+ studentId) with
    | None => JsonError "Student not found" 404
    | Some student =>
        let allSubjects := kv_getByPrefix (subjects st) "subject:" in
        let attendanceRecords :=
          kv_getByPrefix (attendance st) ("attendance:" +:+ studentId +:+ ":") in
        match for_each (subjectAttendance st attendanceRecords) allSubjects with
        | Throw _ => JsonError "Failed to fetch profile" 500
        | Return entries =>
            Json ({| User.id := User.id student; User.name := User.name student;
                     User.phone := User.phone student; User.rollNo := User.rollNo student;
                     User.enrollmentNo := User.enrollmentNo student;
                     User.course := User.course student;
                     User.department := User.department student;
                     User.password := None; User.role := User.role student |},
                  entries)
        end
    end.

End Impl.
End Server.

(** ** The vocabulary of the specification *)

Module Spec.

(** The scan errors that the specification names. *)
Inductive ScanError :=
| OutsideCampusBoundary
| MalformedToken
| SignatureMismatch
| TokenExpired
| SessionNotFound.

(** The errors that a message of the code can stand for. The mock has one
    message for each of the errors that it detects; the server answers the
    three token errors with one message. *)
Definition errors_of_message (msg : string) : list ScanError :=
  if String.eqb msg "Scan location is outside campus boundary" then [OutsideCampusBoundary]
  else if String.eqb msg "Invalid QR code format" then [MalformedToken]
  else if String.eqb msg "QR code has expired" then [TokenExpired]
  else if String.eqb msg "Invalid or expired QR code"
       then [MalformedToken; SignatureMismatch; TokenExpired]
  else if String.eqb msg "Session not found" then [SessionNotFound]
  else [].

(** The haversine formula for the great-circle distance between two points
    given in degrees, on a sphere of radius [R]: with [a] the haversine of
    the central angle, [sin^2 (dphi/2) + cos phi1 * cos phi2 * sin^2 (dlambda/2)],
    the distance is [R * 2 * atan2 (sqrt a) (sqrt (1 - a))]. The operations
    are those of binary64, the products taken from left to right. *)
Definition haversine `{Host} (R lat1 lng1 lat2 lng2 : float) : float :=
  let radians (degrees : float) := (degrees * Math_PI / 180)%float in
  let half_sine (angle : float) := Math_sin (angle / 2)%float in
  let dphi := radians (lat2 - lat1)%float in
  let dlambda := radians (lng2 - lng1)%float in
  let a := (half_sine dphi * half_sine dphi
            + Math_cos (radians lat1) * Math_cos (radians lat2)
              * half_sine dlambda * half_sine dlambda)%float in
  (R * (2 * Math_atan2 (Math_sqrt a) (Math_sqrt (1 - a))))%float.

End Spec.

(** ** Notions used in the statements *)

Section Derived.
Context `{Host}.

(** A text in which no colon occurs. *)
Definition no_colon (s : string) : Prop := contains ":" s = false.

(** The text of every generated payload up to its first colon. *)
Definition payload_head : string :=
  String "{" (QuoteJSONString "sessionId").

(** The attendance object that the mock starts from: the stored one, or a
    new one without scans. *)
Definition mock_attendance0 (db : Mock.MockDatabase) (studentId : string)
    (sessionId : JsValue) (session : Mock.Session.t) : Mock.AttendanceRecord.t :=
  match Mock.attendance db !! (studentId +:+ ":" +:+ js_to_string sessionId) with
  | Some a => a
  | None => {| Mock.AttendanceRecord.id := studentId +:+ ":" +:+ js_to_string sessionId;
               Mock.AttendanceRecord.sessionId := js_to_string sessionId;
               Mock.AttendanceRecord.studentId := studentId;
               Mock.AttendanceRecord.subjectId := Mock.Session.subjectId session;
               Mock.AttendanceRecord.inScanTs := None;
               Mock.AttendanceRecord.outScanTs := None;
               Mock.AttendanceRecord.inScanLocation := None;
               Mock.AttendanceRecord.outScanLocation := None |}
  end.

Definition server_attendance0 (st : Server.Store) (user : Server.CurrentUser)
    (sessionId : JsValue) (session : Server.Session.t) : Server.AttendanceRecord.t :=
  match Server.attendance st
          !! ("attendance:" +:+ Server.user_id user +:+ ":" +:+ js_to_string sessionId) with
  | Some a => a
  | None => {| Server.AttendanceRecord.id :=
                 Server.user_id user +:+ ":" +:+ js_to_string sessionId;
               Server.AttendanceRecord.sessionId := sessionId;
               Server.AttendanceRecord.studentId := Server.user_id user;
               Server.AttendanceRecord.subjectId := Server.Session.subjectId session;
               Server.AttendanceRecord.inScanTs := None;
               Server.AttendanceRecord.outScanTs := None;
               Server.AttendanceRecord.inScanLocation := None;
               Server.AttendanceRecord.outScanLocation := None |}
  end.

(** A record whose session id is a string, not empty, that starts with
    the id of the subject. *)
Definition session_of_subject (subjectId : string) (record : Server.AttendanceRecord.t) : bool :=
  match Server.AttendanceRecord.sessionId record with
  | JStr s => negb (String.eqb s "") && startsWith s subjectId
  | _ => false
  end.

End Derived.

(** ** A concrete host and sample data

    The properties below hold for every host. To run the programs on
    concrete inputs, [Demo.host] supplies series approximations of the
    trigonometric functions (adequate for angles of a few radians) and
    stand-ins for the keyed digest and the date format. *)

Module Demo.

Local Open Scope float_scope.

(** The sum of [n] terms of a power series: each term is the previous one
    times [step / (k * (k + 1))], with [k] growing by two. *)
Fixpoint series (n : nat) (k term step acc : float) : float :=
  match n with
  | O => acc
  | S n' => series n' (k + 2) (term * step / (k * (k + 1))) step (acc + term)
  end.

Definition sin (x : float) : float := series 16 2 x (- (x * x)) 0.
Definition cos (x : float) : float := series 16 1 1 (- (x * x)) 0.

(** The arc tangent series of a small argument. *)
Fixpoint atan_series (n : nat) (k power step acc : float) : float :=
  match n with
  | O => acc
  | S n' => atan_series n' (k + 2) (power * step) step (acc + power / k)
  end.

Definition atan_unit (t : float) : float :=
  let half u := u / (1 + PrimFloat.sqrt (1 + u * u)) in
  let u := half (half t) in
  4 * atan_series 16 1 u (- (u * u)) 0.

Definition atan (t : float) : float :=
  if PrimFloat.abs t <=? 1 then atan_unit t
  else if 0 <? t then Math_PI / 2 - atan_unit (1 / t)
  else - (Math_PI / 2) - atan_unit (1 / t).

Definition atan2 (y x : float) : float :=
  if PrimFloat.is_nan y || PrimFloat.is_nan x then nan
  else if 0 <? x then atan (y / x)
  else if x <? 0 then (if 0 <=? y then atan (y / x) + Math_PI else atan (y / x) - Math_PI)
  else if 0 <? y then Math_PI / 2
  else if y <? 0 then - (Math_PI / 2)
  else 0.

Fixpoint hex_of_N (digits : nat) (n : N) : string :=
  match digits with
  | O => ""
  | S d => hex_of_N d (n / 16) +:+ String (hex_digit (n mod 16)) ""
  end.

(** A keyed checksum standing in for HMAC-SHA256. *)
Definition digest (key msg : string) : string :=
  hex_of_N 16 (fold_left (fun acc c => ((acc * 131 + N_of_ascii c) mod 2 ^ 64)%N)
                         (list_ascii_of_string (key +:+ msg)) 7%N).

Definition iso (t : float) : string :=
  match float_to_Z t with
  | Some z => "T+" +:+ Z_to_string z +:+ "ms"
  | None => "Invalid Date"
  end.

Definition string_to_number (s : string) : float :=
  match parse_number s with
  | Some (x, EmptyString) => x
  | _ => nan
  end.

#[export] Instance host : Host := {|
  Math_sin := sin;
  Math_cos := cos;
  Math_atan2 := atan2;
  hmac_sha256_hex := digest;
  toISOString := iso;
  StringToNumber := string_to_number;
  NumberToString_other := fun _ => "NaN"
|}.

(** A JSON text written with apostrophes in place of double quotes. *)
Definition json (s : string) : string :=
  string_of_list_ascii
    (map (fun c => if ascii_eqb c "'" then dquote else c) (list_ascii_of_string s)).

(** A clock that advances by one millisecond at each reading. *)
Definition ticking (t : float) : Clock := fun n => t + float_of_nat n.

(** A clock that stands still during a call. *)
Definition frozen (t : float) : Clock := fun _ => t.

(** The text with the lowest bit of its last character flipped. *)
Fixpoint flip_last_bit (s : string) : string :=
  match s with
  | EmptyString => EmptyString
  | String c EmptyString => String (ascii_of_N (N.lxor (N_of_ascii c) 1)) EmptyString
  | String c r => String c (flip_last_bit r)
  end.

Definition student : Mock.User.t :=
  {| Mock.User.id := "STU001"; Mock.User.name := "Arjun Patel"; Mock.User.role := "student";
     Mock.User.phone := "+91 9876543210"; Mock.User.rollNo := Some "CS21001";
     Mock.User.enrollmentNo := Some "EN2021CS001";
     Mock.User.course := Some "Computer Science Engineering";
     Mock.User.department := None; Mock.User.password := Some "student123" |}.

Definition data_structures : Mock.Subject.t :=
  {| Mock.Subject.id := "SUB001"; Mock.Subject.name := "Data Structures";
     Mock.Subject.code := "CS301"; Mock.Subject.facultyId := "FAC001" |}.

(** A mock database with one student, one subject and no session. *)
Definition db0 : Mock.MockDatabase :=
  {| Mock.users := {[ "STU001" := student ]};
     Mock.subjects := {[ "SUB001" := data_structures ]};
     Mock.sessions := ∅;
     Mock.attendance := ∅ |}.

(** The session that the faculty member creates, and its IN token. *)
Definition created : Mock.MockDatabase * (string * string) :=
  Mock.createSession db0 "FAC001" "SUB001" "2024-01-15" None (ticking 1700000000000).

Definition session_id : string := "SUB001:1700000000000".

Definition campus : Mock.Location := {| Mock.lat := 22.3039; Mock.lng := 73.3620 |}.

(** A payload for an IN scan of that session, one for an OUT scan, and one
    whose direction is neither. *)
Definition payload (scanType : string) : JsValue :=
  Mock.qrPayload_object session_id scanType 1700000000000 1700001800000.

Definition mock_session : Mock.Session.t :=
  {| Mock.Session.id := session_id; Mock.Session.subjectId := "SUB001";
     Mock.Session.facultyId := "FAC001"; Mock.Session.date := "2024-01-15";
     Mock.Session.inGenerationTs := iso 1700000000001;
     Mock.Session.outGenerationTs := None; Mock.Session.inQrToken := None;
     Mock.Session.outQrToken := None; Mock.Session.status := "active" |}.

(** The record of the student after an IN scan at the campus point, one
    minute after the session was created, and after an OUT scan an hour
    later. *)
Definition mock_record_in : Mock.AttendanceRecord.t :=
  {| Mock.AttendanceRecord.id := "STU001:" +:+ session_id;
     Mock.AttendanceRecord.sessionId := session_id;
     Mock.AttendanceRecord.studentId := "STU001";
     Mock.AttendanceRecord.subjectId := "SUB001";
     Mock.AttendanceRecord.inScanTs := Some (iso 1700000060000);
     Mock.AttendanceRecord.outScanTs := None;
     Mock.AttendanceRecord.inScanLocation := Some campus;
     Mock.AttendanceRecord.outScanLocation := None |}.

Definition mock_record_both : Mock.AttendanceRecord.t :=
  Mock.set_outScan mock_record_in (iso 1700003600000) campus.

Definition db_with (record : option Mock.AttendanceRecord.t) : Mock.MockDatabase :=
  {| Mock.users := {[ "STU001" := student ]};
     Mock.subjects := {[ "SUB001" := data_structures ]};
     Mock.sessions := {[ session_id := mock_session ]};
     Mock.attendance := match record with
                        | Some r => {[ "STU001:" +:+ session_id := r ]}
                        | None => ∅
                        end |}.

(** Four sessions of the subject; the student has both scans in three of
    them and only the IN scan in the fourth. *)
Definition session_n (n : string) : Mock.Session.t :=
  {| Mock.Session.id := "SUB001:" +:+ n; Mock.Session.subjectId := "SUB001";
     Mock.Session.facultyId := "FAC001"; Mock.Session.date := "2024-01-15";
     Mock.Session.inGenerationTs := iso 1700000000001;
     Mock.Session.outGenerationTs := None; Mock.Session.inQrToken := None;
     Mock.Session.outQrToken := None; Mock.Session.status := "active" |}.

Definition record_n (n : string) (complete : bool) : Mock.AttendanceRecord.t :=
  {| Mock.AttendanceRecord.id := "STU001:SUB001:" +:+ n;
     Mock.AttendanceRecord.sessionId := "SUB001:" +:+ n;
     Mock.AttendanceRecord.studentId := "STU001";
     Mock.AttendanceRecord.subjectId := "SUB001";
     Mock.AttendanceRecord.inScanTs := Some (iso 1700000060000);
     Mock.AttendanceRecord.outScanTs := if complete then Some (iso 1700003600000) else None;
     Mock.AttendanceRecord.inScanLocation := Some campus;
     Mock.AttendanceRecord.outScanLocation := if complete then Some campus else None |}.

Definition db_four : Mock.MockDatabase :=
  {| Mock.users := {[ "STU001" := student ]};
     Mock.subjects := {[ "SUB001" := data_structures ]};
     Mock.sessions :=
       <["SUB001:1" := session_n "1"]> (<["SUB001:2" := session_n "2"]>
       (<["SUB001:3" := session_n "3"]> {[ "SUB001:4" := session_n "4" ]}));
     Mock.attendance :=
       <["STU001:SUB001:1" := record_n "1" true]> (<["STU001:SUB001:2" := record_n "2" true]>
       (<["STU001:SUB001:3" := record_n "3" false]>
          {[ "STU001:SUB001:4" := record_n "4" true ]})) |}.

(** The same on the server. *)
Definition a_student : Server.CurrentUser :=
  {| Server.user_id := "STU001"; Server.user_role := "student" |}.
Definition the_owner : Server.CurrentUser :=
  {| Server.user_id := "FAC001"; Server.user_role := "faculty" |}.
Definition a_colleague : Server.CurrentUser :=
  {| Server.user_id := "FAC002"; Server.user_role := "faculty" |}.

Definition server_campus : Server.Location := {| Server.lat := 22.3039; Server.lng := 73.3620 |}.

Definition store0 : Server.Store :=
  {| Server.students := ∅; Server.subjects := ∅; Server.sessions := ∅;
     Server.attendance := ∅ |}.

Definition server_created : Server.Store * Server.Response (string * string) :=
  Server.post_faculty_session store0 the_owner "SUB001" "2024-01-15" None
    (frozen 1700000000000).

Definition server_record_in : Server.AttendanceRecord.t :=
  {| Server.AttendanceRecord.id := "STU001:" +:+ session_id;
     Server.AttendanceRecord.sessionId := JStr session_id;
     Server.AttendanceRecord.studentId := "STU001";
     Server.AttendanceRecord.subjectId := "SUB001";
     Server.AttendanceRecord.inScanTs := Some (iso 1700000060000);
     Server.AttendanceRecord.outScanTs := None;
     Server.AttendanceRecord.inScanLocation := Some server_campus;
     Server.AttendanceRecord.outScanLocation := None |}.

Definition server_record_both : Server.AttendanceRecord.t :=
  Server.set_outScan server_record_in (iso 1700003600000) server_campus.

(** The token that the server issues for the session, with a clock that
    stands still: it expires at 1700001800000. *)
Definition issued : string * string :=
  Server.generateQRToken session_id Server.IN (frozen 1700000000000).

Definition server_session : Server.Session.t :=
  {| Server.Session.id := session_id; Server.Session.subjectId := "SUB001";
     Server.Session.facultyId := "FAC001"; Server.Session.date := "2024-01-15";
     Server.Session.startTime := iso 1700000000000;
     Server.Session.inGenerationTs := iso 1700000000000;
     Server.Session.inQrToken := fst issued;
     Server.Session.inQrSignature := snd issued;
     Server.Session.status := "active";
     Server.Session.outGenerationTs := None;
     Server.Session.outQrToken := None;
     Server.Session.outQrSignature := None |}.

Definition store_with (record : option Server.AttendanceRecord.t) : Server.Store :=
  {| Server.students := ∅; Server.subjects := ∅;
     Server.sessions := {[ "session:" +:+ session_id := server_session ]};
     Server.attendance := match record with
                          | Some r => {[ "attendance:STU001:" +:+ session_id := r ]}
                          | None => ∅
                          end |}.

End Demo.

(** ** The rest of the mock backend *)

Module MockQueries.

(** [const { password: _, ...rest } = user] *)
Definition without_password (user : Mock.User.t) : Mock.User.t :=
  {| Mock.User.id := Mock.User.id user; Mock.User.name := Mock.User.name user;
     Mock.User.role := Mock.User.role user; Mock.User.phone := Mock.User.phone user;
     Mock.User.rollNo := Mock.User.rollNo user;
     Mock.User.enrollmentNo := Mock.User.enrollmentNo user;
     Mock.User.course := Mock.User.course user;
     Mock.User.department := Mock.User.department user;
     Mock.User.password := None |}.

(** One element of the [attendance] array of [getSessionAttendance]: the
    record, spread, with three more members. *)
Record AttendanceWithStudent := {
  record : Mock.AttendanceRecord.t;
  studentName : string;
  rollNo : string;
  isComplete : bool
}.

(** The value that [getSessionAttendance] returns. *)
Record SessionAttendance := {
  session : Mock.Session.t;
  attendance : list AttendanceWithStudent;
  totalScans : nat;
  completeAttendance : nat
}.

(** [s || 'Unknown'] for an optional string. *)
Definition or_unknown (s : option string) : string :=
  match s with
  | Some t => if String.eqb t "" then "Unknown" else t
  | None => "Unknown"
  end.

(** [!!(record.inScanTs && record.outScanTs)] *)
Definition complete (r : Mock.AttendanceRecord.t) : bool :=
  Mock.truthy_field (Mock.AttendanceRecord.inScanTs r)
  && Mock.truthy_field (Mock.AttendanceRecord.outScanTs r).

Section Impl.
Context `{Host}.
Local Open Scope float_scope.

(** [async login(id, password)]: the token and the user without the
    password. *)
Definition login (db : Mock.MockDatabase) (id password : string) (now : float)
  : Completion (string * Mock.User.t) :=
  match Mock.users db !! id with
  | Some user =>
      if bool_decide (Mock.User.password user = Some password)
      then Return ("mock-jwt-token-" +:+ NumberToString now, without_password user)
      else Throw (Error "Invalid credentials")
  | None => Throw (Error "Invalid credentials")
  end.

(** [async getSubjects(facultyId?)] *)
Definition getSubjects (db : Mock.MockDatabase) (facultyId : option string)
  : list Mock.Subject.t :=
  let subjects := Mock.values (Mock.subjects db) in
  if Mock.truthy_field facultyId
  then filter (fun subject => Some (Mock.Subject.facultyId subject) = facultyId) subjects
  else subjects.

(** The callback that [getSessionAttendance] maps over the records. *)
Definition withStudent (db : Mock.MockDatabase) (r : Mock.AttendanceRecord.t)
  : AttendanceWithStudent :=
  let student := Mock.users db !! Mock.AttendanceRecord.studentId r in
  {| record := r;
     studentName := or_unknown (Mock.User.name <$> student);
     rollNo := or_unknown (student ≫= Mock.User.rollNo);
     isComplete := complete r |}.

(** [async getSessionAttendance(sessionId)] *)
Definition getSessionAttendance (db : Mock.MockDatabase) (sessionId : string)
  : Completion SessionAttendance :=
  match Mock.sessions db !! sessionId with
  | None => Throw (Error "Session not found")
  | Some session =>
      let sessionAttendance :=
        filter (fun r => Mock.AttendanceRecord.sessionId r = sessionId)
               (Mock.values (Mock.attendance db)) in
      Return {| session := session;
                attendance := map (withStudent db) sessionAttendance;
                totalScans := length sessionAttendance;
                completeAttendance :=
                  length (filter (fun r => complete r = true) sessionAttendance) |}
  end.

(** The sample data of [initializeData] and [createSampleSessions]. [now]
    is the time value of the one [new Date()] that the constructor reads;
    a [Date] made from a time value a day or two hours away has that time
    value. *)
Definition sample_users : list Mock.User.t :=
  [ {| Mock.User.id := "STU001"; Mock.User.name := "Arjun Patel"; Mock.User.role := "student";
       Mock.User.phone := "+91 9876543210"; Mock.User.rollNo := Some "CS21001";
       Mock.User.enrollmentNo := Some "EN2021CS001";
       Mock.User.course := Some "Computer Science Engineering";
       Mock.User.department := None; Mock.User.password := Some "student123" |};
    {| Mock.User.id := "STU002"; Mock.User.name := "Priya Sharma"; Mock.User.role := "student";
       Mock.User.phone := "+91 9876543211"; Mock.User.rollNo := Some "CS21002";
       Mock.User.enrollmentNo := Some "EN2021CS002";
       Mock.User.course := Some "Computer Science Engineering";
       Mock.User.department := None; Mock.User.password := Some "student123" |};
    {| Mock.User.id := "FAC001"; Mock.User.name := "Dr. Rajesh Kumar"; Mock.User.role := "faculty";
       Mock.User.phone := "+91 9876543220"; Mock.User.rollNo := None;
       Mock.User.enrollmentNo := None; Mock.User.course := None;
       Mock.User.department := Some "Computer Science";
       Mock.User.password := Some "faculty123" |};
    {| Mock.User.id := "FAC002"; Mock.User.name := "Prof. Meera Joshi"; Mock.User.role := "faculty";
       Mock.User.phone := "+91 9876543221"; Mock.User.rollNo := None;
       Mock.User.enrollmentNo := None; Mock.User.course := None;
       Mock.User.department := Some "Information Technology";
       Mock.User.password := Some "faculty123" |} ].

Definition sample_subjects : list Mock.Subject.t :=
  [ {| Mock.Subject.id := "SUB001"; Mock.Subject.name := "Data Structures";
       Mock.Subject.code := "CS301"; Mock.Subject.facultyId := "FAC001" |};
    {| Mock.Subject.id := "SUB002"; Mock.Subject.name := "Database Management Systems";
       Mock.Subject.code := "CS302"; Mock.Subject.facultyId := "FAC001" |};
    {| Mock.Subject.id := "SUB003"; Mock.Subject.name := "Operating Systems";
       Mock.Subject.code := "CS303"; Mock.Subject.facultyId := "FAC001" |};
    {| Mock.Subject.id := "SUB004"; Mock.Subject.name := "Web Development";
       Mock.Subject.code := "IT301"; Mock.Subject.facultyId := "FAC002" |};
    {| Mock.Subject.id := "SUB005"; Mock.Subject.name := "Computer Networks";
       Mock.Subject.code := "IT302"; Mock.Subject.facultyId := "FAC002" |} ].

(** [d.toISOString().split('T')[0]] *)
Definition iso_date (t : float) : string := hd EmptyString (split "T" (toISOString t)).

Definition sample_sessions (now : float) : list Mock.Session.t :=
  let yesterday := now - 24 * 60 * 60 * 1000 in
  [ {| Mock.Session.id := "SUB001:" +:+ NumberToString yesterday;
       Mock.Session.subjectId := "SUB001"; Mock.Session.facultyId := "FAC001";
       Mock.Session.date := iso_date yesterday;
       Mock.Session.inGenerationTs := toISOString yesterday;
       Mock.Session.outGenerationTs := Some (toISOString (yesterday + 2 * 60 * 60 * 1000));
       Mock.Session.inQrToken := None; Mock.Session.outQrToken := None;
       Mock.Session.status := "completed" |};
    {| Mock.Session.id := "SUB002:" +:+ NumberToString now;
       Mock.Session.subjectId := "SUB002"; Mock.Session.facultyId := "FAC001";
       Mock.Session.date := iso_date now;
       Mock.Session.inGenerationTs := toISOString now;
       Mock.Session.outGenerationTs := None;
       Mock.Session.inQrToken := None; Mock.Session.outQrToken := None;
       Mock.Session.status := "active" |} ].

Definition sample_attendance (now : float) : list Mock.AttendanceRecord.t :=
  let yesterday := now - 24 * 60 * 60 * 1000 in
  let campus := {| Mock.lat := 22.3039; Mock.lng := 73.3620 |} in
  [ {| Mock.AttendanceRecord.id := "STU001:SUB001:" +:+ NumberToString yesterday;
       Mock.AttendanceRecord.sessionId := "SUB001:" +:+ NumberToString yesterday;
       Mock.AttendanceRecord.studentId := "STU001";
       Mock.AttendanceRecord.subjectId := "SUB001";
       Mock.AttendanceRecord.inScanTs := Some (toISOString yesterday);
       Mock.AttendanceRecord.outScanTs := Some (toISOString (yesterday + 2 * 60 * 60 * 1000));
       Mock.AttendanceRecord.inScanLocation := Some campus;
       Mock.AttendanceRecord.outScanLocation := Some campus |};
    {| Mock.AttendanceRecord.id := "STU002:SUB001:" +:+ NumberToString yesterday;
       Mock.AttendanceRecord.sessionId := "SUB001:" +:+ NumberToString yesterday;
       Mock.AttendanceRecord.studentId := "STU002";
       Mock.AttendanceRecord.subjectId := "SUB001";
       Mock.AttendanceRecord.inScanTs := Some (toISOString yesterday);
       Mock.AttendanceRecord.outScanTs := None;
       Mock.AttendanceRecord.inScanLocation := Some campus;
       Mock.AttendanceRecord.outScanLocation := None |} ].

(** [items.forEach(x => map.set(key(x), x))] on an empty map. *)
Definition set_all {V} (key : V -> string) (items : list V) : gmap string V :=
  fold_left (fun m x => <[key x := x]> m) items ∅.

(** [new MockDatabase()] *)
Definition initializeData (now : float) : Mock.MockDatabase :=
  {| Mock.users := set_all Mock.User.id sample_users;
     Mock.subjects := set_all Mock.Subject.id sample_subjects;
     Mock.sessions := set_all Mock.Session.id (sample_sessions now);
     Mock.attendance := set_all Mock.AttendanceRecord.id (sample_attendance now) |}.

End Impl.
End MockQueries.

(** ** The session attendance route of the server *)

Module ServerQueries.

Record AttendanceWithStudent := {
  record : Server.AttendanceRecord.t;
  studentName : string;
  rollNo : option string;
  isComplete : bool
}.

Record SessionAttendance := {
  session : Server.Session.t;
  attendance : list AttendanceWithStudent;
  totalScans : nat;
  completeAttendance : nat
}.

Definition complete (r : Server.AttendanceRecord.t) : bool :=
  Server.truthy_field (Server.AttendanceRecord.inScanTs r)
  && Server.truthy_field (Server.AttendanceRecord.outScanTs r).

(** The loop of the route: a record whose student is not in the store is
    left out. *)
Definition withStudents (st : Server.Store) (records : list Server.AttendanceRecord.t)
  : list AttendanceWithStudent :=
  flat_map (fun r =>
              match Server.kv_get (Server.students st)
                      ("student:" +:+ Server.AttendanceRecord.studentId r) with
              | Some student => [ {| record := r;
                                     studentName := Server.User.name student;
                                     rollNo := Server.User.rollNo student;
                                     isComplete := complete r |} ]
              | None => []
              end) records.

(** [GET /session/:id/attendance] *)
Definition get_session_attendance (st : Server.Store) (currentUser : Server.CurrentUser)
    (sessionId : string) : Server.Response SessionAttendance :=
  match Server.kv_get (Server.sessions st) ("session:" +:+ sessionId) with
  | None => Server.JsonError "Session not found" 404
  | Some session =>
      if String.eqb (Server.user_role currentUser) "faculty"
         && negb (String.eqb (Server.Session.facultyId session) (Server.user_id currentUser))
      then Server.JsonError "Unauthorized" 403
      else
        let allAttendance := Server.kv_getByPrefix (Server.attendance st) "attendance:" in
        let sessionAttendance :=
          filter (fun r => js_strict_eq_str (Server.AttendanceRecord.sessionId r) sessionId = true)
                 allAttendance in
        Server.Json {| session := session;
                       attendance := withStudents st sessionAttendance;
                       totalScans := length sessionAttendance;
                       completeAttendance :=
                         length (filter (fun r => complete r = true) sessionAttendance) |}
  end.

(** [GET /subjects] *)
Definition get_subjects (st : Server.Store) (currentUser : Server.CurrentUser)
  : list Server.Subject.t :=
  if String.eqb (Server.user_role currentUser) "faculty"
  then
    let allSubjects := Server.kv_getByPrefix (Server.subjects st) "subject:" in
    filter (fun subject => Server.Subject.facultyId subject = Server.user_id currentUser)
           allSubjects
  else Server.kv_getByPrefix (Server.subjects st) "subject:".

End ServerQueries.

(** ** The helpers of the pages *)

Module Ui.

Section Impl.
Context `{Host}.
Local Open Scope float_scope.

(** [getAttendanceColor(percentage)] of the student page *)
Definition getAttendanceColor (percentage : float) : string :=
  if 85 <=? percentage then "text-green-600"
  else if 75 <=? percentage then "text-yellow-600"
  else "text-red-600".

(** [getAttendanceStatus(percentage)] of the student page *)
Definition getAttendanceStatus (percentage : float) : string :=
  if 85 <=? percentage then "Excellent"
  else if 75 <=? percentage then "Good"
  else "Below Average".

(** The variant of the badge of a subject on the student page:
    [percentage >= 85 ? 'default' : percentage >= 75 ? 'secondary' :
    'destructive']. *)
Definition badgeVariant (percentage : float) : string :=
  if 85 <=? percentage then "default"
  else if 75 <=? percentage then "secondary"
  else "destructive".

(** The overall figure of the student page, which it shows and passes to
    [getAttendanceStatus]: [profileData?.attendance ? Math.round(sum /
    length) : 0], the sum being a [reduce] from 0 over the percentages of
    the entries. [None] is a profile that is absent or has no attendance
    list; a list, even an empty one, is truthy. *)
Definition overallAttendance (attendance : option (list float)) : float :=
  match attendance with
  | Some percentages =>
      Math_round (fold_left (fun acc percentage => acc + percentage) percentages 0
                  / float_of_nat (length percentages))
  | None => 0
  end.

(** The text that [generateQRDataURL(text)] writes in the centre of the
    image: the try block that splits the text, parses its first part and
    reads [scanType]. *)
Definition generateQRDataURL_label (text : string) : string :=
  let '(qrPayload, _) := destructure2 (split ":" text) in
  match (data ← JSON_parse qrPayload;
         scanType ← js_get "scanType" data;
         Return (if js_truthy scanType then js_to_string scanType else "QR")) with
  | Return displayText => displayText
  | Throw _ => "SCAN"
  end.

(** [handleManualInput] of the scanner: what is passed to [onScanResult],
    if anything. [trim] is [String.prototype.trim]. *)
Definition handleManualInput (trim : string -> string) (manualQRInput : string)
    (clock : Clock) : option string :=
  if String.eqb (trim manualQRInput) "" then None
  else
    let qrData := trim manualQRInput in
    if String.eqb qrData "DEMO-IN" || String.eqb qrData "DEMO-OUT" then
      let sessionId := "SUB001:" +:+ NumberToString (clock 0%nat) in
      let scanType := if String.eqb qrData "DEMO-OUT" then "OUT" else "IN" in
      let timestamp := clock 1%nat in
      let expiry := timestamp + 30 * 60 * 1000 in
      let demoQRPayload :=
        JSON_stringify (JObj [("sessionId", JStr sessionId); ("scanType", JStr scanType);
                              ("timestamp", JNum timestamp); ("expiry", JNum expiry)]) in
      let signature := "demo-signature-" +:+ NumberToString timestamp in
      Some (demoQRPayload +:+ ":" +:+ signature)
    else Some qrData.

End Impl.
End Ui.

(** ** The states of the mock database *)

Section MockStates.
Context `{Host}.

(** A session is stored under its id, and the id is the subject id, a
    colon, and a text without a colon. *)
Definition session_ok (key : string) (session : Mock.Session.t) : Prop :=
  Mock.Session.id session = key
  /\ exists t, key = Mock.Session.subjectId session +:+ ":" +:+ t /\ no_colon t.

(** An attendance record is stored under the key made of its student and
    its session, and its session exists and is of the record's subject. *)
Definition record_ok (db : Mock.MockDatabase) (key : string) (record : Mock.AttendanceRecord.t)
  : Prop :=
  key = Mock.AttendanceRecord.studentId record +:+ ":" +:+ Mock.AttendanceRecord.sessionId record
  /\ exists session,
       Mock.sessions db !! Mock.AttendanceRecord.sessionId record = Some session
       /\ Mock.Session.subjectId session = Mock.AttendanceRecord.subjectId record.

Definition wf (db : Mock.MockDatabase) : Prop :=
  (forall key session, Mock.sessions db !! key = Some session -> session_ok key session)
  /\ (forall key record, Mock.attendance db !! key = Some record -> record_ok db key record).

(** One call of a method that writes: the three of the class, and the
    record stage of [scanAttendance] given any payload. *)
Inductive mock_step : Mock.MockDatabase -> Mock.MockDatabase -> Prop :=
| step_createSession db facultyId subjectId date startTime clock :
    mock_step db (fst (Mock.createSession db facultyId subjectId date startTime clock))
| step_generateOutQR db sessionId clock :
    mock_step db (fst (Mock.generateOutQR db sessionId clock))
| step_scanAttendance db studentId qrData lat lng clock :
    mock_step db (fst (Mock.scanAttendance db studentId qrData lat lng clock))
| step_record db studentId qrPayload lat lng now :
    mock_step db (fst (Mock.scanAttendance_record db studentId qrPayload lat lng now)).

(** The states that the singleton [mockDB], constructed at time [now],
    can be in. *)
Inductive mock_reachable (now : float) : Mock.MockDatabase -> Prop :=
| reachable_new : mock_reachable now (MockQueries.initializeData now)
| reachable_step db db' : mock_reachable now db -> mock_step db db' -> mock_reachable now db'.

(** The host prints no number with a colon in it. *)
Definition numbers_without_colon : Prop := forall x, no_colon (NumberToString_other x).

End MockStates.

(** ** Decimal digits *)

(** The number that a run of decimal digits denotes on top of [acc],
    computed as [take_digits] computes it. *)
Fixpoint digits_value (d : Decimal.uint) (acc : Z) : Z :=
  match d with
  | Decimal.Nil => acc
  | Decimal.D0 l => digits_value l (acc * 10 + 0)
  | Decimal.D1 l => digits_value l (acc * 10 + 1)
  | Decimal.D2 l => digits_value l (acc * 10 + 2)
  | Decimal.D3 l => digits_value l (acc * 10 + 3)
  | Decimal.D4 l => digits_value l (acc * 10 + 4)
  | Decimal.D5 l => digits_value l (acc * 10 + 5)
  | Decimal.D6 l => digits_value l (acc * 10 + 6)
  | Decimal.D7 l => digits_value l (acc * 10 + 7)
  | Decimal.D8 l => digits_value l (acc * 10 + 8)
  | Decimal.D9 l => digits_value l (acc * 10 + 9)
  end.

(** A text that does not start with a decimal digit. *)
Definition not_a_digit (rest : string) : Prop :=
  match rest with
  | String c _ => digit_of c = None
  | EmptyString => True
  end.

(** * Properties *)

(** ** Comparison of floats *)

Section FloatFacts.

Lemma SFcompare_swap (x y : spec_float) :
  SFcompare y x = option_map CompOpp (SFcompare x y).
Proof.
  destruct x as [sx|sx| |sx mx ex], y as [sy|sy| |sy my ey]; simpl;
    try reflexivity;
    try (destruct sx; reflexivity); try (destruct sy; reflexivity);
    try (destruct sx, sy; reflexivity).
  rewrite (Z.compare_antisym ey ex).
  rewrite !Pos.compare_cont_spec; simpl.
  rewrite (Pos.compare_antisym my mx).
  destruct sx, sy; simpl; try reflexivity;
    destruct (ey ?= ex); simpl; try reflexivity;
    destruct (my ?= mx)%positive; reflexivity.
Qed.

Lemma SFcompare_refl (x : spec_float) :
  SFcompare x x = None \/ SFcompare x x = Some Eq.
Proof.
  destruct x as [sx|sx| |sx mx ex]; simpl; auto.
  - destruct sx; auto.
  - rewrite Z.compare_refl, Pos.compare_cont_spec, Pos.compare_refl.
    destruct sx; auto.
Qed.

Lemma ltb_irrefl (x : float) : (x <? x)%float = false.
Proof.
  rewrite FloatAxioms.ltb_spec. unfold SFltb.
  destruct (SFcompare_refl (Prim2SF x)) as [E|E]; rewrite E; reflexivity.
Qed.

Lemma leb_not_ltb (x y : float) : (x <=? y)%float = true -> (y <? x)%float = false.
Proof.
  rewrite FloatAxioms.leb_spec, FloatAxioms.ltb_spec. unfold SFleb, SFltb.
  rewrite (SFcompare_swap (Prim2SF x) (Prim2SF y)).
  destruct (SFcompare (Prim2SF x) (Prim2SF y)) as [[ | | ]|]; simpl; congruence.
Qed.

Lemma ltb_not_leb (x y : float) : (x <? y)%float = true -> (y <=? x)%float = false.
Proof.
  rewrite FloatAxioms.leb_spec, FloatAxioms.ltb_spec. unfold SFleb, SFltb.
  rewrite (SFcompare_swap (Prim2SF x) (Prim2SF y)).
  destruct (SFcompare (Prim2SF x) (Prim2SF y)) as [[ | | ]|]; simpl; congruence.
Qed.

Lemma ltb_asym (x y : float) : (x <? y)%float = true -> (y <? x)%float = false.
Proof.
  rewrite !FloatAxioms.ltb_spec. unfold SFltb.
  rewrite (SFcompare_swap (Prim2SF x) (Prim2SF y)).
  destruct (SFcompare (Prim2SF x) (Prim2SF y)) as [[ | | ]|]; simpl; congruence.
Qed.

Lemma is_nan_spec (x : float) : PrimFloat.is_nan x = false -> Prim2SF x <> S754_nan.
Proof.
  unfold PrimFloat.is_nan. rewrite FloatAxioms.eqb_spec. unfold SFeqb.
  intros E N. rewrite N in E. discriminate.
Qed.

(** Away from NaN, [y < x] is the negation of [x <= y]. *)
Lemma ltb_negb_leb (x y : float) :
  PrimFloat.is_nan x = false -> PrimFloat.is_nan y = false ->
  (y <? x)%float = negb (x <=? y)%float.
Proof.
  intros Hx Hy. apply is_nan_spec in Hx. apply is_nan_spec in Hy.
  rewrite FloatAxioms.leb_spec, FloatAxioms.ltb_spec. unfold SFleb, SFltb.
  rewrite (SFcompare_swap (Prim2SF x) (Prim2SF y)).
  destruct (Prim2SF x) as [sx|sx| |sx mx ex]; try congruence;
    destruct (Prim2SF y) as [sy|sy| |sy my ey]; try congruence; simpl;
    try reflexivity;
    try (destruct sx; reflexivity); try (destruct sy; reflexivity);
    try (destruct sx, sy; reflexivity).
  destruct sx, sy; simpl; try reflexivity;
    destruct (ex ?= ey); simpl; try reflexivity;
    destruct (Pos.compare_cont Eq mx my); reflexivity.
Qed.

Lemma is_nan_true (x : float) : PrimFloat.is_nan x = true -> Prim2SF x = S754_nan.
Proof.
  unfold PrimFloat.is_nan. rewrite FloatAxioms.eqb_spec. unfold SFeqb.
  destruct (Prim2SF x) as [s|s| |s m e]; simpl; try reflexivity.
  - discriminate.
  - destruct s; discriminate.
  - rewrite Z.compare_refl, Pos.compare_cont_spec, Pos.compare_refl.
    destruct s; discriminate.
Qed.

Lemma leb_nan_r (x y : float) : PrimFloat.is_nan x = true -> (y <=? x)%float = false.
Proof.
  intros Hnan. apply is_nan_true in Hnan.
  rewrite FloatAxioms.leb_spec. unfold SFleb, SFcompare. rewrite Hnan.
  destruct (Prim2SF y); reflexivity.
Qed.

Lemma leb_nan_l (x y : float) : PrimFloat.is_nan x = true -> (x <=? y)%float = false.
Proof.
  intros Hnan. apply is_nan_true in Hnan.
  rewrite FloatAxioms.leb_spec. unfold SFleb, SFcompare. rewrite Hnan. reflexivity.
Qed.

Lemma ltb_nan_right (x y : float) : PrimFloat.is_nan x = true -> (y <? x)%float = false.
Proof.
  intros Hnan. apply is_nan_true in Hnan.
  rewrite FloatAxioms.ltb_spec. unfold SFltb, SFcompare. rewrite Hnan.
  destruct (Prim2SF y); reflexivity.
Qed.

End FloatFacts.

(** ** Splitting at a colon *)

Section SplitFacts.

Lemma split_nonempty (c : ascii) (s : string) : split c s <> [].
Proof.
  destruct s as [|a r]; simpl; [discriminate|].
  destruct (ascii_eqb a c); [discriminate|].
  destruct (split c r); discriminate.
Qed.

(** A text without the separator, the separator, and any rest: the first
    part of the split is the text, the other parts are those of the rest. *)
Lemma split_app (c : ascii) (s rest : string) :
  contains c s = false ->
  split c (s +:+ String c rest) = s :: split c rest.
Proof.
  unfold contains.
  induction s as [|a r IH]; simpl; intros Hc.
  - unfold ascii_eqb. rewrite Ascii.eqb_refl. reflexivity.
  - apply orb_false_iff in Hc as [Ha Hr].
    unfold ascii_eqb in *. rewrite Ascii.eqb_sym in Ha. rewrite Ha.
    rewrite (IH Hr). reflexivity.
Qed.

Lemma split_hd_app (c : ascii) (s rest : string) :
  contains c s = false ->
  fst (destructure2 (split c (s +:+ String c rest))) = s.
Proof. intros Hc. rewrite split_app by exact Hc. reflexivity. Qed.

(** The first part of a split does not contain the separator. *)
Lemma split_hd_no_separator (c : ascii) (s : string) :
  contains c (fst (destructure2 (split c s))) = false.
Proof.
  unfold destructure2, contains. cbn [fst].
  induction s as [|a r IH]; [reflexivity|].
  cbn [split]. destruct (ascii_eqb a c) eqn:E; [reflexivity|].
  pose proof (split_nonempty c r) as Hne.
  destruct (split c r) as [|h t]; [contradiction|].
  cbn in *. unfold ascii_eqb in *. rewrite Ascii.eqb_sym, E. exact IH.
Qed.

End SplitFacts.

(** ** A text without a colon is not a JSON object with members *)

Section ParseFacts.

Lemma no_colon_cons (a : ascii) (r : string) :
  no_colon (String a r) -> a <> ":"%char /\ no_colon r.
Proof.
  unfold no_colon, contains. cbn [list_ascii_of_string existsb]. intros E.
  apply orb_false_iff in E as [Ha Hr]. split; [|exact Hr].
  unfold ascii_eqb in Ha. destruct (Ascii.eqb_spec ":" a) as [Heq|Hne]; [discriminate|].
  congruence.
Qed.

Lemma no_colon_skip_ws (s : string) : no_colon s -> no_colon (skip_ws s).
Proof.
  induction s as [|a r IH]; intros Hn; [exact Hn|].
  cbn. destruct (is_ws a); [|exact Hn].
  apply IH. apply no_colon_cons in Hn. tauto.
Qed.

Lemma no_colon_parse_chars (n : nat) :
  forall s k rest,
    (String.length s <= n)%nat -> no_colon s -> parse_chars s = Some (k, rest) -> no_colon rest.
Proof.
  induction n as [|n IH]; intros s k rest Hlen Hn.
  - destruct s; [discriminate|]. cbn in Hlen. lia.
  - destruct s as [|c r]; [discriminate|].
    cbn in Hlen. apply no_colon_cons in Hn as [_ Hr].
    cbn [parse_chars]. cbv zeta.
    destruct (N_of_ascii c =? 34)%N; [intros [= _ <-]; exact Hr|].
    destruct (N_of_ascii c =? 92)%N.
    + destruct r as [|e r1]; [discriminate|].
      cbn in Hlen. apply no_colon_cons in Hr as [_ Hr1].
      assert (Hsimple : forall out,
                 match parse_chars r1 with
                 | Some (t, rest0) => Some (String out t, rest0)
                 | None => None
                 end = Some (k, rest) -> no_colon rest).
      { intros out. destruct (parse_chars r1) as [[t rest0]|] eqn:E; [|discriminate].
        intros [= _ <-]. apply (IH r1 t rest0); [lia|exact Hr1|exact E]. }
      repeat (match goal with
              | |- (if ?b then _ else _) = _ -> _ => destruct b; [apply Hsimple|]
              end).
      destruct (N_of_ascii e =? 117)%N; [|discriminate].
      destruct r1 as [|h1 [|h2 [|h3 [|h4 r2]]]]; try discriminate.
      destruct (hex_of h1), (hex_of h2), (hex_of h3), (hex_of h4); try discriminate.
      destruct (parse_chars r2) as [[t rest0]|] eqn:E; [|discriminate].
      intros [= _ <-]. apply (IH r2 t rest0); [cbn in Hlen; lia| |exact E].
      repeat (apply no_colon_cons in Hr1 as [_ Hr1]). exact Hr1.
    + destruct (N_of_ascii c <? 32)%N; [discriminate|].
      destruct (parse_chars r) as [[t rest0]|] eqn:E; [|discriminate].
      intros [= _ <-]. apply (IH r t rest0); [lia|exact Hr|exact E].
Qed.

Lemma parse_members_needs_colon (fuel : nat) (s : string) (acc : list (string * JsValue)) :
  no_colon s -> parse_members fuel s acc = None.
Proof.
  intros Hn. destruct fuel as [|fuel]; [reflexivity|].
  cbn [parse_members].
  pose proof (no_colon_skip_ws s Hn) as Hs.
  destruct (skip_ws s) as [|q r]; [reflexivity|].
  apply no_colon_cons in Hs as [_ Hr].
  destruct (ascii_eqb q dquote); [|reflexivity].
  destruct (parse_chars r) as [[k rest]|] eqn:E; [|reflexivity].
  pose proof (no_colon_parse_chars _ r k rest (le_n _) Hr E) as Hrest.
  apply no_colon_skip_ws in Hrest.
  destruct (skip_ws rest) as [|c rest1]; [reflexivity|].
  apply no_colon_cons in Hrest as [Hc _].
  destruct c as [[] [] [] [] [] [] [] []]; try reflexivity.
  contradiction Hc. reflexivity.
Qed.

Lemma parse_elements_array (fuel : nat) :
  forall s acc v rest, parse_elements fuel s acc = Some (v, rest) -> exists l, v = JArr l.
Proof.
  induction fuel as [|fuel IH]; intros s acc v rest; [discriminate|].
  cbn [parse_elements].
  destruct (parse_value fuel s) as [[v1 rest1]|]; [|discriminate].
  destruct (skip_ws rest1) as [|c rest2]; [discriminate|].
  destruct c as [[] [] [] [] [] [] [] []]; try discriminate;
    first [apply IH | intros [= <- _]; eauto].
Qed.

(** The value of a colon-free text is not an object with members. *)
Lemma no_colon_parse_value (fuel : nat) (s : string) (v : JsValue) (rest : string) :
  no_colon s -> parse_value fuel s = Some (v, rest) ->
  forall members, v = JObj members -> members = [].
Proof.
  intros Hn E members ->.
  destruct fuel as [|fuel]; [discriminate|].
  cbn [parse_value] in E.
  pose proof (no_colon_skip_ws s Hn) as Hs.
  destruct (skip_ws s) as [|c r]; [discriminate|].
  apply no_colon_cons in Hs as [_ Hr]. cbv zeta in E.
  destruct (N_of_ascii c =? 123)%N.
  { rewrite (parse_members_needs_colon fuel r [] Hr) in E.
    destruct (skip_ws r) as [|c1 r1]; [discriminate|].
    destruct c1 as [[] [] [] [] [] [] [] []]; try discriminate.
    injection E as <- _. reflexivity. }
  destruct (N_of_ascii c =? 91)%N.
  { destruct (parse_elements fuel r []) as [[v1 rest1]|] eqn:Ee.
    - apply parse_elements_array in Ee as [l ->].
      destruct (skip_ws r) as [|c1 r1]; [discriminate|].
      destruct c1 as [[] [] [] [] [] [] [] []]; discriminate.
    - destruct (skip_ws r) as [|c1 r1]; [discriminate|].
      destruct c1 as [[] [] [] [] [] [] [] []]; discriminate. }
  destruct (N_of_ascii c =? 34)%N.
  { destruct (parse_chars r) as [[t rest0]|]; discriminate. }
  destruct (N_of_ascii c =? 116)%N.
  { destruct (expect_word _ _); discriminate. }
  destruct (N_of_ascii c =? 102)%N.
  { destruct (expect_word _ _); discriminate. }
  destruct (N_of_ascii c =? 110)%N.
  { destruct (expect_word _ _); discriminate. }
  destruct (parse_number _) as [[x rest0]|]; discriminate.
Qed.

(** Every property of the value of a colon-free text is undefined, or the
    property access throws. *)
Lemma no_colon_value (text : string) (v : JsValue) (k : string) :
  no_colon text -> JSON_parse text = Return v ->
  js_get k v = Return JUndefined \/ js_get k v = Throw TypeError.
Proof.
  intros Hn. unfold JSON_parse.
  destruct (parse_value _ text) as [[v' rest]|] eqn:E; [|discriminate].
  destruct (skip_ws rest); [|discriminate]. intros [= <-].
  pose proof (no_colon_parse_value _ _ _ _ Hn E) as Hobj.
  destruct v' as [| |b|x|str|l|members]; cbn; auto.
  rewrite (Hobj members eq_refl). auto.
Qed.

Lemma ltb_nan_r (x : float) : (x <? nan)%float = false.
Proof.
  rewrite FloatAxioms.ltb_spec. unfold SFltb.
  change (Prim2SF nan) with S754_nan.
  destruct (Prim2SF x); reflexivity.
Qed.

Lemma ltb_nan_l (x : float) : (nan <? x)%float = false.
Proof.
  rewrite FloatAxioms.ltb_spec. unfold SFltb.
  change (Prim2SF nan) with S754_nan. reflexivity.
Qed.

End ParseFacts.


(** ** The claims *)

Section Claims.
Context `{Host}.

Lemma payload_head_no_colon : contains ":" payload_head = false.
Proof. reflexivity. Qed.

Lemma payload_head_not_json : JSON_parse payload_head = Throw SyntaxError.
Proof. reflexivity. Qed.

(** A generated payload, followed by anything, is [payload_head], a colon,
    and a rest. *)
Lemma stringify_payload_head (sessionId scanType : string) (t1 t2 : float) (tail : string) :
  exists rest,
    JSON_stringify (JObj [("sessionId", JStr sessionId); ("scanType", JStr scanType);
                          ("timestamp", JNum t1); ("expiry", JNum t2)]) +:+ tail
    = payload_head +:+ String ":" rest.
Proof.
  unfold JSON_stringify. cbn. eexists. reflexivity.
Qed.

Lemma split_wire_head (sessionId scanType : string) (t1 t2 : float) (tail : string) :
  fst (destructure2 (split ":"
        (JSON_stringify (JObj [("sessionId", JStr sessionId); ("scanType", JStr scanType);
                               ("timestamp", JNum t1); ("expiry", JNum t2)]) +:+ tail)))
  = payload_head.
Proof.
  destruct (stringify_payload_head sessionId scanType t1 t2 tail) as [rest ->].
  apply split_hd_app, payload_head_no_colon.
Qed.

Lemma verifyQRToken_head (signature : option string) (now : float) :
  Server.verifyQRToken payload_head signature now = JBool false.
Proof.
  unfold Server.verifyQRToken.
  destruct (negb _); [reflexivity|].
  rewrite payload_head_not_json. reflexivity.
Qed.

(** *** C2: encode, join with a colon, decode *)

Lemma server_decode_fresh (sessionId : string) (scanType : Server.ScanType)
    (clock : Clock) (now : float) :
  let tk := Server.generateQRToken sessionId scanType clock in
  Server.post_attendance_scan_decode (fst tk +:+ ":" +:+ snd tk) now = JBool false.
Proof.
  unfold Server.post_attendance_scan_decode, Server.generateQRToken. cbv zeta.
  cbn [fst snd].
  pose proof (split_wire_head sessionId (Server.ScanType_string scanType) (clock 0%nat)
                (clock 1%nat + 30 * 60 * 1000)%float) as Hhd.
  match goal with
  | |- context [destructure2 (split ":" (_ +:+ ?tail))] => specialize (Hhd tail)
  end.
  destruct (destructure2 _) as [token signature]. cbn [fst] in Hhd. subst token.
  apply verifyQRToken_head.
Qed.

Lemma mock_decode_generated (sessionId scanType : string) (t1 t2 : float)
    (tail : string) (now : float) :
  Mock.scanAttendance_decode
    (JSON_stringify (Mock.qrPayload_object sessionId scanType t1 t2) +:+ tail) now
  = Throw (Error "Invalid QR code format").
Proof.
  unfold Mock.scanAttendance_decode, Mock.qrPayload_object.
  pose proof (split_wire_head sessionId scanType t1 t2 tail) as Hhd.
  destruct (destructure2 _) as [token signature]. cbn [fst] in Hhd. subst token.
  unfold Mock.scanAttendance_parse. rewrite payload_head_not_json. reflexivity.
Qed.

(** C2 (the code departs from it). The claim: decoding a freshly encoded
    wire token, payload and signature joined by one colon, returns the
    session id and the direction that were encoded. In the code the decoder
    splits the wire token at every colon and keeps the first two parts; the
    payload is a JSON object, whose first colon follows its first key, so
    the part taken for the payload is never a JSON text. Whatever the
    session id, the direction and the time: the server's decoding of its own
    token is [false], the route answers with an error and writes nothing;
    the mock's decoding of the tokens of [createSession] and of
    [generateOutQR] throws "Invalid QR code format", and [scanAttendance]
    throws and writes nothing. *)
Theorem C2_fresh_token_is_rejected :
  (forall sessionId scanType clock now,
      let tk := Server.generateQRToken sessionId scanType clock in
      Server.post_attendance_scan_decode (fst tk +:+ ":" +:+ snd tk) now = JBool false)
  /\ (forall st user sessionId scanType clock lat lng clock',
      let tk := Server.generateQRToken sessionId scanType clock in
      exists error status,
        Server.post_attendance_scan st user (fst tk +:+ ":" +:+ snd tk) lat lng clock'
        = (st, Server.JsonError error status))
  /\ (forall db facultyId subjectId date startTime clock now,
      Mock.scanAttendance_decode
        (snd (snd (Mock.createSession db facultyId subjectId date startTime clock))) now
      = Throw (Error "Invalid QR code format"))
  /\ (forall db sessionId clock wire now,
      snd (Mock.generateOutQR db sessionId clock) = Return wire ->
      Mock.scanAttendance_decode wire now = Throw (Error "Invalid QR code format"))
  /\ (forall db facultyId subjectId date startTime clock studentId lat lng clock',
      let created := Mock.createSession db facultyId subjectId date startTime clock in
      exists e,
        Mock.scanAttendance (fst created) studentId (snd (snd created)) lat lng clock'
        = (fst created, Throw e)).
Proof.
  split; [|split; [|split; [|split]]].
  - intros. apply server_decode_fresh.
  - intros st user sessionId scanType clock lat lng clock' tk.
    unfold Server.post_attendance_scan.
    destruct (negb (String.eqb _ _)); [eauto|].
    destruct (negb (Server.isWithinCampus _ _)); [eauto|].
    subst tk. rewrite server_decode_fresh. cbn. eauto.
  - intros db facultyId subjectId date startTime clock now.
    unfold Mock.createSession.
    destruct (match startTime with Some _ => _ | None => _ end) as [ts k].
    cbn [snd]. apply mock_decode_generated.
  - intros db sessionId clock wire now.
    unfold Mock.generateOutQR.
    destruct (Mock.sessions db !! sessionId); cbn [snd]; [|discriminate].
    intros [= <-]. apply mock_decode_generated.
  - intros db facultyId subjectId date startTime clock studentId lat lng clock' created.
    unfold Mock.scanAttendance.
    destruct (Mock.scanAttendance_geofence lat lng); [|eauto].
    subst created. unfold Mock.createSession.
    destruct (match startTime with Some _ => _ | None => _ end) as [ts k].
    cbn [snd fst]. rewrite mock_decode_generated. eauto.
Qed.

(** X1. No wire string at all gets through the decoders: the part before the
    first colon has no colon, so it is not an object with an [expiry], a
    [sessionId] or a [scanType]. The server's decoding is always [false];
    the scan never records anything, in the server or in the mock. The
    statements about the record step (C6, C10) are therefore made of that
    step, given a payload. *)
Theorem scan_never_records :
  (forall qrData now, Server.post_attendance_scan_decode qrData now = JBool false)
  /\ (forall st user qrData lat lng clock,
      exists error status,
        Server.post_attendance_scan st user qrData lat lng clock
        = (st, Server.JsonError error status))
  /\ (forall db studentId qrData lat lng clock,
      exists e, Mock.scanAttendance db studentId qrData lat lng clock = (db, Throw e)).
Proof.
  assert (Hserver : forall qrData now,
             Server.post_attendance_scan_decode qrData now = JBool false).
  { intros qrData now. unfold Server.post_attendance_scan_decode.
    pose proof (split_hd_no_separator ":" qrData) as Hn.
    destruct (destructure2 (split ":" qrData)) as [token signature]. cbn [fst] in Hn.
    unfold Server.verifyQRToken. destruct (negb _); [reflexivity|].
    destruct (JSON_parse token) as [v|e] eqn:Ep; [|reflexivity]. cbn.
    destruct (no_colon_value token v "expiry" Hn Ep) as [-> | ->]; [|reflexivity].
    cbn. unfold js_gt. cbn [ToNumber]. rewrite ltb_nan_r. reflexivity. }
  split; [exact Hserver|]. split.
  - intros st user qrData lat lng clock. unfold Server.post_attendance_scan.
    destruct (negb (String.eqb _ _)); [eauto|].
    destruct (negb (Server.isWithinCampus _ _)); [eauto|].
    rewrite Hserver. cbn. eauto.
  - intros db studentId qrData lat lng clock. unfold Mock.scanAttendance.
    destruct (Mock.scanAttendance_geofence lat lng); [|eauto].
    unfold Mock.scanAttendance_decode.
    pose proof (split_hd_no_separator ":" qrData) as Hn.
    destruct (destructure2 (split ":" qrData)) as [token signature]. cbn [fst] in Hn.
    unfold Mock.scanAttendance_parse.
    destruct (JSON_parse token) as [v|e] eqn:Ep; cbn; [|eauto].
    destruct (no_colon_value token v "expiry" Hn Ep) as [E | E]; rewrite E; cbn; [|eauto].
    unfold js_lt. cbn [ToNumber]. rewrite ltb_nan_l.
    unfold Mock.scanAttendance_record.
    destruct (no_colon_value token v "sessionId" Hn Ep) as [Es | Es];
      destruct (no_colon_value token v "scanType" Hn Ep) as [Et | Et];
      rewrite Es; try rewrite Et; cbn; eauto.
Qed.

(** *** C5: the expiry test *)

(** The server's test on a well-signed token whose payload carries the
    number [expiry]: accepted when [expiry > now], rejected otherwise. *)
Lemma server_expiry_test (token : string) (payload : JsValue) (expiry now : float) :
  JSON_parse token = Return payload ->
  js_get "expiry" payload = Return (JNum expiry) ->
  Server.verifyQRToken token (Some (hmac_sha256_hex Server.JWT_SECRET token)) now
  = if (now <? expiry)%float then payload else JBool false.
Proof.
  intros Hparse Hexp. unfold Server.verifyQRToken.
  rewrite bool_decide_eq_true_2 by reflexivity. cbn [negb].
  rewrite Hparse. cbn. rewrite Hexp. reflexivity.
Qed.

(** The mock's test on a token whose payload carries the number [expiry]:
    expired when [expiry < now], accepted otherwise. *)
Lemma mock_expiry_test (token : string) (payload : JsValue) (expiry now : float) :
  JSON_parse token = Return payload ->
  js_get "expiry" payload = Return (JNum expiry) ->
  Mock.scanAttendance_parse token now
  = if (expiry <? now)%float then Throw (Error "QR code has expired") else Return payload.
Proof.
  intros Hparse Hexp. unfold Mock.scanAttendance_parse.
  rewrite Hparse. cbn. rewrite Hexp. reflexivity.
Qed.

(** X2. Given the token part and the signature, strictly after the
    expiry both programs reject, strictly before both accept. *)
Lemma expiry_test_off_boundary (token : string) (payload : JsValue) (expiry now : float) :
  JSON_parse token = Return payload ->
  js_get "expiry" payload = Return (JNum expiry) ->
  ((expiry <? now)%float = true ->
     Server.verifyQRToken token (Some (hmac_sha256_hex Server.JWT_SECRET token)) now = JBool false
     /\ Mock.scanAttendance_parse token now = Throw (Error "QR code has expired"))
  /\ ((now <? expiry)%float = true ->
     Server.verifyQRToken token (Some (hmac_sha256_hex Server.JWT_SECRET token)) now = payload
     /\ Mock.scanAttendance_parse token now = Return payload).
Proof.
  intros Hparse Hexp.
  rewrite (server_expiry_test _ _ _ _ Hparse Hexp), (mock_expiry_test _ _ _ _ Hparse Hexp).
  split; intros Hlt; rewrite Hlt, (ltb_asym _ _ Hlt); split; reflexivity.
Qed.

(** C5 (the code departs from it). The claim: a token is refused as expired
    only when the current time is strictly after its expiry, and decoding
    at exactly the expiry succeeds. The server returns the payload only
    when [payload.expiry > Date.now()]: at the instant [now = expiry] a
    well-signed token is refused. The mock, which tests
    [qrPayload.expiry < Date.now()], accepts the same token at the same
    instant. *)
Theorem C5_server_refuses_at_expiry (token : string) (payload : JsValue) (now : float) :
  JSON_parse token = Return payload ->
  js_get "expiry" payload = Return (JNum now) ->
  Server.verifyQRToken token (Some (hmac_sha256_hex Server.JWT_SECRET token)) now = JBool false
  /\ Mock.scanAttendance_parse token now = Return payload.
Proof.
  intros Hparse Hexp.
  rewrite (server_expiry_test _ _ _ _ Hparse Hexp), (mock_expiry_test _ _ _ _ Hparse Hexp).
  rewrite ltb_irrefl. split; reflexivity.
Qed.

(** *** C1: what the signature decides *)

Lemma verifyQRToken_mismatch (token : string) (signature : option string) (now : float) :
  signature <> Some (hmac_sha256_hex Server.JWT_SECRET token) ->
  Server.verifyQRToken token signature now = JBool false.
Proof.
  intros Hne. unfold Server.verifyQRToken.
  rewrite bool_decide_eq_false_2 by exact Hne. reflexivity.
Qed.

(** C1 (as amended). In the server, verification recomputes the HMAC over
    the presented token part and refuses whenever the presented signature
    part differs from it: [verifyQRToken] returns [false], so a payload is
    accepted only with its own signature, and the scan route answers with
    an error and writes nothing; for a student within the campus the answer
    is "Invalid or expired QR code" with status 400, the answer that an
    unparsable or an expired token gets too. The mock never looks at the
    signature part: two wire tokens that differ only there are decoded
    alike. *)
Theorem C1_signature_check :
  (forall token signature now,
      signature <> Some (hmac_sha256_hex Server.JWT_SECRET token) ->
      Server.verifyQRToken token signature now = JBool false)
  /\ (forall token signature now,
      js_truthy (Server.verifyQRToken token signature now) = true ->
      signature = Some (hmac_sha256_hex Server.JWT_SECRET token))
  /\ (forall st user qrData lat lng clock,
      snd (destructure2 (split ":" qrData))
        <> Some (hmac_sha256_hex Server.JWT_SECRET (fst (destructure2 (split ":" qrData)))) ->
      (exists error status,
          Server.post_attendance_scan st user qrData lat lng clock
          = (st, Server.JsonError error status))
      /\ (Server.user_role user = "student" -> Server.isWithinCampus lat lng = true ->
          Server.post_attendance_scan st user qrData lat lng clock
          = (st, Server.JsonError "Invalid or expired QR code" 400)))
  /\ (forall token signature signature' now,
      contains ":" token = false ->
      Mock.scanAttendance_decode (token +:+ String ":" signature) now
      = Mock.scanAttendance_decode (token +:+ String ":" signature') now).
Proof.
  split; [|split; [|split]].
  - apply verifyQRToken_mismatch.
  - intros token signature now Htruthy.
    destruct (decide (signature = Some (hmac_sha256_hex Server.JWT_SECRET token))) as [E|E];
      [exact E|].
    rewrite (verifyQRToken_mismatch _ _ now E) in Htruthy. discriminate.
  - intros st user qrData lat lng clock Hne.
    assert (Hdec : Server.post_attendance_scan_decode qrData (clock 0%nat) = JBool false).
    { unfold Server.post_attendance_scan_decode.
      destruct (destructure2 (split ":" qrData)) as [token signature].
      apply verifyQRToken_mismatch, Hne. }
    unfold Server.post_attendance_scan. rewrite Hdec. cbn [js_truthy negb].
    split.
    + destruct (negb (String.eqb _ _)); [eauto|].
      destruct (negb (Server.isWithinCampus _ _)); eauto.
    + intros Hrole Hin. rewrite Hrole, Hin. reflexivity.
  - intros token signature signature' now Hc.
    unfold Mock.scanAttendance_decode.
    rewrite !split_app by exact Hc. reflexivity.
Qed.

(** *** C7, C3, C10 and C6: the scan as a whole and its steps *)

(** The two campus checks, in terms of the distance to the campus point. *)
Lemma mock_geofence_distance (lat lng : float) :
  Mock.scanAttendance_geofence lat lng
  = if (2000 <? Mock.calculateDistance lat lng 22.3039 73.3620)%float
    then Throw (Error "Scan location is outside campus boundary")
    else Return tt.
Proof. reflexivity. Qed.

Lemma server_within_distance (lat lng : float) :
  Server.isWithinCampus lat lng
  = (Server.calculateDistance lat lng 22.3039 73.3620 <=? 2000)%float.
Proof. reflexivity. Qed.

(** What [scanAttendance] answers once the campus check has passed. The
    part of [qrData] before its first colon has no colon, so it is not the
    text of an object with members: when it is JSON text at all, its value
    has no [expiry], no [sessionId] and no [scanType], the expiry test does
    not fire and no session is found; reading [expiry] of [null] throws a
    TypeError. *)
Lemma mock_scan_within (db : Mock.MockDatabase) (studentId qrData : string)
    (lat lng : float) (clock : Clock) :
  Mock.scanAttendance_geofence lat lng = Return tt ->
  Mock.scanAttendance db studentId qrData lat lng clock
  = (db, Throw match JSON_parse (fst (destructure2 (split ":" qrData))) with
               | Throw _ => Error "Invalid QR code format"
               | Return (JNull | JUndefined) => TypeError
               | Return _ => Error "Session not found"
               end).
Proof.
  intros Hin. unfold Mock.scanAttendance. rewrite Hin.
  unfold Mock.scanAttendance_decode.
  pose proof (split_hd_no_separator ":" qrData) as Hn.
  destruct (destructure2 (split ":" qrData)) as [token signature]. cbn [fst] in Hn |- *.
  unfold Mock.scanAttendance_parse.
  destruct (JSON_parse token) as [v|e] eqn:Ep; cbn; [|reflexivity].
  pose proof (no_colon_value token v "expiry" Hn Ep) as He.
  pose proof (no_colon_value token v "sessionId" Hn Ep) as Hs.
  pose proof (no_colon_value token v "scanType" Hn Ep) as Ht.
  destruct v as [| |b|x|str|l|members]; cbn in *; try reflexivity.
  all: try (unfold js_lt; cbn [ToNumber]; rewrite ltb_nan_l; reflexivity).
  destruct He as [He|He]; [|discriminate]. destruct Hs as [Hs|Hs]; [|discriminate].
  destruct Ht as [Ht|Ht]; [|discriminate].
  injection He as He. injection Hs as Hs. injection Ht as Ht.
  rewrite He. unfold js_lt. cbn [ToNumber]. rewrite ltb_nan_l.
  unfold Mock.scanAttendance_record. cbn [js_get]. rewrite Hs, Ht. reflexivity.
Qed.

(** The answer of [scanAttendance] to every call. *)
Lemma mock_scan_answer (db : Mock.MockDatabase) (studentId qrData : string)
    (lat lng : float) (clock : Clock) :
  Mock.scanAttendance db studentId qrData lat lng clock
  = (db, Throw (if (2000 <? Mock.calculateDistance lat lng 22.3039 73.3620)%float
                then Error "Scan location is outside campus boundary"
                else match JSON_parse (fst (destructure2 (split ":" qrData))) with
                     | Throw _ => Error "Invalid QR code format"
                     | Return (JNull | JUndefined) => TypeError
                     | Return _ => Error "Session not found"
                     end)).
Proof.
  destruct (2000 <? Mock.calculateDistance lat lng 22.3039 73.3620)%float eqn:Hfar.
  - unfold Mock.scanAttendance. rewrite mock_geofence_distance, Hfar. reflexivity.
  - apply mock_scan_within. rewrite mock_geofence_distance, Hfar. reflexivity.
Qed.

(** The server's decoding of the two parts of [qrData] is always [false],
    for the same reason. *)
Lemma server_decode_false (qrData : string) (now : float) :
  Server.post_attendance_scan_decode qrData now = JBool false.
Proof.
  unfold Server.post_attendance_scan_decode.
  pose proof (split_hd_no_separator ":" qrData) as Hn.
  destruct (destructure2 (split ":" qrData)) as [token signature]. cbn [fst] in Hn.
  unfold Server.verifyQRToken. destruct (negb _); [reflexivity|].
  destruct (JSON_parse token) as [v|e] eqn:Ep; [|reflexivity]. cbn.
  destruct (no_colon_value token v "expiry" Hn Ep) as [-> | ->]; [|reflexivity].
  cbn. unfold js_gt. cbn [ToNumber]. rewrite ltb_nan_r. reflexivity.
Qed.

(** The answer of the scan route to every call. *)
Lemma server_scan_answer (st : Server.Store) (user : Server.CurrentUser) (qrData : string)
    (lat lng : float) (clock : Clock) :
  Server.post_attendance_scan st user qrData lat lng clock
  = (st, if negb (String.eqb (Server.user_role user) "student")
         then Server.JsonError "Student access required" 403
         else if negb (Server.isWithinCampus lat lng)
         then Server.JsonError "Scan location is outside campus boundary" 400
         else Server.JsonError "Invalid or expired QR code" 400).
Proof.
  unfold Server.post_attendance_scan.
  destruct (negb (String.eqb _ _)); [reflexivity|].
  destruct (negb (Server.isWithinCampus _ _)); [reflexivity|].
  rewrite server_decode_false. reflexivity.
Qed.

(** C7 (the code departs from it). The claim: a scan whose coordinates fail
    the campus check fails with the outside-campus error and leaves the
    stores as they were. The coordinates fail the check when
    [isWithinCampus], the test [distance <= 2000], is false. The server
    (called with the student role) then answers with the outside-campus
    error, whatever the token, and writes nothing. The mock tests
    [distance > 2000] instead: it answers alike when the distance is a
    number, but when the distance is NaN, which fails [distance <= 2000]
    too, its test does not fire and it goes on to the token; the error it
    then throws is that of the token or of the session lookup, never the
    outside-campus one. It writes nothing in either case. *)
Theorem C7_mock_goes_on_when_the_distance_is_nan
    (db : Mock.MockDatabase) (st : Server.Store) (user : Server.CurrentUser)
    (studentId qrData : string) (lat lng : float) (clock : Clock) :
  let distance := Mock.calculateDistance lat lng 22.3039 73.3620 in
  Server.isWithinCampus lat lng = false ->
  (Server.user_role user = "student" ->
   Server.post_attendance_scan st user qrData lat lng clock
   = (st, Server.JsonError "Scan location is outside campus boundary" 400))
  /\ (PrimFloat.is_nan distance = false ->
      Mock.scanAttendance db studentId qrData lat lng clock
      = (db, Throw (Error "Scan location is outside campus boundary")))
  /\ (PrimFloat.is_nan distance = true ->
      Mock.scanAttendance db studentId qrData lat lng clock
      = (db, Throw match JSON_parse (fst (destructure2 (split ":" qrData))) with
                   | Throw _ => Error "Invalid QR code format"
                   | Return (JNull | JUndefined) => TypeError
                   | Return _ => Error "Session not found"
                   end)
      /\ snd (Mock.scanAttendance db studentId qrData lat lng clock)
         <> Throw (Error "Scan location is outside campus boundary")).
Proof.
  intros distance Hout. split; [|split].
  - intros Hrole. rewrite server_scan_answer, Hrole, Hout. reflexivity.
  - intros Hnum. rewrite mock_scan_answer. fold distance.
    rewrite (ltb_negb_leb distance 2000 Hnum) by reflexivity.
    rewrite server_within_distance in Hout.
    change (Server.calculateDistance lat lng 22.3039 73.3620) with distance in Hout.
    rewrite Hout. reflexivity.
  - intros Hnan. rewrite mock_scan_answer. fold distance.
    rewrite (ltb_nan_right _ _ Hnan). split; [reflexivity|]. cbn [snd].
    destruct (JSON_parse _) as [[| |b|x|str|l|members]|e]; discriminate.
Qed.

Lemma mock_record_no_session (db : Mock.MockDatabase) (studentId : string)
    (qrPayload sessionId scanType : JsValue) (lat lng now : float) :
  js_get "sessionId" qrPayload = Return sessionId ->
  js_get "scanType" qrPayload = Return scanType ->
  Mock.sessions_get db sessionId = None ->
  Mock.scanAttendance_record db studentId qrPayload lat lng now
  = (db, Throw (Error "Session not found")).
Proof.
  intros Hs Ht Hnone. unfold Mock.scanAttendance_record.
  rewrite Hs, Ht, Hnone. reflexivity.
Qed.

Lemma server_record_no_session (st : Server.Store) (user : Server.CurrentUser)
    (qrPayload sessionId scanType : JsValue) (lat lng now : float) :
  js_get "sessionId" qrPayload = Return sessionId ->
  js_get "scanType" qrPayload = Return scanType ->
  Server.kv_get (Server.sessions st) ("session:" +:+ js_to_string sessionId) = None ->
  Server.post_attendance_scan_record st user qrPayload lat lng now
  = (st, Server.JsonError "Session not found" 404).
Proof.
  intros Hs Ht Hnone. unfold Server.post_attendance_scan_record.
  rewrite Hs, Ht, Hnone. reflexivity.
Qed.


(** When the session exists the record step answers with success and
    writes one attendance entry, under the key of the student and the
    session: the stored record, or a new one, with the fields of the
    scanned direction set to the time and place of this scan. *)
Lemma mock_record_step (db : Mock.MockDatabase) (studentId : string)
    (qrPayload sessionId scanType : JsValue) (session : Mock.Session.t) (lat lng now : float) :
  js_get "sessionId" qrPayload = Return sessionId ->
  js_get "scanType" qrPayload = Return scanType ->
  Mock.sessions_get db sessionId = Some session ->
  let a0 := mock_attendance0 db studentId sessionId session in
  let location := {| Mock.lat := lat; Mock.lng := lng |} in
  let a1 := if js_strict_eq_str scanType "IN"
            then Mock.set_inScan a0 (toISOString now) location
            else Mock.set_outScan a0 (toISOString now) location in
  Mock.scanAttendance_record db studentId qrPayload lat lng now
  = (Mock.set_attendance db
       (<[studentId +:+ ":" +:+ js_to_string sessionId := a1]> (Mock.attendance db)),
     Return {| Mock.success := true;
               Mock.message := js_to_string scanType +:+ " scan recorded successfully";
               Mock.scanned := a1 |}).
Proof.
  intros Hs Ht Hsome. unfold Mock.scanAttendance_record, mock_attendance0.
  rewrite Hs, Ht, Hsome. reflexivity.
Qed.

Lemma server_record_step (st : Server.Store) (user : Server.CurrentUser)
    (qrPayload sessionId scanType : JsValue) (session : Server.Session.t) (lat lng now : float) :
  js_get "sessionId" qrPayload = Return sessionId ->
  js_get "scanType" qrPayload = Return scanType ->
  Server.kv_get (Server.sessions st) ("session:" +:+ js_to_string sessionId) = Some session ->
  let a0 := server_attendance0 st user sessionId session in
  let location := {| Server.lat := lat; Server.lng := lng |} in
  let a1 := if js_strict_eq_str scanType "IN"
            then Server.set_inScan a0 (toISOString now) location
            else Server.set_outScan a0 (toISOString now) location in
  Server.post_attendance_scan_record st user qrPayload lat lng now
  = (Server.set_attendance st
       (<["attendance:" +:+ Server.user_id user +:+ ":" +:+ js_to_string sessionId := a1]>
          (Server.attendance st)),
     Server.Json {| Server.success := true;
                    Server.message := js_to_string scanType +:+ " scan recorded successfully";
                    Server.scanned := a1 |}).
Proof.
  intros Hs Ht Hsome. unfold Server.post_attendance_scan_record, server_attendance0.
  rewrite Hs, Ht, Hsome. reflexivity.
Qed.

(** C3 (as amended). The scan performs its checks in this order and stops
    at the first one that fails, without writing.

    First the campus check: when the distance exceeds 2000 m (mock), when
    it is not at most 2000 m (server, called with the student role), the
    answer is the outside-campus error, whatever the token and the
    sessions.

    Then the token. The server answers every token that [verifyQRToken]
    does not accept with its one token error, "Invalid or expired QR code".
    The mock refuses a token only when the part before the first colon is
    not JSON text, with "Invalid QR code format", or when the parsed value
    has an [expiry] before the current time, with "QR code has expired"; it
    checks neither the shape of the value nor the signature.

    Then the session named by the decoded value, with "Session not found";
    this is also the mock's answer to a token part that is JSON text but
    names no session, such as a number or an empty object.

    Only when the session exists is the attendance record fetched or
    created, given the time and place of this scan in the fields of the
    scanned direction, written under the key of the student and the
    session, and returned. *)
Theorem C3_checks_in_order :
  (forall db studentId qrData lat lng clock,
      let distance := Mock.calculateDistance lat lng 22.3039 73.3620 in
      let token := fst (destructure2 (split ":" qrData)) in
      ((2000 <? distance)%float = true ->
       Mock.scanAttendance db studentId qrData lat lng clock
       = (db, Throw (Error "Scan location is outside campus boundary")))
      /\ ((2000 <? distance)%float = false ->
          Mock.scanAttendance db studentId qrData lat lng clock
          = match Mock.scanAttendance_parse token (clock 0%nat) with
            | Throw e => (db, Throw e)
            | Return qrPayload =>
                Mock.scanAttendance_record db studentId qrPayload lat lng (clock 1%nat)
            end)
      /\ ((2000 <? distance)%float = false ->
          forall e, JSON_parse token = Throw e ->
          Mock.scanAttendance db studentId qrData lat lng clock
          = (db, Throw (Error "Invalid QR code format")))
      /\ ((2000 <? distance)%float = false ->
          forall value, JSON_parse token = Return value ->
          value <> JNull -> value <> JUndefined ->
          Mock.scanAttendance db studentId qrData lat lng clock
          = (db, Throw (Error "Session not found"))))
  /\ (forall token now,
      (forall e, JSON_parse token = Throw e ->
       Mock.scanAttendance_parse token now = Throw (Error "Invalid QR code format"))
      /\ (forall qrPayload expiry,
          JSON_parse token = Return qrPayload ->
          js_get "expiry" qrPayload = Return (JNum expiry) ->
          Mock.scanAttendance_parse token now
          = if (expiry <? now)%float then Throw (Error "QR code has expired")
            else Return qrPayload))
  /\ (forall db studentId qrPayload sessionId scanType lat lng now,
      js_get "sessionId" qrPayload = Return sessionId ->
      js_get "scanType" qrPayload = Return scanType ->
      match Mock.sessions_get db sessionId with
      | None =>
          Mock.scanAttendance_record db studentId qrPayload lat lng now
          = (db, Throw (Error "Session not found"))
      | Some session =>
          let a0 := mock_attendance0 db studentId sessionId session in
          let location := {| Mock.lat := lat; Mock.lng := lng |} in
          let a1 := if js_strict_eq_str scanType "IN"
                    then Mock.set_inScan a0 (toISOString now) location
                    else Mock.set_outScan a0 (toISOString now) location in
          Mock.scanAttendance_record db studentId qrPayload lat lng now
          = (Mock.set_attendance db
               (<[studentId +:+ ":" +:+ js_to_string sessionId := a1]> (Mock.attendance db)),
             Return {| Mock.success := true;
                       Mock.message := js_to_string scanType +:+ " scan recorded successfully";
                       Mock.scanned := a1 |})
      end)
  /\ (forall st user qrData lat lng clock,
      Server.user_role user = "student" ->
      let distance := Server.calculateDistance lat lng 22.3039 73.3620 in
      let qrPayload := Server.post_attendance_scan_decode qrData (clock 0%nat) in
      ((distance <=? 2000)%float = false ->
       Server.post_attendance_scan st user qrData lat lng clock
       = (st, Server.JsonError "Scan location is outside campus boundary" 400))
      /\ ((distance <=? 2000)%float = true ->
          Server.post_attendance_scan st user qrData lat lng clock
          = if js_truthy qrPayload
            then Server.post_attendance_scan_record st user qrPayload lat lng (clock 1%nat)
            else (st, Server.JsonError "Invalid or expired QR code" 400))
      /\ ((distance <=? 2000)%float = true ->
          Server.post_attendance_scan st user qrData lat lng clock
          = (st, Server.JsonError "Invalid or expired QR code" 400)))
  /\ (forall st user qrPayload sessionId scanType lat lng now,
      js_get "sessionId" qrPayload = Return sessionId ->
      js_get "scanType" qrPayload = Return scanType ->
      match Server.kv_get (Server.sessions st) ("session:" +:+ js_to_string sessionId) with
      | None =>
          Server.post_attendance_scan_record st user qrPayload lat lng now
          = (st, Server.JsonError "Session not found" 404)
      | Some session =>
          let a0 := server_attendance0 st user sessionId session in
          let location := {| Server.lat := lat; Server.lng := lng |} in
          let a1 := if js_strict_eq_str scanType "IN"
                    then Server.set_inScan a0 (toISOString now) location
                    else Server.set_outScan a0 (toISOString now) location in
          Server.post_attendance_scan_record st user qrPayload lat lng now
          = (Server.set_attendance st
               (<["attendance:" +:+ Server.user_id user +:+ ":" +:+ js_to_string sessionId
                  := a1]> (Server.attendance st)),
             Server.Json {| Server.success := true;
                            Server.message :=
                              js_to_string scanType +:+ " scan recorded successfully";
                            Server.scanned := a1 |})
      end).
Proof.
  split; [|split; [|split; [|split]]].
  - intros db studentId qrData lat lng clock distance token.
    split; [|split; [|split]].
    + intros Hfar. rewrite mock_scan_answer. fold distance. rewrite Hfar. reflexivity.
    + intros Hnear. unfold Mock.scanAttendance.
      rewrite mock_geofence_distance. fold distance. rewrite Hnear.
      unfold Mock.scanAttendance_decode. subst token.
      destruct (destructure2 (split ":" qrData)) as [token signature]. reflexivity.
    + intros Hnear e Hparse. rewrite mock_scan_answer. fold distance token.
      rewrite Hnear, Hparse. reflexivity.
    + intros Hnear value Hparse Hnull Hundef. rewrite mock_scan_answer. fold distance token.
      rewrite Hnear, Hparse. destruct value; try reflexivity; contradiction.
  - intros token now. split.
    + intros e Hparse. unfold Mock.scanAttendance_parse. rewrite Hparse. reflexivity.
    + intros qrPayload expiry. apply mock_expiry_test.
  - intros db studentId qrPayload sessionId scanType lat lng now Hs Ht.
    destruct (Mock.sessions_get db sessionId) as [session|] eqn:E.
    + apply mock_record_step; assumption.
    + eapply mock_record_no_session; eassumption.
  - intros st user qrData lat lng clock Hrole distance qrPayload. split; [|split].
    + intros Hout. rewrite server_scan_answer, Hrole, server_within_distance.
      fold distance. rewrite Hout. reflexivity.
    + intros Hin. unfold Server.post_attendance_scan.
      rewrite Hrole, server_within_distance. fold distance qrPayload. rewrite Hin.
      cbn [String.eqb Ascii.eqb Bool.eqb negb].
      destruct (js_truthy qrPayload); reflexivity.
    + intros Hin. rewrite server_scan_answer, Hrole, server_within_distance.
      fold distance. rewrite Hin. reflexivity.
  - intros st user qrPayload sessionId scanType lat lng now Hs Ht.
    destruct (Server.kv_get _ _) as [session|] eqn:E.
    + apply server_record_step; assumption.
    + eapply server_record_no_session; eassumption.
Qed.


(** C6. No [scanAttendance] of the mock and no scan request to the server
    overwrites a field of an attendance record: whatever the call, every
    record of the store is after it what it was before, with its
    [inScanTs], [inScanLocation], [outScanTs] and [outScanLocation]; in
    particular a second IN scan changes neither the recorded IN scan nor a
    recorded OUT scan. This holds because no call writes at all: each one
    ends in an error before the record step (see C2), and the store as a
    whole is left as it was. The record step itself has no guard: it
    assigns the fields of the scanned direction at every scan that
    reaches it. *)
Theorem C6_no_scan_overwrites_a_record :
  (forall db studentId qrData lat lng clock,
      let after := fst (Mock.scanAttendance db studentId qrData lat lng clock) in
      after = db
      /\ forall key record,
          Mock.attendance db !! key = Some record ->
          exists record',
            Mock.attendance after !! key = Some record'
            /\ Mock.AttendanceRecord.inScanTs record' = Mock.AttendanceRecord.inScanTs record
            /\ Mock.AttendanceRecord.inScanLocation record'
               = Mock.AttendanceRecord.inScanLocation record
            /\ Mock.AttendanceRecord.outScanTs record' = Mock.AttendanceRecord.outScanTs record
            /\ Mock.AttendanceRecord.outScanLocation record'
               = Mock.AttendanceRecord.outScanLocation record)
  /\ (forall st user qrData lat lng clock,
      let after := fst (Server.post_attendance_scan st user qrData lat lng clock) in
      after = st
      /\ forall key record,
          Server.attendance st !! key = Some record ->
          exists record',
            Server.attendance after !! key = Some record'
            /\ Server.AttendanceRecord.inScanTs record'
               = Server.AttendanceRecord.inScanTs record
            /\ Server.AttendanceRecord.inScanLocation record'
               = Server.AttendanceRecord.inScanLocation record
            /\ Server.AttendanceRecord.outScanTs record'
               = Server.AttendanceRecord.outScanTs record
            /\ Server.AttendanceRecord.outScanLocation record'
               = Server.AttendanceRecord.outScanLocation record).
Proof.
  split.
  - intros db studentId qrData lat lng clock after.
    assert (Hsame : after = db) by (subst after; rewrite mock_scan_answer; reflexivity).
    split; [exact Hsame|]. intros key record Hl. exists record. rewrite Hsame.
    repeat split. exact Hl.
  - intros st user qrData lat lng clock after.
    assert (Hsame : after = st) by (subst after; rewrite server_scan_answer; reflexivity).
    split; [exact Hsame|]. intros key record Hl. exists record. rewrite Hsame.
    repeat split. exact Hl.
Qed.

(** *** C4: the campus check *)

Lemma calculateDistance_haversine (lat1 lng1 lat2 lng2 : float) :
  Server.calculateDistance lat1 lng1 lat2 lng2 = Spec.haversine 6371000 lat1 lng1 lat2 lng2
  /\ Mock.calculateDistance lat1 lng1 lat2 lng2 = Spec.haversine 6371000 lat1 lng1 lat2 lng2.
Proof. split; reflexivity. Qed.

(** C4. [isWithinCampus lat lng] is true exactly when the haversine
    distance, on a sphere of radius 6,371,000 m, from [(lat, lng)] to the
    campus point (22.3039, 73.3620) is at most 2000 m; a distance of
    exactly 2000 m is within. The mock's check, which refuses when the
    distance exceeds 2000, admits the same coordinates whenever the
    distance is a number. *)
Theorem C4_within_campus_iff_distance_at_most_2000 (lat lng : float) :
  let distance := Spec.haversine 6371000 lat lng 22.3039 73.3620 in
  (Server.isWithinCampus lat lng = true <-> (distance <=? 2000)%float = true)
  /\ (distance = 2000%float -> Server.isWithinCampus lat lng = true)
  /\ (Mock.scanAttendance_geofence lat lng = Return tt <-> (2000 <? distance)%float = false)
  /\ (PrimFloat.is_nan distance = false ->
      (Mock.scanAttendance_geofence lat lng = Return tt <-> Server.isWithinCampus lat lng = true)).
Proof.
  intros distance.
  assert (Hs : Server.isWithinCampus lat lng = (distance <=? 2000)%float) by reflexivity.
  assert (Hm : Mock.scanAttendance_geofence lat lng
               = if (2000 <? distance)%float
                 then Throw (Error "Scan location is outside campus boundary")
                 else Return tt) by reflexivity.
  split; [|split; [|split]].
  - rewrite Hs. reflexivity.
  - intros E. rewrite Hs, E. reflexivity.
  - rewrite Hm. destruct (2000 <? distance)%float; split; congruence.
  - intros Hnan. rewrite Hm, Hs.
    rewrite (ltb_negb_leb distance 2000 Hnan) by reflexivity.
    destruct (distance <=? 2000)%float; cbn [negb]; split; congruence.
Qed.

(** *** C8: the OUT token *)

(** C8 (as amended). [generateOutQR] of the mock fails with "Session not
    found" exactly when no session has that id. The server's route, called
    by a faculty member, answers "Session not found" exactly when no
    session has that id or the session belongs to another faculty member.
    Otherwise both set the session's [outGenerationTs] to the current time,
    write the session back under its id and return the wire form, token,
    colon, signature, of an OUT token for that session id. *)
Theorem C8_generate_out :
  (forall db sessionId clock,
      (snd (Mock.generateOutQR db sessionId clock) = Throw (Error "Session not found")
       <-> Mock.sessions db !! sessionId = None)
      /\ (forall session,
          Mock.sessions db !! sessionId = Some session ->
          Mock.generateOutQR db sessionId clock
          = (Mock.set_sessions db
               (<[sessionId := Mock.set_outGenerationTs session (toISOString (clock 3%nat))]>
                  (Mock.sessions db)),
             Return (JSON_stringify
                       (Mock.qrPayload_object sessionId "OUT" (clock 0%nat)
                          (clock 1%nat + 1800000)%float)
                     +:+ ":" +:+ "mock-signature-" +:+ NumberToString (clock 2%nat)))))
  /\ (forall st user sessionId clock,
      Server.user_role user = "faculty" ->
      (snd (Server.post_generate_out st user sessionId clock)
         = Server.JsonError "Session not found" 404
       <-> (Server.sessions st !! ("session:" +:+ sessionId) = None
            \/ exists session,
                Server.sessions st !! ("session:" +:+ sessionId) = Some session
                /\ Server.Session.facultyId session <> Server.user_id user))
      /\ (forall session,
          Server.sessions st !! ("session:" +:+ sessionId) = Some session ->
          Server.Session.facultyId session = Server.user_id user ->
          let tk := Server.generateQRToken sessionId Server.OUT clock in
          Server.post_generate_out st user sessionId clock
          = (Server.set_sessions st
               (<["session:" +:+ sessionId
                  := Server.set_out session (toISOString (clock 2%nat)) (fst tk) (snd tk)]>
                  (Server.sessions st)),
             Server.Json (fst tk +:+ ":" +:+ snd tk))
          /\ snd tk = hmac_sha256_hex Server.JWT_SECRET (fst tk)
          /\ fst tk = JSON_stringify
                        (JObj [("sessionId", JStr sessionId); ("scanType", JStr "OUT");
                               ("timestamp", JNum (clock 0%nat));
                               ("expiry", JNum (clock 1%nat + 1800000)%float)]))).
Proof.
  split.
  - intros db sessionId clock. unfold Mock.generateOutQR. split.
    + destruct (Mock.sessions db !! sessionId); cbn [snd]; split; congruence.
    + intros session ->. reflexivity.
  - intros st user sessionId clock Hrole. unfold Server.post_generate_out, Server.kv_get.
    rewrite Hrole. cbn [String.eqb negb]. split.
    + destruct (Server.sessions st !! ("session:" +:+ sessionId)) as [session|] eqn:E.
      * destruct (String.eqb_spec (Server.Session.facultyId session) (Server.user_id user))
          as [Heq|Hne]; cbn [negb snd]; split.
        -- discriminate.
        -- intros [?|(s' & [= <-] & Hne)]; [discriminate|contradiction].
        -- intros _. right. eauto.
        -- reflexivity.
      * cbn [snd]. split; auto.
    + intros session -> Hown. cbv zeta.
      rewrite Hown, String.eqb_refl. cbn [negb]. repeat split.
Qed.

(** *** C9: the attendance summary *)

Lemma record_of_subject_return (subjectId : string) (record : Server.AttendanceRecord.t)
    (keep : bool) :
  Server.record_of_subject subjectId record = Return keep ->
  keep = session_of_subject subjectId record.
Proof.
  unfold Server.record_of_subject, session_of_subject.
  destruct (Server.AttendanceRecord.sessionId record) as [| |b|x|s|l|m]; cbn;
    try (intros [= <-]; reflexivity); try discriminate.
  - destruct b; [discriminate|]. intros [= <-]. reflexivity.
  - destruct (negb (PrimFloat.eqb x 0) && negb (PrimFloat.is_nan x)); [discriminate|].
    intros [= <-]. reflexivity.
Qed.

(** When no record makes the test throw, the filter of the profile route
    keeps the records of the subject. *)
Lemma filter_throwing_of_subject (subjectId : string)
    (records kept : list Server.AttendanceRecord.t) :
  Server.filter_throwing (Server.record_of_subject subjectId) records = Return kept ->
  kept = filter (fun record => session_of_subject subjectId record = true) records.
Proof.
  revert kept. induction records as [|r rest IH]; intros kept.
  - intros [= <-]. reflexivity.
  - cbn [Server.filter_throwing].
    destruct (Server.record_of_subject subjectId r) as [keep|e] eqn:Er; [|discriminate].
    apply record_of_subject_return in Er.
    destruct (Server.filter_throwing _ rest) as [kept'|e] eqn:E; [|discriminate].
    specialize (IH _ eq_refl). subst kept'.
    intros [= <-]. rewrite filter_cons.
    destruct (decide (session_of_subject subjectId r = true)) as [Ht|Hf].
    + rewrite <- Er in Ht. rewrite Ht. reflexivity.
    + rewrite <- Er in Hf. destruct keep; [contradiction|reflexivity].
Qed.

(** C9 (as amended). The summary of a student has one entry per subject.
    In each, [attendedSessions] counts the student's records of that
    subject whose IN scan and OUT scan are both set, [totalSessions] counts
    the sessions of the subject, and [percentage] is
    [Math.round(attendedSessions / totalSessions * 100)] when the subject
    has at least one session and 0 when it has none; with 4 sessions and 3
    such records the percentage is 75. *)
Theorem C9_attendance_summary :
  (forall db studentId subject,
      let entry := Mock.subjectAttendance db studentId subject in
      Mock.totalSessions entry
      = length (filter (fun session => Mock.Session.subjectId session = Mock.Subject.id subject)
                       (Mock.values (Mock.sessions db)))
      /\ Mock.attendedSessions entry
         = length (filter (fun record =>
                             Mock.truthy_field (Mock.AttendanceRecord.inScanTs record)
                             && Mock.truthy_field (Mock.AttendanceRecord.outScanTs record) = true
                             /\ Mock.AttendanceRecord.studentId record = studentId
                                /\ Mock.AttendanceRecord.subjectId record = Mock.Subject.id subject)
                          (Mock.values (Mock.attendance db)))
      /\ Mock.percentage entry
         = match Mock.totalSessions entry with
           | O => 0%float
           | S _ => Math_round (float_of_nat (Mock.attendedSessions entry)
                                / float_of_nat (Mock.totalSessions entry) * 100)%float
           end)
  /\ (forall st records subject entry,
      Server.subjectAttendance st records subject = Return entry ->
      Server.totalSessions entry
      = length (Server.kv_getByPrefix (Server.sessions st)
                  ("session:" +:+ Server.Subject.id subject +:+ ":"))
      /\ Server.attendedSessions entry
         = length (filter (fun record =>
                             Server.truthy_field (Server.AttendanceRecord.inScanTs record)
                             && Server.truthy_field (Server.AttendanceRecord.outScanTs record) = true
                             /\ session_of_subject (Server.Subject.id subject) record = true)
                          records)
      /\ Server.percentage entry
         = match Server.totalSessions entry with
           | O => 0%float
           | S _ => Math_round (float_of_nat (Server.attendedSessions entry)
                                / float_of_nat (Server.totalSessions entry) * 100)%float
           end)
  /\ (forall db studentId profile entries,
      Mock.getStudentProfile db studentId = Return (profile, entries) ->
      entries = map (Mock.subjectAttendance db studentId) (Mock.values (Mock.subjects db)))
  /\ (forall st user studentId profile entries,
      Server.get_student_profile st user studentId = Server.Json (profile, entries) ->
      Server.for_each
        (Server.subjectAttendance st
           (Server.kv_getByPrefix (Server.attendance st) ("attendance:" +:+ studentId +:+ ":")))
        (Server.kv_getByPrefix (Server.subjects st) "subject:")
      = Return entries)
  /\ Math_round (float_of_nat 3 / float_of_nat 4 * 100)%float = 75%float.
Proof.
  split; [|split; [|split; [|split]]]; cycle 2.
  - intros db studentId profile entries. unfold Mock.getStudentProfile.
    destruct (Mock.users db !! studentId) as [student|]; [|discriminate].
    destruct (String.eqb _ _); [|discriminate].
    intros [= _ <-]. reflexivity.
  - intros st user studentId profile entries. unfold Server.get_student_profile.
    destruct (_ || _); [discriminate|].
    destruct (Server.kv_get _ _) as [student|]; [|discriminate].
    destruct (Server.for_each _ _) as [es|e]; [|discriminate].
    intros [= _ <-]. reflexivity.
  - reflexivity.
  - intros db studentId subject entry. subst entry. unfold Mock.subjectAttendance.
    cbn [Mock.totalSessions Mock.attendedSessions Mock.percentage].
    split; [reflexivity|]. split.
    + rewrite list_filter_filter. reflexivity.
    + destruct (length (filter _ (Mock.values (Mock.sessions db)))); reflexivity.
  - intros st records subject entry. unfold Server.subjectAttendance.
    destruct (Server.filter_throwing _ records) as [ofSubject|e] eqn:E; [|discriminate].
    intros [= <-]. apply filter_throwing_of_subject in E. subst ofSubject.
    cbn [Server.totalSessions Server.attendedSessions Server.percentage].
    split; [reflexivity|]. split.
    + rewrite list_filter_filter. reflexivity.
    + destruct (length (Server.kv_getByPrefix _ _)); reflexivity.
Qed.

End Claims.

(** * Further properties of the code *)

(** ** Texts and colons *)

Section StringFacts.

Lemma append_assoc (a b c : string) : (a +:+ b) +:+ c = a +:+ (b +:+ c).
Proof.
  induction a as [|x a IH]; [reflexivity|].
  change (String x ((a +:+ b) +:+ c) = String x (a +:+ (b +:+ c))). now rewrite IH.
Qed.

Lemma append_String (x : ascii) (a b : string) : String x a +:+ b = String x (a +:+ b).
Proof. reflexivity. Qed.

Lemma append_empty (b : string) : "" +:+ b = b.
Proof. reflexivity. Qed.

Lemma no_colon_String (a : ascii) (r : string) :
  no_colon (String a r) <-> a <> ":"%char /\ no_colon r.
Proof.
  split; [apply no_colon_cons|]. intros [Ha Hr].
  unfold no_colon, contains in *. cbn [list_ascii_of_string existsb].
  rewrite Hr, orb_false_r. unfold ascii_eqb.
  destruct (Ascii.eqb_spec ":" a) as [Heq|Hne]; congruence.
Qed.

Lemma no_colon_app (a b : string) : no_colon (a +:+ b) <-> no_colon a /\ no_colon b.
Proof.
  induction a as [|x a IH].
  - rewrite append_empty. split; [intros Hb; split; [reflexivity|exact Hb]|tauto].
  - rewrite append_String, !no_colon_String, IH. tauto.
Qed.

Lemma colon_in_the_middle (a b : string) : ~ no_colon (a +:+ ":" +:+ b).
Proof.
  rewrite no_colon_app, append_String, no_colon_String. tauto.
Qed.

(** The text after the last colon determines the text before it. *)
Lemma last_colon_unique (a b t u : string) :
  no_colon t -> no_colon u -> a +:+ ":" +:+ t = b +:+ ":" +:+ u -> a = b /\ t = u.
Proof.
  intros Ht Hu. revert b.
  induction a as [|x a IH]; intros [|y b]; rewrite ?append_String, ?append_empty.
  - intros [= ->]. auto.
  - intros [= <- ->]. destruct (colon_in_the_middle b u Ht).
  - intros [= -> <-]. destruct (colon_in_the_middle a t Hu).
  - intros [= -> E]. destruct (IH b E) as [-> ->]. auto.
Qed.

(** The text before the first colon determines the text after it. *)
Lemma first_colon_unique (a b t u : string) :
  no_colon a -> no_colon b -> a +:+ ":" +:+ t = b +:+ ":" +:+ u -> a = b /\ t = u.
Proof.
  revert b.
  induction a as [|x a IH]; intros [|y b]; rewrite ?append_String, ?append_empty; intros Ha Hb.
  - intros [= ->]. auto.
  - intros [= <- _]. apply no_colon_String in Hb. tauto.
  - intros [= -> _]. apply no_colon_String in Ha. tauto.
  - intros [= -> E]. apply no_colon_String in Ha, Hb.
    destruct (IH b (proj2 Ha) (proj2 Hb) E) as [-> ->]. auto.
Qed.

Lemma no_colon_string_of_uint (d : Decimal.uint) : no_colon (NilEmpty.string_of_uint d).
Proof.
  induction d; cbn [NilEmpty.string_of_uint]; [reflexivity|..];
    (apply no_colon_String; split; [discriminate|assumption]).
Qed.

Lemma no_colon_Z_to_string (z : Z) : no_colon (Z_to_string z).
Proof.
  unfold Z_to_string, NilZero.string_of_int.
  assert (Hu : forall d, no_colon (NilZero.string_of_uint d)).
  { intros d. unfold NilZero.string_of_uint.
    destruct d; try apply no_colon_string_of_uint. reflexivity. }
  destruct (Z.to_int z); [apply Hu|].
  apply no_colon_String. split; [discriminate|apply Hu].
Qed.

End StringFacts.

Section PrefixFacts.




End PrefixFacts.


(** ** Lists *)

Section ListFacts.

Lemma filter_fmap {A B} (f : A -> B) (P : B -> Prop) `{!forall y, Decision (P y)}
    (l : list A) :
  filter P (f <$> l) = f <$> filter (fun x => P (f x)) l.
Proof.
  induction l as [|x l IH]; [reflexivity|].
  rewrite fmap_cons, !filter_cons, IH. destruct (decide (P (f x))); reflexivity.
Qed.

(** A list without duplicates whose elements all occur in another list is
    no longer than that list. *)
Lemma NoDup_length_le {A} (l k : list A) :
  NoDup l -> (forall x, x ∈ l -> x ∈ k) -> (length l <= length k)%nat.
Proof. intros Hnd Hin. apply submseteq_length, NoDup_submseteq; assumption. Qed.

End ListFacts.


Section ListFacts2.

Lemma filter_map {A B} (f : A -> B) (P : B -> Prop) `{!forall y, Decision (P y)}
    (l : list A) :
  filter P (map f l) = map f (filter (fun x => P (f x)) l).
Proof.
  induction l as [|x l IH]; [reflexivity|].
  cbn [map]. rewrite !filter_cons, IH. destruct (decide (P (f x))); reflexivity.
Qed.

End ListFacts2.


(** ** A generated payload parses back *)

Section QuoteFacts.

Lemma parse_chars_quote_char (c : ascii) (rest : string) :
  parse_chars (quote_char c +:+ rest)
  = match parse_chars rest with
    | Some (t, r) => Some (String c t, r)
    | None => None
    end.
Proof.
  destruct c as [[] [] [] [] [] [] [] []]; reflexivity.
Qed.

Lemma parse_chars_quote_chars (s rest : string) :
  parse_chars (quote_chars s +:+ String dquote rest) = Some (s, rest).
Proof.
  induction s as [|c s IH]; [reflexivity|].
  cbn [quote_chars]. rewrite append_assoc, parse_chars_quote_char, IH. reflexivity.
Qed.

End QuoteFacts.

Section DigitFacts.

Lemma take_digits_string_of_uint (d : Decimal.uint) (rest : string) (acc : Z) (count : nat) :
  not_a_digit rest ->
  take_digits (NilEmpty.string_of_uint d +:+ rest) acc count
  = (digits_value d acc, (count + Decimal.nb_digits d)%nat, rest).
Proof.
  intros Hrest. revert acc count.
  induction d; intros acc count; cbn [NilEmpty.string_of_uint Decimal.nb_digits digits_value];
    rewrite ?append_String, ?append_empty.
  1: { rewrite Nat.add_0_r. destruct rest as [|c r]; [reflexivity|].
       cbn [take_digits]. cbn in Hrest. rewrite Hrest. reflexivity. }
  all: cbn [take_digits];
    match goal with
    | |- context [digit_of ?c] =>
        let v := eval vm_compute in (digit_of c) in change (digit_of c) with v
    end;
    cbv beta iota; rewrite IHd; f_equal; f_equal; lia.
Qed.

Lemma digits_value_acc (d : Decimal.uint) (acc : positive) :
  Zpos (Pos.of_uint_acc d acc) = digits_value d (Zpos acc).
Proof.
  revert acc. induction d; intros acc; cbn [Pos.of_uint_acc digits_value];
    [reflexivity|..]; rewrite IHd; f_equal; lia.
Qed.

Lemma digits_value_of_uint (d : Decimal.uint) : Z.of_N (Pos.of_uint d) = digits_value d 0.
Proof.
  induction d; cbn [Pos.of_uint digits_value]; [reflexivity|exact IHd|..];
    cbn [Z.of_N]; rewrite digits_value_acc; reflexivity.
Qed.

Lemma digits_value_to_uint (p : positive) : digits_value (Pos.to_uint p) 0 = Zpos p.
Proof.
  rewrite <- digits_value_of_uint, DecimalPos.Unsigned.of_to. reflexivity.
Qed.

(** The decimal digits of a positive number do not start with a zero. *)
Lemma to_uint_head (p : positive) :
  match Pos.to_uint p with
  | Decimal.Nil | Decimal.D0 _ => False
  | _ => True
  end.
Proof.
  pose proof (DecimalPos.Unsigned.to_of (Pos.to_uint p)) as E.
  rewrite DecimalPos.Unsigned.of_to in E. cbn [N.to_uint] in E.
  pose proof (DecimalPos.Unsigned.to_uint_nonzero p) as Hnz.
  rewrite E in Hnz |- *. unfold Decimal.unorm in *.
  assert (Hh : forall d, match Decimal.nzhead d with Decimal.D0 _ => False | _ => True end).
  { induction d; cbn; auto. }
  specialize (Hh (Pos.to_uint p)).
  destruct (Decimal.nzhead (Pos.to_uint p)); auto.
Qed.

End DigitFacts.

Section RoundingFacts.

Lemma digits2_pos_lower (m : positive) : 2 ^ (Zpos (digits2_pos m) - 1) <= Zpos m.
Proof.
  induction m as [m IH|m IH|]; cbn [digits2_pos]; [| |cbn; lia].
  - rewrite Pos2Z.inj_succ. replace (Z.succ (Zpos (digits2_pos m)) - 1)
      with (Z.succ (Zpos (digits2_pos m) - 1)) by lia.
    rewrite Z.pow_succ_r by lia. lia.
  - rewrite Pos2Z.inj_succ. replace (Z.succ (Zpos (digits2_pos m)) - 1)
      with (Z.succ (Zpos (digits2_pos m) - 1)) by lia.
    rewrite Z.pow_succ_r by lia. lia.
Qed.

Lemma iter_xO_value (m d : positive) : Zpos (Pos.iter xO m d) = Zpos m * 2 ^ Zpos d.
Proof.
  induction d as [|d IH] using Pos.peano_ind.
  - cbn. lia.
  - rewrite Pos.iter_succ, Pos2Z.inj_succ, Z.pow_succ_r by lia.
    rewrite Pos2Z.inj_xO, IH. lia.
Qed.

Lemma iter_xO_digits (m d : positive) :
  digits2_pos (Pos.iter xO m d) = (digits2_pos m + d)%positive.
Proof.
  induction d as [|d IH] using Pos.peano_ind.
  - cbn. lia.
  - rewrite Pos.iter_succ. cbn [digits2_pos]. rewrite IH. lia.
Qed.

(** Rounding a mantissa that is already canonical changes nothing. *)
Lemma binary_round_aux_exact (s : bool) (m : positive) (e : Z) :
  bounded prec emax m e = true ->
  binary_round_aux prec emax s (Zpos m) e loc_Exact = S754_finite s m e.
Proof.
  unfold bounded, canonical_mantissa. intros [Hc He]%andb_true_iff.
  apply Z.eqb_eq in Hc.
  unfold binary_round_aux, shr_fexp.
  cbn [Zdigits2 shr_record_of_loc]. rewrite Hc, Z.sub_diag.
  cbn [shr shr_m loc_of_shr_record round_nearest_even Zdigits2 shr_record_of_loc].
  rewrite Hc, Z.sub_diag. cbn [shr shr_m]. rewrite He. reflexivity.
Qed.

Lemma float_of_Z_to_Z (x : float) (z : Z) :
  float_to_Z x = Some z -> 0 < z < two53 -> float_of_Z z = x.
Proof.
  unfold float_to_Z. intros Hz Hrange.
  pose proof (FloatAxioms.Prim2SF_valid x) as Hvalid.
  pose proof (FloatAxioms.SF2Prim_Prim2SF x) as Hback.
  destruct (Prim2SF x) as [s0|s0| |s m e] eqn:Ex; try discriminate.
  { injection Hz as <-. lia. }
  cbn [valid_binary] in Hvalid.
  assert (Hcanon : fexp prec emax (Zpos (digits2_pos m) + e) = e).
  { unfold bounded, canonical_mantissa in Hvalid.
    apply andb_true_iff in Hvalid as [Hc _]. apply Z.eqb_eq, Hc. }
  destruct z as [|q|q]; try lia.
  unfold float_of_Z, float_of_decimal.
  change (Zpos q <? 0) with false. change (Z.abs (Zpos q)) with (Zpos q).
  change (Zpos q =? 0) with false. change (0 <=? 0) with true. cbv iota.
  change (10 ^ 0) with 1. rewrite Z.mul_1_r.
  cbn [binary_normalize]. unfold binary_round.
  rewrite <- Hback. f_equal.
  destruct (0 <=? e) eqn:Ee.
  - apply Z.leb_le in Ee. cbn [option_map] in Hz.
    assert (Hs : s = false).
    { destruct s; [|reflexivity]. injection Hz as Hz.
      pose proof (Z.pow_pos_nonneg 2 e ltac:(lia) Ee). nia. }
    subst s. injection Hz as Hz.
    assert (Hd : Zpos (digits2_pos m) = 53).
    { unfold fexp, emin in Hcanon. change prec with 53 in Hcanon.
      change emax with 1024 in Hcanon. lia. }
    pose proof (digits2_pos_lower m) as Hlow. rewrite Hd in Hlow.
    change (2 ^ (53 - 1)) with 4503599627370496 in Hlow.
    assert (He0 : e = 0).
    { destruct (Z.eq_dec e 0) as [|Hne]; [assumption|].
      assert (2 ^ 1 <= 2 ^ e) by (apply Z.pow_le_mono_r; lia).
      change (2 ^ 1) with 2 in *. unfold two53 in Hrange. nia. }
    subst e. change (2 ^ 0) with 1 in Hz. rewrite Z.mul_1_r in Hz. injection Hz as ->.
    rewrite Hcanon. cbn [shl_align Z.sub Z.add Z.opp].
    apply binary_round_aux_exact, Hvalid.
  - apply Z.leb_gt in Ee. destruct e as [|e|d]; try lia.
    change (- Zneg d) with (Zpos d) in Hz.
    destruct (Zpos m mod 2 ^ Zpos d =? 0) eqn:Hmod; [|discriminate].
    apply Z.eqb_eq in Hmod. cbn [option_map] in Hz.
    assert (Hpow : 0 < 2 ^ Zpos d) by (apply Z.pow_pos_nonneg; lia).
    assert (Hs : s = false).
    { destruct s; [|reflexivity]. injection Hz as Hz.
      pose proof (Z.div_pos (Zpos m) (2 ^ Zpos d) ltac:(lia) Hpow). lia. }
    subst s. injection Hz as Hz.
    assert (Hm : Zpos m = Zpos q * 2 ^ Zpos d).
    { rewrite <- Hz. rewrite Z.mul_comm. apply Z.div_exact; lia. }
    assert (Hiter : Pos.iter xO q d = m).
    { apply Pos2Z.inj. rewrite iter_xO_value. symmetry. exact Hm. }
    assert (Hfexp : fexp prec emax (Zpos (digits2_pos q) + 0) = Zneg d).
    { etransitivity; [|exact Hcanon]. f_equal. rewrite <- Hiter, iter_xO_digits. lia. }
    rewrite Hfexp. unfold shl_align. change (Z.neg d - 0) with (Z.neg d). cbv beta iota.
    rewrite Hiter.
    apply binary_round_aux_exact, Hvalid.
Qed.

Lemma is_finite_to_Z (x : float) (z : Z) : float_to_Z x = Some z -> PrimFloat.is_finite x = true.
Proof.
  unfold float_to_Z, PrimFloat.is_finite, PrimFloat.is_nan, PrimFloat.is_infinity.
  rewrite !FloatAxioms.eqb_spec, FloatAxioms.abs_spec.
  change (Prim2SF infinity) with (S754_infinity false).
  destruct (Prim2SF x) as [s|s| |s m e]; try discriminate; intros _.
  - reflexivity.
  - unfold SFeqb. cbn [SFabs SFcompare].
    rewrite Z.compare_refl, Pos.compare_cont_spec, Pos.compare_refl.
    destruct s; reflexivity.
Qed.

End RoundingFacts.

Section NumberFacts.

Lemma parse_number_digits (c : ascii) (t : string) (v : Z) (n : nat) (c' : ascii) (r' : string) :
  In c ["1"; "2"; "3"; "4"; "5"; "6"; "7"; "8"; "9"]%char ->
  take_digits (String c t) 0 0 = (v, S n, String c' r') ->
  c' = ","%char \/ c' = "}"%char ->
  parse_number (String c t) = Some (float_of_decimal false v 0, String c' r').
Proof.
  intros Hc Ht Hc'. unfold parse_number.
  cbn [In] in Hc.
  repeat (destruct Hc as [<-|Hc]; [cbv beta iota; rewrite Ht; cbv beta iota;
    destruct Hc' as [-> | ->]; reflexivity|]).
  contradiction.
Qed.

Lemma Z_to_string_pos (p : positive) (rest : string) :
  exists c t n,
    Z_to_string (Zpos p) +:+ rest = String c t
    /\ In c ["1"; "2"; "3"; "4"; "5"; "6"; "7"; "8"; "9"]%char
    /\ (not_a_digit rest -> take_digits (String c t) 0 0 = (Zpos p, S n, rest)).
Proof.
  unfold Z_to_string. cbn [Z.to_int NilZero.string_of_int]. unfold NilZero.string_of_uint.
  pose proof (to_uint_head p) as Hhead.
  pose proof (take_digits_string_of_uint (Pos.to_uint p) rest 0 0) as Htake.
  rewrite digits_value_to_uint in Htake.
  destruct (Pos.to_uint p) as [|l|l|l|l|l|l|l|l|l|l]; try contradiction;
    cbn [NilEmpty.string_of_uint Decimal.nb_digits Nat.add] in Htake |- *;
    rewrite append_String in Htake |- *;
    (eexists _, _, _; split; [reflexivity|]; split; [cbn; tauto|exact Htake]).
Qed.

Lemma parse_value_number (fuel : nat) (p : positive) (c' : ascii) (r' : string) :
  c' = ","%char \/ c' = "}"%char ->
  parse_value (S fuel) (Z_to_string (Zpos p) +:+ String c' r')
  = Some (JNum (float_of_Z (Zpos p)), String c' r').
Proof.
  intros Hc'.
  destruct (Z_to_string_pos p (String c' r')) as (c & t & n & -> & Hc & Ht).
  assert (Hnd : not_a_digit (String c' r')) by (destruct Hc' as [-> | ->]; reflexivity).
  specialize (Ht Hnd).
  pose proof (parse_number_digits c t _ n c' r' Hc Ht Hc') as Hp.
  cbn [In] in Hc.
  repeat (destruct Hc as [<-|Hc];
    [cbn [parse_value skip_ws]; cbv beta iota zeta;
     change (is_ws _) with false; cbv beta iota;
     match goal with |- context [N_of_ascii ?a] =>
       let v := eval vm_compute in (N_of_ascii a) in change (N_of_ascii a) with v end;
     cbn [N.eqb Pos.eqb]; rewrite Hp; reflexivity|]).
  contradiction.
Qed.

Lemma parse_value_string (fuel : nat) (s rest : string) :
  parse_value (S fuel) (QuoteJSONString s +:+ rest) = Some (JStr s, rest).
Proof.
  unfold QuoteJSONString. rewrite append_assoc, !append_String, append_empty.
  cbn [parse_value skip_ws]. change (is_ws dquote) with false. cbv beta iota zeta.
  change (N_of_ascii dquote) with 34%N. cbn [N.eqb Pos.eqb].
  rewrite parse_chars_quote_chars. reflexivity.
Qed.

End NumberFacts.

Section PayloadFacts.
Context `{Host}.

Lemma quote_app (k rest : string) :
  QuoteJSONString k +:+ rest = String dquote (quote_chars k +:+ String dquote rest).
Proof.
  unfold QuoteJSONString. rewrite append_assoc, !append_String, append_empty. reflexivity.
Qed.

Lemma parse_value_object (fuel : nat) (k rest : string) :
  parse_value (S fuel) (String "{" (QuoteJSONString k +:+ rest))
  = parse_members fuel (QuoteJSONString k +:+ rest) [].
Proof.
  rewrite quote_app. cbn [parse_value skip_ws].
  change (is_ws "{") with false. change (is_ws dquote) with false. cbv beta iota zeta.
  change (N_of_ascii "{") with 123%N. cbn [N.eqb Pos.eqb]. reflexivity.
Qed.

(** One member of an object, followed by a comma or by the closing brace. *)
Lemma parse_members_step (fuel : nat) (k vtext : string) (v : JsValue) (c : ascii)
    (rest : string) (acc : list (string * JsValue)) :
  c = ","%char \/ c = "}"%char ->
  parse_value fuel (vtext +:+ String c rest) = Some (v, String c rest) ->
  parse_members (S fuel) (QuoteJSONString k +:+ ":" +:+ vtext +:+ String c rest) acc
  = if ascii_eqb c "," then parse_members fuel rest (obj_set k v acc)
    else Some (JObj (obj_set k v acc), rest).
Proof.
  intros Hc Hv. rewrite quote_app.
  cbn [parse_members skip_ws]. change (is_ws dquote) with false. cbv beta iota.
  change (ascii_eqb dquote dquote) with true. cbv beta iota.
  rewrite parse_chars_quote_chars. rewrite append_String, append_empty.
  cbn [skip_ws]. change (is_ws ":") with false. cbv beta iota.
  rewrite Hv. destruct Hc as [-> | ->]; reflexivity.
Qed.

Lemma NumberToString_integer (x : float) (z : Z) :
  float_to_Z x = Some z -> 0 < z < two53 -> NumberToString x = Z_to_string z.
Proof.
  intros Hz Hrange. unfold NumberToString. rewrite Hz.
  destruct (Z.ltb_spec (Z.abs z) two53) as [_|Hge]; [reflexivity|lia].
Qed.

(** The JSON text of a payload whose two times are positive integers below
    2^53 parses back to the payload. *)
Lemma parse_stringify_payload (sessionId scanType : string) (t1 t2 : float) (z1 z2 : Z) :
  float_to_Z t1 = Some z1 -> 0 < z1 < two53 ->
  float_to_Z t2 = Some z2 -> 0 < z2 < two53 ->
  JSON_parse (JSON_stringify (JObj [("sessionId", JStr sessionId); ("scanType", JStr scanType);
                                    ("timestamp", JNum t1); ("expiry", JNum t2)]))
  = Return (JObj [("sessionId", JStr sessionId); ("scanType", JStr scanType);
                  ("timestamp", JNum t1); ("expiry", JNum t2)]).
Proof.
  intros Hz1 Hr1 Hz2 Hr2.
  assert (Htext :
    JSON_stringify (JObj [("sessionId", JStr sessionId); ("scanType", JStr scanType);
                          ("timestamp", JNum t1); ("expiry", JNum t2)])
    = String "{" (QuoteJSONString "sessionId" +:+ ":" +:+ QuoteJSONString sessionId
        +:+ String "," (QuoteJSONString "scanType" +:+ ":" +:+ QuoteJSONString scanType
        +:+ String "," (QuoteJSONString "timestamp" +:+ ":" +:+ Z_to_string z1
        +:+ String "," (QuoteJSONString "expiry" +:+ ":" +:+ Z_to_string z2
        +:+ String "}" ""))))).
  { unfold JSON_stringify.
    cbn [JSON_stringify_value flat_map snd fst app join].
    rewrite (is_finite_to_Z _ _ Hz1), (is_finite_to_Z _ _ Hz2).
    rewrite (NumberToString_integer _ _ Hz1 Hr1), (NumberToString_integer _ _ Hz2 Hr2).
    cbn [fold_left]. rewrite !append_assoc, !append_String, !append_empty. reflexivity. }
  rewrite Htext. unfold JSON_parse.
  match goal with
  | |- context [parse_value (2 * String.length ?t + 2) _] =>
      assert (Hfuel : exists f, (2 * String.length t + 2 = 6 + f)%nat)
        by (exists (2 * String.length t - 4)%nat; rewrite quote_app; cbn [String.length]; lia)
  end.
  destruct Hfuel as [f ->]. change (6 + f)%nat with (S (S (S (S (S (S f)))))).
  destruct z1 as [|p1|p1]; try lia. destruct z2 as [|p2|p2]; try lia.
  rewrite parse_value_object.
  rewrite (parse_members_step _ "sessionId" (QuoteJSONString sessionId) (JStr sessionId) ","
             _ _ (or_introl eq_refl) (parse_value_string _ _ _)).
  change (ascii_eqb "," ",") with true. cbv beta iota.
  rewrite (parse_members_step _ "scanType" (QuoteJSONString scanType) (JStr scanType) ","
             _ _ (or_introl eq_refl) (parse_value_string _ _ _)).
  change (ascii_eqb "," ",") with true. cbv beta iota.
  rewrite (parse_members_step _ "timestamp" (Z_to_string (Zpos p1)) (JNum (float_of_Z (Zpos p1)))
             "," _ _ (or_introl eq_refl) (parse_value_number _ _ _ _ (or_introl eq_refl))).
  change (ascii_eqb "," ",") with true. cbv beta iota.
  rewrite (parse_members_step _ "expiry" (Z_to_string (Zpos p2)) (JNum (float_of_Z (Zpos p2)))
             "}" _ _ (or_intror eq_refl) (parse_value_number _ _ _ _ (or_intror eq_refl))).
  change (ascii_eqb "}" ",") with false. cbv beta iota.
  rewrite (float_of_Z_to_Z _ _ Hz1 Hr1), (float_of_Z_to_Z _ _ Hz2 Hr2).
  reflexivity.
Qed.

End PayloadFacts.

(** ** Tokens and sessions *)

Section Tokens.
Context `{Host}.

(** X3. The server's codec, without the wire format: when the clock
    readings are whole milliseconds (positive integers below 2^53, as
    [Date.now()] returns), [verifyQRToken] applied to the token and the
    signature that [generateQRToken] returns gives back the payload that
    was encoded, session id, direction, timestamp and expiry, as long as
    the time of the check is before the expiry; from the expiry on it
    returns [false]. *)
Theorem server_token_round_trip (sessionId : string) (scanType : Server.ScanType)
    (clock : Clock) (z1 z2 : Z) (now : float) :
  float_to_Z (clock 0%nat) = Some z1 -> 0 < z1 < two53 ->
  float_to_Z (clock 1%nat + 30 * 60 * 1000)%float = Some z2 -> 0 < z2 < two53 ->
  let tk := Server.generateQRToken sessionId scanType clock in
  Server.verifyQRToken (fst tk) (Some (snd tk)) now
  = if (now <? clock 1%nat + 30 * 60 * 1000)%float
    then JObj [("sessionId", JStr sessionId);
               ("scanType", JStr (Server.ScanType_string scanType));
               ("timestamp", JNum (clock 0%nat));
               ("expiry", JNum (clock 1%nat + 30 * 60 * 1000)%float)]
    else JBool false.
Proof.
  intros Hz1 Hr1 Hz2 Hr2 tk. subst tk. unfold Server.generateQRToken. cbn [fst snd].
  apply server_expiry_test.
  - apply (parse_stringify_payload _ _ _ _ z1 z2); assumption.
  - reflexivity.
Qed.

(** X4. The same for the mock: the JSON text of the payload that
    [createSession] and [generateOutQR] build, given to the parsing step
    of [scanAttendance], yields that payload unless the expiry is strictly
    before the time of the scan, in which case the step throws "QR code
    has expired". *)
Theorem mock_token_round_trip (sessionId scanType : string) (t1 t2 : float) (z1 z2 : Z)
    (now : float) :
  float_to_Z t1 = Some z1 -> 0 < z1 < two53 ->
  float_to_Z t2 = Some z2 -> 0 < z2 < two53 ->
  Mock.scanAttendance_parse
    (JSON_stringify (Mock.qrPayload_object sessionId scanType t1 t2)) now
  = if (t2 <? now)%float then Throw (Error "QR code has expired")
    else Return (Mock.qrPayload_object sessionId scanType t1 t2).
Proof.
  intros Hz1 Hr1 Hz2 Hr2. unfold Mock.qrPayload_object.
  apply mock_expiry_test.
  - apply (parse_stringify_payload _ _ _ _ z1 z2); assumption.
  - reflexivity.
Qed.

End Tokens.

Section Lifecycle.
Context `{Host}.

(** X6. A session created in the mock: its id is the subject id, a
    colon and the first clock reading; users, subjects, attendance and
    every other session are untouched; the session is stored under its id
    as active and without an OUT time, whatever was stored under that id
    before; [generateOutQR] on the id then succeeds and sets the OUT time
    only, and [getSessionAttendance] finds the session. *)
Theorem mock_created_session_can_be_closed (db : Mock.MockDatabase)
    (facultyId subjectId date : string) (startTime : option string) (clock : Clock) :
  let created := Mock.createSession db facultyId subjectId date startTime clock in
  let db' := fst created in
  let sessionId := fst (snd created) in
  sessionId = subjectId +:+ ":" +:+ NumberToString (clock 0%nat)
  /\ Mock.users db' = Mock.users db
  /\ Mock.subjects db' = Mock.subjects db
  /\ Mock.attendance db' = Mock.attendance db
  /\ (forall key, key <> sessionId -> Mock.sessions db' !! key = Mock.sessions db !! key)
  /\ exists session,
      Mock.sessions db' !! sessionId = Some session
      /\ Mock.Session.id session = sessionId
      /\ Mock.Session.subjectId session = subjectId
      /\ Mock.Session.facultyId session = facultyId
      /\ Mock.Session.status session = "active"
      /\ Mock.Session.outGenerationTs session = None
      /\ (forall clock', exists wire,
           Mock.generateOutQR db' sessionId clock'
           = (Mock.set_sessions db'
                (<[sessionId := Mock.set_outGenerationTs session (toISOString (clock' 3%nat))]>
                   (Mock.sessions db')),
              Return wire))
      /\ (exists result,
           MockQueries.getSessionAttendance db' sessionId = Return result
           /\ MockQueries.session result = session).
Proof.
  intros created db' sessionId. subst created db' sessionId. unfold Mock.createSession.
  destruct (match startTime with Some _ => _ | None => _ end) as [ts k]. cbn [fst snd].
  split; [reflexivity|]. split; [reflexivity|]. split; [reflexivity|]. split; [reflexivity|].
  split.
  - intros key Hne. cbn [Mock.sessions Mock.set_sessions]. apply lookup_insert_ne. congruence.
  - eexists. split; [cbn [Mock.sessions Mock.set_sessions]; apply lookup_insert_eq|].
    split; [reflexivity|]. split; [reflexivity|]. split; [reflexivity|].
    split; [reflexivity|]. split; [reflexivity|]. split.
    + intros clock'. unfold Mock.generateOutQR.
      cbn [Mock.sessions Mock.set_sessions]. rewrite lookup_insert_eq.
      eexists. reflexivity.
    + unfold MockQueries.getSessionAttendance.
      cbn [Mock.sessions Mock.set_sessions]. rewrite lookup_insert_eq.
      eexists. split; reflexivity.
Qed.

(** X5. A session created by a faculty member on the server: it is
    stored under [session:] and its id, which is the subject id, a colon
    and the first clock reading; no attendance is touched; the IN token
    and signature stored in it, the two parts of the wire string of the
    response, are accepted by [verifyQRToken] before the expiry, and the
    record step given the verified payload answers "IN scan recorded
    successfully" for any caller and writes a record with that scan time;
    another faculty member asking for the OUT token gets "Session not
    found", the owner gets a token. *)
Theorem server_created_session (st : Server.Store) (user : Server.CurrentUser)
    (subjectId date : string) (startTime : option string) (clock : Clock) (z1 z2 : Z) :
  Server.user_role user = "faculty" ->
  float_to_Z (clock 1%nat) = Some z1 -> 0 < z1 < two53 ->
  float_to_Z (clock 2%nat + 30 * 60 * 1000)%float = Some z2 -> 0 < z2 < two53 ->
  let response := Server.post_faculty_session st user subjectId date startTime clock in
  let st' := fst response in
  let sessionId := subjectId +:+ ":" +:+ NumberToString (clock 0%nat) in
  exists session,
    Server.sessions st' !! ("session:" +:+ sessionId) = Some session
    /\ snd response
       = Server.Json (sessionId, Server.Session.inQrToken session +:+ ":"
                                  +:+ Server.Session.inQrSignature session)
    /\ Server.attendance st' = Server.attendance st
    /\ Server.Session.id session = sessionId
    /\ Server.Session.subjectId session = subjectId
    /\ Server.Session.facultyId session = Server.user_id user
    /\ (forall now student lat lng now',
        (now <? clock 2%nat + 30 * 60 * 1000)%float = true ->
        let payload := Server.verifyQRToken (Server.Session.inQrToken session)
                         (Some (Server.Session.inQrSignature session)) now in
        js_truthy payload = true
        /\ exists record,
            Server.post_attendance_scan_record st' student payload lat lng now'
            = (Server.set_attendance st'
                 (<["attendance:" +:+ Server.user_id student +:+ ":" +:+ sessionId := record]>
                    (Server.attendance st')),
               Server.Json {| Server.success := true;
                              Server.message := "IN scan recorded successfully";
                              Server.scanned := record |})
            /\ Server.AttendanceRecord.inScanTs record = Some (toISOString now')
            /\ Server.AttendanceRecord.subjectId record
               = match Server.attendance st
                         !! ("attendance:" +:+ Server.user_id student +:+ ":" +:+ sessionId) with
                 | Some old => Server.AttendanceRecord.subjectId old
                 | None => subjectId
                 end)
    /\ (forall other clock',
        Server.user_role other = "faculty" ->
        Server.user_id other <> Server.user_id user ->
        Server.post_generate_out st' other sessionId clock'
        = (st', Server.JsonError "Session not found" 404))
    /\ (forall clock', exists wire,
        snd (Server.post_generate_out st' user sessionId clock') = Server.Json wire).
Proof.
  intros Hrole Hz1 Hr1 Hz2 Hr2 response st' sessionId. subst response st'.
  unfold Server.post_faculty_session. rewrite Hrole. cbn [String.eqb Ascii.eqb Bool.eqb negb].
  fold sessionId.
  destruct (match startTime with Some _ => _ | None => _ end) as [start k].
  cbn [fst snd]. eexists.
  unfold Server.kv_set. cbn [Server.sessions Server.attendance Server.set_sessions].
  split; [apply lookup_insert_eq|]. split; [reflexivity|]. split; [reflexivity|].
  cbn [Server.Session.id Server.Session.subjectId Server.Session.facultyId
       Server.Session.inQrToken Server.Session.inQrSignature].
  split; [reflexivity|]. split; [reflexivity|]. split; [reflexivity|].
  split; [|split].
  - intros now student lat lng now' Hnow. cbv zeta.
    unfold Server.generateQRToken. cbn [fst snd].
    rewrite (server_expiry_test _ _ (clock 2%nat + 30 * 60 * 1000)%float now
               (parse_stringify_payload _ _ _ _ z1 z2 Hz1 Hr1 Hz2 Hr2) eq_refl).
    rewrite Hnow. split; [reflexivity|].
    match goal with
    | |- context [Server.post_attendance_scan_record ?s _ ?p _ _ _] =>
        pose proof (server_record_step s student p (JStr sessionId) (JStr "IN")) as Hstep
    end.
    cbn [js_to_string Server.kv_get Server.sessions Server.set_sessions] in Hstep.
    unfold Server.kv_get in Hstep. rewrite lookup_insert_eq in Hstep.
    specialize (Hstep _ lat lng now' eq_refl eq_refl eq_refl). cbv zeta in Hstep.
    cbn [js_strict_eq_str String.eqb Ascii.eqb Bool.eqb] in Hstep.
    eexists. split; [exact Hstep|].
    cbn [Server.set_inScan Server.AttendanceRecord.inScanTs Server.AttendanceRecord.subjectId].
    split; [reflexivity|].
    unfold server_attendance0. cbn [js_to_string Server.attendance Server.set_sessions].
    destruct (Server.attendance st !! _); reflexivity.
  - intros other clock' Hfac Hother. unfold Server.post_generate_out.
    rewrite Hfac. cbn [String.eqb Ascii.eqb Bool.eqb negb].
    unfold Server.kv_get. cbn [Server.sessions Server.set_sessions].
    rewrite lookup_insert_eq. cbn [Server.Session.facultyId].
    destruct (String.eqb_spec (Server.user_id user) (Server.user_id other)) as [E|_];
      [congruence|]. reflexivity.
  - intros clock'. unfold Server.post_generate_out.
    rewrite Hrole. cbn [String.eqb Ascii.eqb Bool.eqb negb].
    unfold Server.kv_get. cbn [Server.sessions Server.set_sessions].
    rewrite lookup_insert_eq. cbn [Server.Session.facultyId].
    rewrite String.eqb_refl. cbn [negb snd]. eexists. reflexivity.
Qed.

End Lifecycle.

(** ** The reachable states of the mock database *)

Section MockInvariant.
Context `{Host}.

Lemma no_colon_NumberToString (x : float) :
  numbers_without_colon -> no_colon (NumberToString x).
Proof.
  intros Hnum. unfold NumberToString.
  destruct (float_to_Z x) as [z|]; [destruct (_ <? _)|];
    auto using no_colon_Z_to_string.
Qed.

Lemma wf_createSession (db : Mock.MockDatabase) (facultyId subjectId date : string)
    (startTime : option string) (clock : Clock) :
  numbers_without_colon -> wf db ->
  wf (fst (Mock.createSession db facultyId subjectId date startTime clock)).
Proof.
  intros Hnum [Hs Hr]. unfold Mock.createSession.
  destruct (match startTime with Some _ => _ | None => _ end) as [ts k]. cbn [fst].
  set (sid := subjectId +:+ ":" +:+ NumberToString (clock 0%nat)).
  split.
  - intros key session. cbn [Mock.sessions Mock.set_sessions].
    rewrite lookup_insert_Some. intros [[<- <-]|[Hne Hl]].
    + split; [reflexivity|]. exists (NumberToString (clock 0%nat)).
      split; [reflexivity|apply no_colon_NumberToString, Hnum].
    + apply Hs, Hl.
  - intros key record Hl. cbn [Mock.attendance Mock.set_sessions] in Hl.
    destruct (Hr _ _ Hl) as [Hk (session & Hsess & Hsub)].
    split; [exact Hk|]. cbn [Mock.sessions Mock.set_sessions].
    destruct (decide (sid = Mock.AttendanceRecord.sessionId record)) as [E|Hne].
    + rewrite <- E, lookup_insert_eq. eexists. split; [reflexivity|].
      cbn [Mock.Session.subjectId]. rewrite <- Hsub.
      destruct (Hs _ _ Hsess) as [_ (t & Ht & Hnt)].
      rewrite <- E in Ht. unfold sid in Ht.
      apply last_colon_unique in Ht as [-> _]; auto using no_colon_NumberToString.
    + rewrite lookup_insert_ne by exact Hne. eauto.
Qed.

Lemma wf_generateOutQR (db : Mock.MockDatabase) (sessionId : string) (clock : Clock) :
  wf db -> wf (fst (Mock.generateOutQR db sessionId clock)).
Proof.
  intros [Hs Hr]. unfold Mock.generateOutQR.
  destruct (Mock.sessions db !! sessionId) as [session|] eqn:E; cbn [fst]; [|split; assumption].
  split.
  - intros key s. cbn [Mock.sessions Mock.set_sessions].
    rewrite lookup_insert_Some. intros [[<- <-]|[Hne Hl]]; [|apply Hs, Hl].
    exact (Hs _ _ E).
  - intros key record Hl. cbn [Mock.attendance Mock.set_sessions] in Hl.
    destruct (Hr _ _ Hl) as [Hk (s & Hsess & Hsub)].
    split; [exact Hk|]. cbn [Mock.sessions Mock.set_sessions].
    destruct (decide (sessionId = Mock.AttendanceRecord.sessionId record)) as [Heq|Hne].
    + rewrite <- Heq in Hsess |- *. rewrite lookup_insert_eq. eexists. split; [reflexivity|].
      rewrite E in Hsess. injection Hsess as <-. exact Hsub.
    + rewrite lookup_insert_ne by exact Hne. eauto.
Qed.

Lemma wf_record (db : Mock.MockDatabase) (studentId : string) (qrPayload : JsValue)
    (lat lng now : float) :
  wf db -> wf (fst (Mock.scanAttendance_record db studentId qrPayload lat lng now)).
Proof.
  intros [Hs Hr]. unfold Mock.scanAttendance_record.
  destruct (js_get "sessionId" qrPayload) as [sessionId|e];
    destruct (js_get "scanType" qrPayload) as [scanType|e']; cbn [fst];
    try (split; assumption).
  destruct (Mock.sessions_get db sessionId) as [session|] eqn:E; cbn [fst];
    [|split; assumption].
  destruct sessionId as [| |b|x|sid|l|members]; try discriminate E.
  cbn [Mock.sessions_get] in E. cbn [js_to_string].
  split; [exact Hs|].
  intros key record. cbn [Mock.attendance Mock.sessions Mock.set_attendance].
  rewrite lookup_insert_Some. intros [[<- <-]|[Hne Hl]]; [|apply Hr, Hl].
  assert (Hok : record_ok db (studentId +:+ ":" +:+ sid)
                  (match Mock.attendance db !! (studentId +:+ ":" +:+ sid) with
                   | Some a => a
                   | None => {| Mock.AttendanceRecord.id := studentId +:+ ":" +:+ sid;
                                Mock.AttendanceRecord.sessionId := sid;
                                Mock.AttendanceRecord.studentId := studentId;
                                Mock.AttendanceRecord.subjectId := Mock.Session.subjectId session;
                                Mock.AttendanceRecord.inScanTs := None;
                                Mock.AttendanceRecord.outScanTs := None;
                                Mock.AttendanceRecord.inScanLocation := None;
                                Mock.AttendanceRecord.outScanLocation := None |}
                   end)).
  { destruct (Mock.attendance db !! (studentId +:+ ":" +:+ sid)) as [a|] eqn:Ea.
    - apply Hr, Ea.
    - split; [reflexivity|]. exists session. split; [exact E|reflexivity]. }
  destruct (js_strict_eq_str scanType "IN"); exact Hok.
Qed.

Lemma wf_scanAttendance (db : Mock.MockDatabase) (studentId qrData : string)
    (lat lng : float) (clock : Clock) :
  wf db -> wf (fst (Mock.scanAttendance db studentId qrData lat lng clock)).
Proof.
  intros Hwf. unfold Mock.scanAttendance.
  destruct (Mock.scanAttendance_geofence lat lng); [|exact Hwf].
  destruct (Mock.scanAttendance_decode qrData (clock 0%nat)); [|exact Hwf].
  apply wf_record, Hwf.
Qed.

Lemma wf_step (db db' : Mock.MockDatabase) :
  numbers_without_colon -> wf db -> mock_step db db' -> wf db'.
Proof.
  intros Hnum Hwf Hstep. destruct Hstep.
  - apply wf_createSession; assumption.
  - apply wf_generateOutQR; assumption.
  - apply wf_scanAttendance; assumption.
  - apply wf_record; assumption.
Qed.

Lemma wf_initializeData (now : float) :
  numbers_without_colon -> wf (MockQueries.initializeData now).
Proof.
  intros Hnum. unfold MockQueries.initializeData, MockQueries.set_all.
  set (yesterday := (now - 24 * 60 * 60 * 1000)%float).
  assert (Hne : "SUB002:" +:+ NumberToString now <> "SUB001:" +:+ NumberToString yesterday).
  { intros E. discriminate E. }
  split.
  - intros key session.
    cbn [Mock.sessions MockQueries.sample_sessions fold_left Mock.Session.id].
    fold yesterday.
    rewrite !lookup_insert_Some, lookup_empty.
    intros [[<- <-]|[_ [[<- <-]|[_ [=]]]]]; (split; [reflexivity|]); cbn [Mock.Session.subjectId].
    + exists (NumberToString now). split; [reflexivity|apply no_colon_NumberToString, Hnum].
    + exists (NumberToString yesterday). split; [reflexivity|apply no_colon_NumberToString, Hnum].
  - intros key record. unfold record_ok.
    cbn [Mock.attendance Mock.sessions MockQueries.sample_sessions MockQueries.sample_attendance
           fold_left Mock.Session.id Mock.AttendanceRecord.id].
    fold yesterday.
    rewrite !lookup_insert_Some, lookup_empty.
    intros [[<- <-]|[_ [[<- <-]|[_ [=]]]]].
    all: split; [reflexivity|].
    all: cbn [Mock.AttendanceRecord.sessionId Mock.AttendanceRecord.subjectId].
    all: rewrite lookup_insert_ne by exact Hne.
    all: rewrite lookup_insert_eq.
    all: eexists; split; reflexivity.
Qed.

Lemma reachable_wf (now : float) (db : Mock.MockDatabase) :
  numbers_without_colon -> mock_reachable now db -> wf db.
Proof.
  intros Hnum Hreach. induction Hreach as [|db db' _ IH Hstep].
  - apply wf_initializeData, Hnum.
  - exact (wf_step _ _ Hnum IH Hstep).
Qed.

End MockInvariant.

Section MockReachable.
Context `{Host}.

(** X8. In every state that the mock database can reach from its
    constructor by [createSession], [generateOutQR], [scanAttendance] and
    the record step of a scan given any payload, provided the host prints
    no number with a colon in it: every session is stored under its own
    id, which is its subject id, a colon and a colon-free text; every
    attendance record is stored under its student id, a colon and its
    session id, and its session exists and has the record's subject. *)
Theorem mock_records_refer_to_sessions (now : float) (db : Mock.MockDatabase) :
  numbers_without_colon -> mock_reachable now db ->
  (forall key session,
      Mock.sessions db !! key = Some session ->
      Mock.Session.id session = key
      /\ exists t, key = Mock.Session.subjectId session +:+ ":" +:+ t /\ no_colon t)
  /\ (forall key record,
      Mock.attendance db !! key = Some record ->
      key = Mock.AttendanceRecord.studentId record +:+ ":"
            +:+ Mock.AttendanceRecord.sessionId record
      /\ exists session,
          Mock.sessions db !! Mock.AttendanceRecord.sessionId record = Some session
          /\ Mock.Session.subjectId session = Mock.AttendanceRecord.subjectId record).
Proof.
  intros Hnum Hreach. exact (reachable_wf now db Hnum Hreach).
Qed.

End MockReachable.

Section MockCounting.
Context `{Host}.

Lemma mock_records_le_sessions (db : Mock.MockDatabase) (studentId subjectId : string) :
  wf db ->
  (length (filter (fun record => Mock.AttendanceRecord.studentId record = studentId
                                 /\ Mock.AttendanceRecord.subjectId record = subjectId)
                  (Mock.values (Mock.attendance db)))
   <= length (filter (fun session => Mock.Session.subjectId session = subjectId)
                     (Mock.values (Mock.sessions db))))%nat.
Proof.
  intros [Hs Hr]. unfold Mock.values.
  rewrite !filter_fmap, !length_fmap.
  set (R := filter _ (map_to_list (Mock.attendance db))).
  set (S := filter _ (map_to_list (Mock.sessions db))).
  rewrite <- (length_fmap (fun kv => Mock.AttendanceRecord.sessionId kv.2) R).
  rewrite <- (length_fmap fst S).
  apply NoDup_length_le.
  - apply NoDup_fmap_2_strong; [|apply NoDup_filter, NoDup_map_to_list].
    intros [k1 r1] [k2 r2] [[Hst1 _] Hin1]%list_elem_of_filter
           [[Hst2 _] Hin2]%list_elem_of_filter Heq.
    cbn in Hst1, Hst2, Heq.
    apply elem_of_map_to_list in Hin1, Hin2.
    destruct (Hr _ _ Hin1) as [Hk1 _], (Hr _ _ Hin2) as [Hk2 _].
    assert (k1 = k2) as <- by congruence.
    congruence.
  - intros sid [[k r] [-> [[_ Hsub] Hin]%list_elem_of_filter]]%list_elem_of_fmap.
    cbn in Hsub |- *. apply elem_of_map_to_list in Hin.
    destruct (Hr _ _ Hin) as [_ (session & Hsess & Hsubject)].
    apply list_elem_of_fmap. exists (Mock.AttendanceRecord.sessionId r, session).
    split; [reflexivity|]. apply list_elem_of_filter. split.
    + cbn. congruence.
    + apply elem_of_map_to_list, Hsess.
Qed.

(** X9. In every such state the summary of [getStudentProfile] never
    counts more attended sessions than sessions, for any student and
    subject. *)
Theorem mock_attended_le_total (now : float) (db : Mock.MockDatabase)
    (studentId : string) (subject : Mock.Subject.t) :
  numbers_without_colon -> mock_reachable now db ->
  (Mock.attendedSessions (Mock.subjectAttendance db studentId subject)
   <= Mock.totalSessions (Mock.subjectAttendance db studentId subject))%nat.
Proof.
  intros Hnum Hreach. pose proof (reachable_wf now db Hnum Hreach) as Hwf.
  unfold Mock.subjectAttendance. cbn [Mock.attendedSessions Mock.totalSessions].
  etransitivity; [apply length_filter|].
  apply mock_records_le_sessions, Hwf.
Qed.

End MockCounting.

Section Steps.
Context `{Host}.

(** X10. The record step of a scan in the mock leaves the users, the
    subjects and the sessions as they are, and, in a reachable state and
    for student ids without a colon, leaves the record of every other
    (student, session) pair as it is. *)
Theorem mock_scan_touches_one_record (t0 : float)
    (db : Mock.MockDatabase) (studentId : string) (qrPayload : JsValue) (lat lng now : float) :
  numbers_without_colon -> mock_reachable t0 db -> no_colon studentId ->
  let db' := fst (Mock.scanAttendance_record db studentId qrPayload lat lng now) in
  Mock.users db' = Mock.users db
  /\ Mock.subjects db' = Mock.subjects db
  /\ Mock.sessions db' = Mock.sessions db
  /\ (forall key record,
      Mock.attendance db !! key = Some record ->
      no_colon (Mock.AttendanceRecord.studentId record) ->
      Mock.AttendanceRecord.studentId record <> studentId
      \/ js_get "sessionId" qrPayload
         <> Return (JStr (Mock.AttendanceRecord.sessionId record)) ->
      Mock.attendance db' !! key = Some record).
Proof.
  intros Hnum Hreach Hstudent db'. subst db'.
  destruct (reachable_wf t0 db Hnum Hreach) as [Hs Hr].
  unfold Mock.scanAttendance_record.
  destruct (js_get "sessionId" qrPayload) as [sessionId|e];
    destruct (js_get "scanType" qrPayload) as [scanType|e']; cbn [fst];
    try (repeat split; auto; fail).
  destruct (Mock.sessions_get db sessionId) as [session|] eqn:E; cbn [fst];
    [|repeat split; auto].
  destruct sessionId as [| |b|x|sid|l|members]; try discriminate E.
  cbn [js_to_string]. split; [reflexivity|]. split; [reflexivity|]. split; [reflexivity|].
  intros key record Hl Hn Hother. cbn [Mock.attendance Mock.set_attendance].
  rewrite lookup_insert_ne; [exact Hl|].
  intros Hkey. destruct (Hr _ _ Hl) as [Hk _]. rewrite Hk in Hkey.
  apply first_colon_unique in Hkey as [Hst Hse]; [|assumption|assumption].
  destruct Hother as [Hne|Hne]; [congruence|]. apply Hne. congruence.
Qed.

(** X7. Two record steps of the mock for the same student and an
    existing session, one with an IN payload and one with an OUT payload,
    leave under the key of the pair a record with the time and place of
    the IN scan in the IN fields and those of the OUT scan in the OUT
    fields, in whichever order the two scans are made and whatever was
    recorded for the pair before. *)
Theorem in_and_out_scans_complete_the_record
    (db : Mock.MockDatabase) (studentId sessionId : string) (session : Mock.Session.t)
    (pIn pOut : JsValue) (lat1 lng1 now1 lat2 lng2 now2 : float) :
  Mock.sessions db !! sessionId = Some session ->
  js_get "sessionId" pIn = Return (JStr sessionId) ->
  js_get "scanType" pIn = Return (JStr "IN") ->
  js_get "sessionId" pOut = Return (JStr sessionId) ->
  js_get "scanType" pOut = Return (JStr "OUT") ->
  let key := studentId +:+ ":" +:+ sessionId in
  let scan d p lat lng now := fst (Mock.scanAttendance_record d studentId p lat lng now) in
  (exists record,
      Mock.attendance (scan (scan db pIn lat1 lng1 now1) pOut lat2 lng2 now2) !! key
      = Some record
      /\ Mock.AttendanceRecord.inScanTs record = Some (toISOString now1)
      /\ Mock.AttendanceRecord.inScanLocation record = Some {| Mock.lat := lat1; Mock.lng := lng1 |}
      /\ Mock.AttendanceRecord.outScanTs record = Some (toISOString now2)
      /\ Mock.AttendanceRecord.outScanLocation record
         = Some {| Mock.lat := lat2; Mock.lng := lng2 |})
  /\ (exists record,
      Mock.attendance (scan (scan db pOut lat2 lng2 now2) pIn lat1 lng1 now1) !! key
      = Some record
      /\ Mock.AttendanceRecord.inScanTs record = Some (toISOString now1)
      /\ Mock.AttendanceRecord.inScanLocation record = Some {| Mock.lat := lat1; Mock.lng := lng1 |}
      /\ Mock.AttendanceRecord.outScanTs record = Some (toISOString now2)
      /\ Mock.AttendanceRecord.outScanLocation record
         = Some {| Mock.lat := lat2; Mock.lng := lng2 |}).
Proof.
  intros Hsess HsIn HtIn HsOut HtOut key scan. subst key scan. cbv beta.
  assert (Hget : Mock.sessions_get db (JStr sessionId) = Some session) by exact Hsess.
  split.
  - rewrite (mock_record_step db studentId pIn _ _ session lat1 lng1 now1 HsIn HtIn Hget).
    cbv zeta. cbn [fst js_strict_eq_str String.eqb Ascii.eqb Bool.eqb js_to_string].
    match goal with
    | |- context [Mock.set_attendance db ?m] => set (db1 := Mock.set_attendance db m)
    end.
    assert (Hget1 : Mock.sessions_get db1 (JStr sessionId) = Some session) by exact Hsess.
    rewrite (mock_record_step db1 studentId pOut _ _ session lat2 lng2 now2 HsOut HtOut Hget1).
    cbv zeta. cbn [fst js_strict_eq_str String.eqb Ascii.eqb Bool.eqb js_to_string].
    cbn [Mock.attendance Mock.set_attendance]. rewrite lookup_insert_eq.
    eexists. split; [reflexivity|].
    unfold mock_attendance0. cbn [js_to_string]. subst db1.
    cbn [Mock.attendance Mock.set_attendance]. rewrite lookup_insert_eq.
    repeat split.
  - rewrite (mock_record_step db studentId pOut _ _ session lat2 lng2 now2 HsOut HtOut Hget).
    cbv zeta. cbn [fst js_strict_eq_str String.eqb Ascii.eqb Bool.eqb js_to_string].
    match goal with
    | |- context [Mock.set_attendance db ?m] => set (db1 := Mock.set_attendance db m)
    end.
    assert (Hget1 : Mock.sessions_get db1 (JStr sessionId) = Some session) by exact Hsess.
    rewrite (mock_record_step db1 studentId pIn _ _ session lat1 lng1 now1 HsIn HtIn Hget1).
    cbv zeta. cbn [fst js_strict_eq_str String.eqb Ascii.eqb Bool.eqb js_to_string].
    cbn [Mock.attendance Mock.set_attendance]. rewrite lookup_insert_eq.
    eexists. split; [reflexivity|].
    unfold mock_attendance0. cbn [js_to_string]. subst db1.
    cbn [Mock.attendance Mock.set_attendance]. rewrite lookup_insert_eq.
    repeat split.
Qed.

End Steps.

(** ** The summaries *)

Section ServerCounting.
Context `{Host}.


End ServerCounting.


Section Queries.
Context `{Host}.

(** X12. [getSessionAttendance] of the mock fails with "Session not
    found" exactly when no session has that id. Otherwise it returns the
    stored session; [totalScans] is the number of entries of [attendance];
    [completeAttendance] is the number of entries marked [isComplete] and
    is at most [totalScans]; and every entry is a stored record of that
    session. *)
Theorem mock_session_attendance_counts (db : Mock.MockDatabase) (sessionId : string) :
  (MockQueries.getSessionAttendance db sessionId = Throw (Error "Session not found")
   <-> Mock.sessions db !! sessionId = None)
  /\ (forall result,
      MockQueries.getSessionAttendance db sessionId = Return result ->
      Mock.sessions db !! sessionId = Some (MockQueries.session result)
      /\ MockQueries.totalScans result = length (MockQueries.attendance result)
      /\ MockQueries.completeAttendance result
         = length (filter (fun entry => MockQueries.isComplete entry = true)
                          (MockQueries.attendance result))
      /\ (MockQueries.completeAttendance result <= MockQueries.totalScans result)%nat
      /\ (forall entry, entry ∈ MockQueries.attendance result ->
          Mock.AttendanceRecord.sessionId (MockQueries.record entry) = sessionId
          /\ MockQueries.record entry ∈ Mock.values (Mock.attendance db))).
Proof.
  unfold MockQueries.getSessionAttendance. split.
  - destruct (Mock.sessions db !! sessionId); split; congruence.
  - intros result. destruct (Mock.sessions db !! sessionId) as [session|]; [|discriminate].
    intros [= <-].
    cbn [MockQueries.session MockQueries.totalScans MockQueries.attendance
           MockQueries.completeAttendance].
    split; [reflexivity|]. split; [now rewrite length_map|].
    split; [now rewrite filter_map, length_map|].
    split; [apply length_filter|].
    intros entry [r [<- Hin]]%list_elem_of_In%in_map_iff.
    apply list_elem_of_In, list_elem_of_filter in Hin as [Hsid Hin].
    split; [exact Hsid|exact Hin].
Qed.

Lemma withStudents_facts (st : Server.Store) (records : list Server.AttendanceRecord.t) :
  (length (ServerQueries.withStudents st records) <= length records)%nat
  /\ (length (filter (fun entry => ServerQueries.isComplete entry = true)
                     (ServerQueries.withStudents st records))
      <= length (filter (fun r => ServerQueries.complete r = true) records))%nat
  /\ (forall entry, entry ∈ ServerQueries.withStudents st records ->
      ServerQueries.record entry ∈ records
      /\ exists student,
          Server.students st !! ("student:" +:+ Server.AttendanceRecord.studentId
                                                  (ServerQueries.record entry))
          = Some student
          /\ ServerQueries.studentName entry = Server.User.name student
          /\ ServerQueries.rollNo entry = Server.User.rollNo student)
  /\ ((forall r, r ∈ records ->
        Server.students st !! ("student:" +:+ Server.AttendanceRecord.studentId r) <> None) ->
      length (ServerQueries.withStudents st records) = length records).
Proof.
  unfold ServerQueries.withStudents, Server.kv_get.
  induction records as [|r records (IH1 & IH2 & IH3 & IH4)].
  - cbn. split; [lia|]. split; [lia|].
    split; [intros entry Hin; inversion Hin|reflexivity].
  - cbn [flat_map]. rewrite filter_cons.
    destruct (Server.students st !! _) as [student|] eqn:E.
    + cbn [app length]. rewrite filter_cons. cbn [ServerQueries.isComplete].
      split; [lia|]. split; [|split].
      * destruct (decide (ServerQueries.complete r = true)); cbn [length]; lia.
      * intros entry [->|Hin]%elem_of_cons.
        -- cbn. split; [left|eauto].
        -- destruct (IH3 entry Hin) as [Hr Hs]. split; [right; exact Hr|exact Hs].
      * intros Hall. f_equal. apply IH4. intros r' Hr'. apply Hall. now right.
    + cbn [app]. split; [cbn [length]; lia|]. split; [|split].
      * destruct (decide (ServerQueries.complete r = true)); cbn [length]; lia.
      * intros entry Hin. destruct (IH3 entry Hin) as [Hr Hs]. split; [right; exact Hr|exact Hs].
      * intros Hall. destruct (Hall r); [now left|exact E].
Qed.

(** X13. The server's session attendance: [totalScans] counts the
    records of the session; the [attendance] list has at most that many
    entries, because a record whose student is not in the store has no
    entry, and exactly that many when every such student is stored; the
    entries marked [isComplete] are at most [completeAttendance], which is
    at most [totalScans]; every entry is of that session and carries the
    name of the stored student. *)
Theorem server_session_attendance_counts (st : Server.Store) (user : Server.CurrentUser)
    (sessionId : string) (result : ServerQueries.SessionAttendance) :
  ServerQueries.get_session_attendance st user sessionId = Server.Json result ->
  let scans := filter (fun r => js_strict_eq_str (Server.AttendanceRecord.sessionId r)
                                  sessionId = true)
                 (Server.kv_getByPrefix (Server.attendance st) "attendance:") in
  ServerQueries.totalScans result = length scans
  /\ (length (ServerQueries.attendance result) <= ServerQueries.totalScans result)%nat
  /\ (length (filter (fun entry => ServerQueries.isComplete entry = true)
                     (ServerQueries.attendance result))
      <= ServerQueries.completeAttendance result <= ServerQueries.totalScans result)%nat
  /\ (forall entry, entry ∈ ServerQueries.attendance result ->
      Server.AttendanceRecord.sessionId (ServerQueries.record entry) = JStr sessionId
      /\ exists student,
          Server.students st !! ("student:" +:+ Server.AttendanceRecord.studentId
                                                  (ServerQueries.record entry))
          = Some student
          /\ ServerQueries.studentName entry = Server.User.name student)
  /\ ((forall r, r ∈ scans ->
        Server.students st !! ("student:" +:+ Server.AttendanceRecord.studentId r) <> None) ->
      length (ServerQueries.attendance result) = ServerQueries.totalScans result).
Proof.
  intros Heq scans. unfold ServerQueries.get_session_attendance in Heq.
  destruct (Server.kv_get _ _) as [session|]; [|discriminate].
  destruct (_ && _); [discriminate|]. injection Heq as Heq. subst result.
  cbn [ServerQueries.totalScans ServerQueries.attendance ServerQueries.completeAttendance].
  change (filter _ (Server.kv_getByPrefix (Server.attendance st) "attendance:")) with scans.
  destruct (withStudents_facts st scans) as (H1 & H2 & H3 & H4).
  split; [reflexivity|]. split; [exact H1|]. split; [split; [exact H2|apply length_filter]|].
  split; [|exact H4].
  intros entry Hin. destruct (H3 entry Hin) as [Hr (student & Hs & Hname & _)].
  apply list_elem_of_filter in Hr as [Hsid _]. split; [|eauto].
  unfold js_strict_eq_str in Hsid.
  destruct (Server.AttendanceRecord.sessionId _) as [| |b|x|s|l|m]; try discriminate Hsid.
  apply String.eqb_eq in Hsid. congruence.
Qed.

(** X14. Who may read the attendance of a session on the server: the
    answer is "Session not found" exactly when no session has that id,
    "Unauthorized" exactly when the caller has the faculty role and the
    session belongs to someone else; a caller with any other role, a
    student for instance, gets the attendance of any existing session. *)
Theorem server_session_attendance_access (st : Server.Store) (user : Server.CurrentUser)
    (sessionId : string) :
  (ServerQueries.get_session_attendance st user sessionId
     = Server.JsonError "Session not found" 404
   <-> Server.sessions st !! ("session:" +:+ sessionId) = None)
  /\ (ServerQueries.get_session_attendance st user sessionId
        = Server.JsonError "Unauthorized" 403
      <-> exists session,
           Server.sessions st !! ("session:" +:+ sessionId) = Some session
           /\ Server.user_role user = "faculty"
           /\ Server.Session.facultyId session <> Server.user_id user)
  /\ (forall session,
      Server.sessions st !! ("session:" +:+ sessionId) = Some session ->
      Server.user_role user <> "faculty" ->
      exists result,
        ServerQueries.get_session_attendance st user sessionId = Server.Json result
        /\ ServerQueries.session result = session).
Proof.
  unfold ServerQueries.get_session_attendance, Server.kv_get.
  destruct (Server.sessions st !! ("session:" +:+ sessionId)) as [session|] eqn:E.
  - destruct (String.eqb_spec (Server.user_role user) "faculty") as [Hrole|Hrole];
      destruct (String.eqb_spec (Server.Session.facultyId session) (Server.user_id user))
        as [Hown|Hown]; cbn [andb negb].
    + split; [split; discriminate|]. split.
      * split; [discriminate|]. intros (s & [= <-] & _ & Hne). contradiction.
      * intros s _ Hne. contradiction.
    + split; [split; discriminate|]. split.
      * split; [eauto|reflexivity].
      * intros s _ Hne. contradiction.
    + split; [split; discriminate|]. split.
      * split; [discriminate|]. intros (s & _ & Hr & _). contradiction.
      * intros s [= <-] _. eexists. split; reflexivity.
    + split; [split; discriminate|]. split.
      * split; [discriminate|]. intros (s & _ & Hr & _). contradiction.
      * intros s [= <-] _. eexists. split; reflexivity.
  - split; [split; reflexivity|]. split.
    + split; [discriminate|]. intros (s & [=] & _).
    + intros s [=].
Qed.

(** X15. [login] of the mock succeeds exactly for a stored user with
    that password, returns the stored user without the password and a
    token made of the clock reading, and fails with the same "Invalid
    credentials" for an unknown id and for a wrong password. The profile
    that [getStudentProfile] returns carries no password either. *)
Theorem mock_login_and_profile_hide_the_password (db : Mock.MockDatabase) :
  (forall id password now,
      (forall token user,
          MockQueries.login db id password now = Return (token, user) ->
          Mock.User.password user = None
          /\ token = "mock-jwt-token-" +:+ NumberToString now
          /\ exists stored,
              Mock.users db !! id = Some stored
              /\ Mock.User.password stored = Some password
              /\ user = MockQueries.without_password stored)
      /\ (forall stored,
          Mock.users db !! id = Some stored ->
          Mock.User.password stored = Some password ->
          MockQueries.login db id password now
          = Return ("mock-jwt-token-" +:+ NumberToString now,
                    MockQueries.without_password stored))
      /\ (forall e, MockQueries.login db id password now = Throw e ->
          e = Error "Invalid credentials"))
  /\ (forall studentId profile entries,
      Mock.getStudentProfile db studentId = Return (profile, entries) ->
      Mock.User.password profile = None
      /\ exists stored,
          Mock.users db !! studentId = Some stored
          /\ profile = MockQueries.without_password stored).
Proof.
  split.
  - intros id password now. unfold MockQueries.login.
    destruct (Mock.users db !! id) as [stored|].
    + destruct (bool_decide_reflect (Mock.User.password stored = Some password)) as [Hp|Hp].
      * split; [|split].
        -- intros token user [= <- <-]. split; [reflexivity|]. split; [reflexivity|]. eauto.
        -- intros s [= <-] _. reflexivity.
        -- discriminate.
      * split; [|split].
        -- discriminate.
        -- intros s [= <-] Hs. contradiction.
        -- intros e [= <-]. reflexivity.
    + split; [|split].
      * discriminate.
      * discriminate.
      * intros e [= <-]. reflexivity.
  - intros studentId profile entries. unfold Mock.getStudentProfile.
    destruct (Mock.users db !! studentId) as [stored|]; [|discriminate].
    destruct (String.eqb _ _); [|discriminate].
    intros [= <- _]. split; [reflexivity|]. eauto.
Qed.

(** X16. [getSubjects] of the mock returns every subject when no
    faculty id is given and also when the id is the empty string; for any
    other id it returns exactly the subjects of that faculty member. The
    server's route returns the caller's subjects to a caller with the
    faculty role and every subject to anyone else. *)
Theorem subjects_by_faculty :
  (forall db,
      MockQueries.getSubjects db None = Mock.values (Mock.subjects db)
      /\ MockQueries.getSubjects db (Some "") = Mock.values (Mock.subjects db)
      /\ (forall facultyId subject,
          facultyId <> "" ->
          (subject ∈ MockQueries.getSubjects db (Some facultyId)
           <-> subject ∈ Mock.values (Mock.subjects db)
               /\ Mock.Subject.facultyId subject = facultyId)))
  /\ (forall st user,
      (Server.user_role user <> "faculty" ->
       ServerQueries.get_subjects st user
       = Server.kv_getByPrefix (Server.subjects st) "subject:")
      /\ (Server.user_role user = "faculty" ->
          forall subject,
            subject ∈ ServerQueries.get_subjects st user
            <-> subject ∈ Server.kv_getByPrefix (Server.subjects st) "subject:"
                /\ Server.Subject.facultyId subject = Server.user_id user)).
Proof.
  split.
  - intros db. split; [reflexivity|]. split; [reflexivity|].
    intros facultyId subject Hne. unfold MockQueries.getSubjects. cbn [Mock.truthy_field].
    destruct (String.eqb_spec facultyId "") as [->|_]; [contradiction|]. cbn [negb].
    rewrite list_elem_of_filter. split.
    + intros [[= <-] Hin]. auto.
    + intros [Hin <-]. auto.
  - intros st user. unfold ServerQueries.get_subjects. split.
    + intros Hrole. destruct (String.eqb_spec (Server.user_role user) "faculty");
        [contradiction|reflexivity].
    + intros -> subject. cbn [String.eqb Ascii.eqb Bool.eqb].
      rewrite list_elem_of_filter. tauto.
Qed.

End Queries.

(** ** The pages *)

Section Pages.
Context `{Host}.

(** X17. The text that [generateQRDataURL] writes in the centre of the
    image is "QR" or "SCAN" whatever the input, never the direction: the
    part of the text before its first colon is parsed as JSON, and a
    colon-free text is not an object with a [scanType]. For every wire
    string of the server and of the mock the text is "SCAN". *)
Theorem qr_image_label_is_never_the_direction :
  (forall text,
      Ui.generateQRDataURL_label text = "QR" \/ Ui.generateQRDataURL_label text = "SCAN")
  /\ (forall sessionId scanType clock,
      let tk := Server.generateQRToken sessionId scanType clock in
      Ui.generateQRDataURL_label (fst tk +:+ ":" +:+ snd tk) = "SCAN")
  /\ (forall db facultyId subjectId date startTime clock,
      Ui.generateQRDataURL_label
        (snd (snd (Mock.createSession db facultyId subjectId date startTime clock))) = "SCAN")
  /\ (forall db sessionId clock wire,
      snd (Mock.generateOutQR db sessionId clock) = Return wire ->
      Ui.generateQRDataURL_label wire = "SCAN").
Proof.
  assert (Hgen : forall sessionId scanType t1 t2 tail,
             Ui.generateQRDataURL_label
               (JSON_stringify (JObj [("sessionId", JStr sessionId); ("scanType", JStr scanType);
                                      ("timestamp", JNum t1); ("expiry", JNum t2)]) +:+ tail)
             = "SCAN").
  { intros sessionId scanType t1 t2 tail. unfold Ui.generateQRDataURL_label.
    pose proof (split_wire_head sessionId scanType t1 t2 tail) as Hhd.
    destruct (destructure2 _) as [token signature]. cbn [fst] in Hhd. subst token.
    rewrite payload_head_not_json. reflexivity. }
  split; [|split; [|split]].
  - intros text. unfold Ui.generateQRDataURL_label.
    pose proof (split_hd_no_separator ":" text) as Hn.
    destruct (destructure2 (split ":" text)) as [token signature]. cbn [fst] in Hn.
    destruct (JSON_parse token) as [v|e] eqn:Ep; [|right; reflexivity]. cbn.
    destruct (no_colon_value token v "scanType" Hn Ep) as [-> | ->]; cbn; auto.
  - intros sessionId scanType clock tk. subst tk. unfold Server.generateQRToken.
    cbn [fst snd]. apply Hgen.
  - intros db facultyId subjectId date startTime clock. unfold Mock.createSession.
    destruct (match startTime with Some _ => _ | None => _ end) as [ts k].
    cbn [snd]. apply Hgen.
  - intros db sessionId clock wire. unfold Mock.generateOutQR.
    destruct (Mock.sessions db !! sessionId); cbn [snd]; [|discriminate].
    intros [= <-]. apply Hgen.
Qed.

(** X18. The DEMO-IN and DEMO-OUT shortcuts of the manual input of the
    scanner build a wire string that no backend accepts: the mock's
    decoding throws "Invalid QR code format" and a scan inside the campus
    fails with that error; the server answers "Invalid or expired QR
    code". *)
Theorem demo_shortcut_is_refused (trim : string -> string) (input : string) (clock : Clock) :
  trim input = "DEMO-IN" \/ trim input = "DEMO-OUT" ->
  exists qrData,
    Ui.handleManualInput trim input clock = Some qrData
    /\ (forall now,
        Mock.scanAttendance_decode qrData now = Throw (Error "Invalid QR code format"))
    /\ (forall db studentId lat lng clock',
        Mock.scanAttendance_geofence lat lng = Return tt ->
        Mock.scanAttendance db studentId qrData lat lng clock'
        = (db, Throw (Error "Invalid QR code format")))
    /\ (forall st user lat lng clock',
        Server.user_role user = "student" ->
        Server.isWithinCampus lat lng = true ->
        Server.post_attendance_scan st user qrData lat lng clock'
        = (st, Server.JsonError "Invalid or expired QR code" 400)).
Proof.
  intros Hdemo. unfold Ui.handleManualInput.
  assert (Hne : String.eqb (trim input) "" = false) by (destruct Hdemo as [-> | ->]; reflexivity).
  assert (Hsc : String.eqb (trim input) "DEMO-IN" || String.eqb (trim input) "DEMO-OUT" = true)
    by (destruct Hdemo as [-> | ->]; reflexivity).
  rewrite Hne, Hsc. eexists. split; [reflexivity|].
  set (scanType := if String.eqb (trim input) "DEMO-OUT" then "OUT" else "IN").
  assert (Hdec : forall now,
             Mock.scanAttendance_decode
               (JSON_stringify
                  (JObj [("sessionId", JStr ("SUB001:" +:+ NumberToString (clock 0%nat)));
                         ("scanType", JStr scanType); ("timestamp", JNum (clock 1%nat));
                         ("expiry", JNum (clock 1%nat + 30 * 60 * 1000)%float)])
                +:+ ":" +:+ "demo-signature-" +:+ NumberToString (clock 1%nat)) now
             = Throw (Error "Invalid QR code format")).
  { intros now. apply (mock_decode_generated _ scanType). }
  split; [exact Hdec|]. split.
  - intros db studentId lat lng clock' Hin. unfold Mock.scanAttendance.
    rewrite Hin, Hdec. reflexivity.
  - intros st user lat lng clock' Hrole Hin. unfold Server.post_attendance_scan.
    rewrite Hrole, Hin. cbn [String.eqb Ascii.eqb Bool.eqb negb].
    unfold Server.post_attendance_scan_decode.
    pose proof (split_wire_head ("SUB001:" +:+ NumberToString (clock 0%nat)) scanType
                  (clock 1%nat) (clock 1%nat + 30 * 60 * 1000)%float
                  (":" +:+ "demo-signature-" +:+ NumberToString (clock 1%nat))) as Hhd.
    destruct (destructure2 _) as [token signature]. cbn [fst] in Hhd. subst token.
    rewrite verifyQRToken_head. reflexivity.
Qed.

(** X19. The labels of the student page. [getAttendanceStatus] is
    "Excellent" from 85, "Good" from 75 to below 85 and "Below Average"
    otherwise, a percentage that is not a number included. The page calls
    it once, on the overall figure: the rounded mean of the percentages of
    the subjects, or 0 when the profile has no attendance list; without a
    list the label is "Below Average", and so it is with an empty list,
    where the figure is 0 / 0, not a number. The badge of a subject has
    the same thresholds: "default" exactly where the label would be
    "Excellent", "secondary" where "Good", "destructive" where "Below
    Average". So has [getAttendanceColor], which the page defines and does
    not call. *)
Theorem attendance_labels_of_the_student_page :
  (forall percentage,
      (Ui.getAttendanceStatus percentage = "Excellent" <-> (85 <=? percentage)%float = true)
      /\ (Ui.getAttendanceStatus percentage = "Good"
          <-> (85 <=? percentage)%float = false /\ (75 <=? percentage)%float = true)
      /\ (Ui.getAttendanceStatus percentage = "Below Average"
          <-> (85 <=? percentage)%float = false /\ (75 <=? percentage)%float = false)
      /\ (PrimFloat.is_nan percentage = true ->
          Ui.getAttendanceStatus percentage = "Below Average"
          /\ Ui.badgeVariant percentage = "destructive"))
  /\ Ui.overallAttendance None = 0%float
  /\ Ui.getAttendanceStatus (Ui.overallAttendance None) = "Below Average"
  /\ PrimFloat.is_nan (Ui.overallAttendance (Some [])) = true
  /\ Ui.getAttendanceStatus (Ui.overallAttendance (Some [])) = "Below Average"
  /\ (forall percentage,
      (Ui.badgeVariant percentage = "default"
       <-> Ui.getAttendanceStatus percentage = "Excellent")
      /\ (Ui.badgeVariant percentage = "secondary"
          <-> Ui.getAttendanceStatus percentage = "Good")
      /\ (Ui.badgeVariant percentage = "destructive"
          <-> Ui.getAttendanceStatus percentage = "Below Average"))
  /\ (forall percentage,
      (Ui.getAttendanceColor percentage = "text-green-600"
       <-> Ui.getAttendanceStatus percentage = "Excellent")
      /\ (Ui.getAttendanceColor percentage = "text-yellow-600"
          <-> Ui.getAttendanceStatus percentage = "Good")
      /\ (Ui.getAttendanceColor percentage = "text-red-600"
          <-> Ui.getAttendanceStatus percentage = "Below Average")).
Proof.
  split; [|split; [|split; [|split; [|split; [|split]]]]].
  - intros percentage. unfold Ui.getAttendanceStatus, Ui.badgeVariant.
    split; [|split; [|split]].
    + destruct (85 <=? percentage)%float; [split; reflexivity|].
      destruct (75 <=? percentage)%float; split; discriminate.
    + destruct (85 <=? percentage)%float; [split; [discriminate|intros [E _]; discriminate]|].
      destruct (75 <=? percentage)%float; split;
        try (intros [_ E]); (reflexivity || discriminate || (split; reflexivity)).
    + destruct (85 <=? percentage)%float; [split; [discriminate|intros [E _]; discriminate]|].
      destruct (75 <=? percentage)%float; split;
        try (intros [_ E]); (reflexivity || discriminate || (split; reflexivity)).
    + intros Hnan. rewrite !(leb_nan_r _ _ Hnan). split; reflexivity.
  - reflexivity.
  - reflexivity.
  - vm_compute. reflexivity.
  - vm_compute. reflexivity.
  - intros percentage. unfold Ui.getAttendanceStatus, Ui.badgeVariant.
    destruct (85 <=? percentage)%float;
      [|destruct (75 <=? percentage)%float];
      (split; [|split]); split; (reflexivity || discriminate).
  - intros percentage. unfold Ui.getAttendanceStatus, Ui.getAttendanceColor.
    destruct (85 <=? percentage)%float;
      [|destruct (75 <=? percentage)%float];
      (split; [|split]); split; (reflexivity || discriminate).
Qed.

End Pages.


(** ** The programs on concrete inputs *)

#[local] Existing Instance Demo.host.

(** *** Scenarios *)

(** A student at (0, 0) is refused, with a good token or a bad one, by both
    programs; a student at the campus point passes the campus check. *)
Example scenario_outside_campus :
  Server.isWithinCampus 0 0 = false
  /\ Mock.scanAttendance_geofence 0 0
     = Throw (Error "Scan location is outside campus boundary")
  /\ Server.isWithinCampus 22.3039 73.3620 = true
  /\ Mock.scanAttendance_geofence 22.3039 73.3620 = Return tt.
Proof. vm_compute. repeat split. Qed.

(** The token that [createSession] returns, presented at the campus point
    a minute later, is refused as malformed: scenario 1 of the
    specification does not go through. *)
Example scenario_in_scan_of_fresh_token :
  Mock.scanAttendance (fst Demo.created) "STU001" (snd (snd Demo.created))
    22.3039 73.3620 (Demo.ticking 1700000060000)
  = (fst Demo.created, Throw (Error "Invalid QR code format")).
Proof. vm_compute. reflexivity. Qed.

(** The parts that the decoder keeps of a wire token. *)
Example split_of_issued_token :
  destructure2 (split ":" (fst Demo.issued +:+ ":" +:+ snd Demo.issued))
  = (payload_head, Some (String dquote "SUB001")).
Proof. vm_compute. reflexivity. Qed.

(** The token part alone, as [generateQRToken] made it, is accepted by
    [verifyQRToken] with its signature before the expiry. *)
Example verify_of_issued_token :
  Server.verifyQRToken (fst Demo.issued) (Some (snd Demo.issued)) 1700000060000
  = Demo.payload "IN".
Proof. vm_compute. reflexivity. Qed.

(** The payload of the issued token, written as a JSON text. *)
Example parse_of_payload_text :
  JSON_parse (Demo.json "{'sessionId':'SUB001:1700000000000','scanType':'IN','timestamp':1700000000000,'expiry':1700001800000}")
  = Return (Demo.payload "IN")
  /\ JSON_stringify (Demo.payload "IN") = fst Demo.issued.
Proof. vm_compute. split; reflexivity. Qed.

(** The store after the faculty member FAC001 created the session. *)
Example server_session_created :
  Demo.server_created
  = (Demo.store_with None,
     Server.Json (Demo.session_id, fst Demo.issued +:+ ":" +:+ snd Demo.issued)).
Proof. vm_compute. reflexivity. Qed.

(** The record step on the payload of an IN scan, then of an OUT scan. *)
Example scenario_record_in_then_out :
  fst (Mock.scanAttendance_record (Demo.db_with None) "STU001" (Demo.payload "IN")
         22.3039 73.3620 1700000060000)
  = Demo.db_with (Some Demo.mock_record_in)
  /\ fst (Mock.scanAttendance_record (Demo.db_with (Some Demo.mock_record_in)) "STU001"
            (Demo.payload "OUT") 22.3039 73.3620 1700003600000)
     = Demo.db_with (Some Demo.mock_record_both).
Proof. vm_compute. split; reflexivity. Qed.

(** A distance that is not a number passes the mock's check and fails the
    server's. *)
Example nan_distance :
  (2000 <? nan)%float = false /\ (nan <=? 2000)%float = false.
Proof. vm_compute. split; reflexivity. Qed.

(** The percentage is computed in binary64: 29 sessions out of 200 give
    14, where the exact quotient 14.5 would round to 15. *)
Example percentage_29_of_200 :
  Math_round (float_of_nat 29 / float_of_nat 200 * 100)%float = 14%float.
Proof. vm_compute. reflexivity. Qed.

(** Four sessions, three of them with both scans: 75 per cent. *)
Example scenario_three_of_four :
  Mock.subjectAttendance Demo.db_four "STU001" Demo.data_structures
  = {| Mock.subject := "Data Structures"; Mock.code := "CS301";
       Mock.totalSessions := 4; Mock.attendedSessions := 3; Mock.percentage := 75 |}.
Proof. vm_compute. reflexivity. Qed.

(** *** Instances of the theorems *)

Lemma C1_signature_check_witness :
  let qrData := fst Demo.issued +:+ ":" +:+ Demo.flip_last_bit (snd Demo.issued) in
  snd (destructure2 (split ":" qrData))
    <> Some (hmac_sha256_hex Server.JWT_SECRET (fst (destructure2 (split ":" qrData))))
  /\ Server.post_attendance_scan (Demo.store_with None) Demo.a_student qrData
       22.3039 73.3620 (Demo.ticking 1700000060000)
     = (Demo.store_with None, Server.JsonError "Invalid or expired QR code" 400).
Proof.
  intros qrData.
  assert (Hne : snd (destructure2 (split ":" qrData))
                <> Some (hmac_sha256_hex Server.JWT_SECRET
                           (fst (destructure2 (split ":" qrData))))).
  { vm_compute. discriminate. }
  split; [exact Hne|].
  destruct (@C1_signature_check Demo.host) as (_ & _ & Hroute & _).
  apply (Hroute _ _ _ _ _ _ Hne); vm_compute; reflexivity.
Defined.

Lemma C3_checks_in_order_witness :
  let db := Demo.db_with None in
  let clock := Demo.ticking 1700000060000 in
  Mock.scanAttendance db "STU001" "not a token" 0 0 clock
  = (db, Throw (Error "Scan location is outside campus boundary"))
  /\ Server.post_attendance_scan (Demo.store_with None) Demo.a_student "not a token" 0 0 clock
     = (Demo.store_with None,
        Server.JsonError "Scan location is outside campus boundary" 400)
  /\ Mock.scanAttendance db "STU001" "not a token" 22.3039 73.3620 clock
     = (db, Throw (Error "Invalid QR code format"))
  /\ Server.post_attendance_scan (Demo.store_with None) Demo.a_student "not a token"
       22.3039 73.3620 clock
     = (Demo.store_with None, Server.JsonError "Invalid or expired QR code" 400)
  /\ Mock.scanAttendance_parse (fst Demo.issued) 1700001800001
     = Throw (Error "QR code has expired")
  /\ Mock.scanAttendance_record db "STU001"
       (JObj [("sessionId", JStr "SUB009:1"); ("scanType", JStr "IN")])
       22.3039 73.3620 1700000060000
     = (db, Throw (Error "Session not found"))
  /\ Mock.scanAttendance_record db "STU001" (Demo.payload "IN") 22.3039 73.3620 1700000060000
     = (Demo.db_with (Some Demo.mock_record_in),
        Return {| Mock.success := true; Mock.message := "IN scan recorded successfully";
                  Mock.scanned := Demo.mock_record_in |}).
Proof.
  intros db clock.
  destruct (@C3_checks_in_order Demo.host) as (Hmock & Hparse & Hrecord & Hserver & _).
  destruct (Hmock db "STU001" "not a token" 0%float 0%float clock) as (Hfar & _).
  destruct (Hmock db "STU001" "not a token" 22.3039%float 73.3620%float clock)
    as (_ & _ & Hformat & _).
  destruct (Hserver (Demo.store_with None) Demo.a_student "not a token" 0%float 0%float clock
              eq_refl) as (Hsfar & _).
  destruct (Hserver (Demo.store_with None) Demo.a_student "not a token"
              22.3039%float 73.3620%float clock eq_refl) as (_ & _ & Hstoken).
  destruct (Hparse (fst Demo.issued) 1700001800001%float) as (_ & Hexpiry).
  split; [apply Hfar; vm_compute; reflexivity|].
  split; [apply Hsfar; vm_compute; reflexivity|].
  split; [apply (Hformat ltac:(vm_compute; reflexivity) SyntaxError); vm_compute; reflexivity|].
  split; [apply Hstoken; vm_compute; reflexivity|].
  split.
  { rewrite (Hexpiry (Demo.payload "IN") 1700001800000%float)
      by (vm_compute; reflexivity).
    vm_compute. reflexivity. }
  split.
  - apply (Hrecord db "STU001" _ (JStr "SUB009:1") (JStr "IN")); reflexivity.
  - pose proof (Hrecord db "STU001" (Demo.payload "IN") (JStr Demo.session_id) (JStr "IN")
                  22.3039%float 73.3620%float 1700000060000%float eq_refl eq_refl) as Hstep.
    assert (Hget : Mock.sessions_get db (JStr Demo.session_id) = Some Demo.mock_session)
      by (vm_compute; reflexivity).
    rewrite Hget in Hstep. cbv zeta in Hstep.
    etransitivity; [exact Hstep|]. vm_compute. reflexivity.
Defined.

Lemma C4_within_campus_witness :
  (Spec.haversine 6371000 22.3039 73.3620 22.3039 73.3620 <=? 2000)%float = true
  /\ Server.isWithinCampus 22.3039 73.3620 = true.
Proof.
  assert (Hd : (Spec.haversine 6371000 22.3039 73.3620 22.3039 73.3620 <=? 2000)%float = true).
  { vm_compute. reflexivity. }
  split; [exact Hd|].
  apply (proj1 (@C4_within_campus_iff_distance_at_most_2000 Demo.host 22.3039%float 73.3620%float)).
  exact Hd.
Defined.

Lemma C5_server_refuses_at_expiry_witness :
  JSON_parse (fst Demo.issued) = Return (Demo.payload "IN")
  /\ js_get "expiry" (Demo.payload "IN") = Return (JNum 1700001800000)
  /\ Server.verifyQRToken (fst Demo.issued) (Some (snd Demo.issued)) 1700001800000 = JBool false
  /\ Mock.scanAttendance_parse (fst Demo.issued) 1700001800000 = Return (Demo.payload "IN").
Proof.
  assert (Hparse : JSON_parse (fst Demo.issued) = Return (Demo.payload "IN")).
  { vm_compute. reflexivity. }
  assert (Hexp : js_get "expiry" (Demo.payload "IN") = Return (JNum 1700001800000)).
  { vm_compute. reflexivity. }
  split; [exact Hparse|]. split; [exact Hexp|].
  exact (@C5_server_refuses_at_expiry Demo.host _ _ _ Hparse Hexp).
Defined.

Lemma C7_mock_goes_on_when_the_distance_is_nan_witness :
  let db := Demo.db_with None in
  let st := Demo.store_with None in
  let clock := Demo.ticking 1700000060000 in
  Server.isWithinCampus nan nan = false
  /\ PrimFloat.is_nan (Mock.calculateDistance nan nan 22.3039 73.3620) = true
  /\ Server.post_attendance_scan st Demo.a_student
       (fst Demo.issued +:+ ":" +:+ snd Demo.issued) nan nan clock
     = (st, Server.JsonError "Scan location is outside campus boundary" 400)
  /\ Mock.scanAttendance db "STU001" (snd (snd Demo.created)) nan nan clock
     = (db, Throw (Error "Invalid QR code format"))
  /\ Server.isWithinCampus 0 0 = false
  /\ Mock.scanAttendance db "STU001" (snd (snd Demo.created)) 0 0 clock
     = (db, Throw (Error "Scan location is outside campus boundary")).
Proof.
  intros db st clock.
  assert (Hout : Server.isWithinCampus nan nan = false) by (vm_compute; reflexivity).
  assert (Hnan : PrimFloat.is_nan (Mock.calculateDistance nan nan 22.3039 73.3620) = true)
    by (vm_compute; reflexivity).
  assert (Hout0 : Server.isWithinCampus 0 0 = false) by (vm_compute; reflexivity).
  destruct (@C7_mock_goes_on_when_the_distance_is_nan Demo.host db st Demo.a_student "STU001"
              (fst Demo.issued +:+ ":" +:+ snd Demo.issued) nan nan clock Hout)
    as (Hserver & _ & _).
  destruct (@C7_mock_goes_on_when_the_distance_is_nan Demo.host db st Demo.a_student "STU001"
              (snd (snd Demo.created)) nan nan clock Hout) as (_ & _ & Hmock).
  destruct (@C7_mock_goes_on_when_the_distance_is_nan Demo.host db st Demo.a_student "STU001"
              (snd (snd Demo.created)) 0%float 0%float clock Hout0) as (_ & Hmock0 & _).
  split; [exact Hout|]. split; [exact Hnan|].
  split; [apply Hserver; reflexivity|].
  split; [|split; [exact Hout0|apply Hmock0; vm_compute; reflexivity]].
  etransitivity; [apply (proj1 (Hmock Hnan))|]. vm_compute. reflexivity.
Defined.

Lemma C6_no_scan_overwrites_a_record_witness :
  let record := Mock.set_outScan Demo.mock_record_in (Demo.iso 1700001200000) Demo.campus in
  let db := Demo.db_with (Some record) in
  let after := fst (Mock.scanAttendance db "STU001" (snd (snd Demo.created))
                      22.3039 73.3620 (Demo.ticking 1700001500000)) in
  Mock.attendance db !! ("STU001:" +:+ Demo.session_id) = Some record
  /\ exists record',
      Mock.attendance after !! ("STU001:" +:+ Demo.session_id) = Some record'
      /\ Mock.AttendanceRecord.inScanTs record' = Some (Demo.iso 1700000060000)
      /\ Mock.AttendanceRecord.inScanLocation record' = Some Demo.campus
      /\ Mock.AttendanceRecord.outScanTs record' = Some (Demo.iso 1700001200000)
      /\ Mock.AttendanceRecord.outScanLocation record' = Some Demo.campus.
Proof.
  intros record db after.
  assert (Hl : Mock.attendance db !! ("STU001:" +:+ Demo.session_id) = Some record)
    by (vm_compute; reflexivity).
  split; [exact Hl|].
  destruct (@C6_no_scan_overwrites_a_record Demo.host) as (Hmock & _).
  destruct (Hmock db "STU001" (snd (snd Demo.created)) 22.3039%float 73.3620%float
              (Demo.ticking 1700001500000)) as (_ & Hkeep).
  destruct (Hkeep _ _ Hl) as (record' & Hl' & Hin & Hinloc & Hout & Houtloc).
  exists record'. split; [exact Hl'|].
  rewrite Hin, Hinloc, Hout, Houtloc. repeat split.
Defined.


Lemma C8_generate_out_witness :
  Mock.sessions (Demo.db_with None) !! "SUB009:1" = None
  /\ snd (Mock.generateOutQR (Demo.db_with None) "SUB009:1" (Demo.ticking 1700003600000))
     = Throw (Error "Session not found")
  /\ Server.post_generate_out (Demo.store_with None) Demo.the_owner Demo.session_id
       (Demo.frozen 1700003600000)
     = (Server.set_sessions (Demo.store_with None)
          (<["session:" +:+ Demo.session_id
             := Server.set_out Demo.server_session (Demo.iso 1700003600000)
                  (fst (Server.generateQRToken Demo.session_id Server.OUT
                          (Demo.frozen 1700003600000)))
                  (snd (Server.generateQRToken Demo.session_id Server.OUT
                          (Demo.frozen 1700003600000)))]>
             (Server.sessions (Demo.store_with None))),
        Server.Json (fst (Server.generateQRToken Demo.session_id Server.OUT
                            (Demo.frozen 1700003600000))
                     +:+ ":" +:+
                     snd (Server.generateQRToken Demo.session_id Server.OUT
                            (Demo.frozen 1700003600000)))).
Proof.
  destruct (@C8_generate_out Demo.host) as [Hmock Hserver].
  assert (Hnone : Mock.sessions (Demo.db_with None) !! "SUB009:1" = None)
    by (vm_compute; reflexivity).
  split; [exact Hnone|]. split.
  - apply (proj1 (Hmock (Demo.db_with None) "SUB009:1" (Demo.ticking 1700003600000))).
    exact Hnone.
  - destruct (Hserver (Demo.store_with None) Demo.the_owner Demo.session_id
                (Demo.frozen 1700003600000) eq_refl) as [_ Hok].
    apply (Hok Demo.server_session); vm_compute; reflexivity.
Defined.

Lemma C9_attendance_summary_witness :
  Mock.percentage (Mock.subjectAttendance (Demo.db_with (Some Demo.mock_record_both))
                     "STU001" Demo.data_structures)
  = Math_round (float_of_nat 1 / float_of_nat 1 * 100)%float.
Proof.
  destruct C9_attendance_summary as (Hmock & _).
  destruct (Hmock (Demo.db_with (Some Demo.mock_record_both)) "STU001" Demo.data_structures)
    as (Ht & Ha & Hp).
  rewrite Hp, Ha, Ht. vm_compute. reflexivity.
Defined.

(** *** The inputs on which a claim fails *)

(** C1 fails as stated: the signature of a token of [createSession] is
    altered by one bit; the mock refuses the scan with "Invalid QR code
    format", the error that the unaltered token gets too, which does not
    stand for a signature mismatch. *)
Lemma C1_mock_altered_signature :
  let wire := snd (snd Demo.created) in
  let altered := Demo.flip_last_bit wire in
  altered <> wire
  /\ fst (destructure2 (split ":" altered)) = fst (destructure2 (split ":" wire))
  /\ Mock.scanAttendance (fst Demo.created) "STU001" altered 22.3039 73.3620
       (Demo.ticking 1700000060000)
     = (fst Demo.created, Throw (Error "Invalid QR code format"))
  /\ ~ In Spec.SignatureMismatch (Spec.errors_of_message "Invalid QR code format").
Proof.
  vm_compute. repeat split; try discriminate.
  intros [E|[]]. discriminate E.
Qed.

(** C3 fails as stated: at the campus point the mock is given the text 17,
    then an empty object with a signature of any kind. Neither is a token,
    and neither is refused at the token step: both pass on to the session
    lookup and are answered "Session not found", which stands for no token
    error. *)
Lemma C3_mock_passes_a_token_that_is_no_payload :
  let db := Demo.db_with None in
  let clock := Demo.ticking 1700000060000 in
  Mock.scanAttendance_geofence 22.3039 73.3620 = Return tt
  /\ Mock.scanAttendance_decode "17" (clock 0%nat) = Return (JNum 17)
  /\ Mock.scanAttendance db "STU001" "17" 22.3039 73.3620 clock
     = (db, Throw (Error "Session not found"))
  /\ Mock.scanAttendance db "STU001" (Demo.json "{}:forged") 22.3039 73.3620 clock
     = (db, Throw (Error "Session not found"))
  /\ Spec.errors_of_message "Session not found" = [Spec.SessionNotFound].
Proof. vm_compute. repeat split. Qed.

(** C8 fails as stated: the session exists and belongs to FAC001; called by
    the faculty member FAC002, the server answers "Session not found". *)
Lemma C8_session_of_a_colleague :
  Server.sessions (Demo.store_with None) !! ("session:" +:+ Demo.session_id)
    = Some Demo.server_session
  /\ Server.post_generate_out (Demo.store_with None) Demo.a_colleague Demo.session_id
       (Demo.ticking 1700003600000)
     = (Demo.store_with None, Server.JsonError "Session not found" 404).
Proof. vm_compute. split; reflexivity. Qed.

(** C9 fails as stated: for a subject without sessions the reported
    percentage is 0, which is not the rounded quotient of 0 by 0. *)
Lemma C9_subject_without_session :
  let entry := Mock.subjectAttendance Demo.db0 "STU001" Demo.data_structures in
  Mock.totalSessions entry = 0%nat
  /\ Mock.attendedSessions entry = 0%nat
  /\ Mock.percentage entry = 0%float
  /\ Mock.percentage entry
     <> Math_round (float_of_nat (Mock.attendedSessions entry)
                    / float_of_nat (Mock.totalSessions entry) * 100)%float.
Proof.
  cbv zeta. repeat split; try (vm_compute; reflexivity).
  intros E. apply (f_equal PrimFloat.is_nan) in E. vm_compute in E. discriminate.
Qed.

(** *** The further properties on concrete inputs *)

Lemma expiry_test_off_boundary_witness :
  JSON_parse (fst Demo.issued) = Return (Demo.payload "IN")
  /\ js_get "expiry" (Demo.payload "IN") = Return (JNum 1700001800000)
  /\ Server.verifyQRToken (fst Demo.issued) (Some (snd Demo.issued)) 1700001800001 = JBool false
  /\ Mock.scanAttendance_parse (fst Demo.issued) 1700001800001
     = Throw (Error "QR code has expired")
  /\ Server.verifyQRToken (fst Demo.issued) (Some (snd Demo.issued)) 1700001799999
     = Demo.payload "IN"
  /\ Mock.scanAttendance_parse (fst Demo.issued) 1700001799999 = Return (Demo.payload "IN").
Proof.
  assert (Hparse : JSON_parse (fst Demo.issued) = Return (Demo.payload "IN")).
  { vm_compute. reflexivity. }
  assert (Hexp : js_get "expiry" (Demo.payload "IN") = Return (JNum 1700001800000)).
  { vm_compute. reflexivity. }
  split; [exact Hparse|]. split; [exact Hexp|].
  destruct (@expiry_test_off_boundary Demo.host _ _ _ 1700001800001 Hparse Hexp) as [Hafter _].
  destruct (@expiry_test_off_boundary Demo.host _ _ _ 1700001799999 Hparse Hexp) as [_ Hbefore].
  destruct Hafter as [Ha1 Ha2]; [vm_compute; reflexivity|].
  destruct Hbefore as [Hb1 Hb2]; [vm_compute; reflexivity|].
  split; [exact Ha1|]. split; [exact Ha2|]. split; [exact Hb1|exact Hb2].
Defined.

Lemma server_token_round_trip_witness :
  float_to_Z (Demo.frozen 1700000000000 0%nat) = Some 1700000000000
  /\ float_to_Z (Demo.frozen 1700000000000 1%nat + 30 * 60 * 1000)%float = Some 1700001800000
  /\ Server.verifyQRToken (fst Demo.issued) (Some (snd Demo.issued)) 1700000060000
     = Demo.payload "IN".
Proof.
  assert (H1 : float_to_Z (Demo.frozen 1700000000000 0%nat) = Some 1700000000000).
  { vm_compute. reflexivity. }
  assert (H2 : float_to_Z (Demo.frozen 1700000000000 1%nat + 30 * 60 * 1000)%float
               = Some 1700001800000).
  { vm_compute. reflexivity. }
  split; [exact H1|]. split; [exact H2|].
  pose proof (@server_token_round_trip Demo.host Demo.session_id Server.IN
                (Demo.frozen 1700000000000) _ _ 1700000060000
                H1 ltac:(unfold two53; lia) H2 ltac:(unfold two53; lia)) as Hw.
  cbv zeta in Hw. etransitivity; [exact Hw|]. vm_compute. reflexivity.
Defined.

Lemma mock_token_round_trip_witness :
  Mock.scanAttendance_parse (JSON_stringify (Demo.payload "OUT")) 1700000060000
  = Return (Demo.payload "OUT").
Proof.
  pose proof (@mock_token_round_trip Demo.host Demo.session_id "OUT"
                1700000000000 1700001800000 1700000000000 1700001800000 1700000060000) as Hw.
  etransitivity; [apply Hw|].
  - vm_compute. reflexivity.
  - unfold two53. lia.
  - vm_compute. reflexivity.
  - unfold two53. lia.
  - vm_compute. reflexivity.
Defined.

Lemma server_created_session_witness :
  exists session,
    Server.sessions (fst Demo.server_created) !! ("session:" +:+ Demo.session_id) = Some session
    /\ Server.Session.facultyId session = "FAC001"
    /\ js_truthy (Server.verifyQRToken (Server.Session.inQrToken session)
                    (Some (Server.Session.inQrSignature session)) 1700000060000) = true
    /\ Server.post_generate_out (fst Demo.server_created) Demo.a_colleague Demo.session_id
         (Demo.frozen 1700003600000)
       = (fst Demo.server_created, Server.JsonError "Session not found" 404).
Proof.
  destruct (@server_created_session Demo.host Demo.store0 Demo.the_owner "SUB001" "2024-01-15"
              None (Demo.frozen 1700000000000) 1700000000000 1700001800000)
    as (session & Hstored & _ & _ & _ & _ & Hfac & Hscan & Hother & _).
  - reflexivity.
  - vm_compute. reflexivity.
  - unfold two53. lia.
  - vm_compute. reflexivity.
  - unfold two53. lia.
  - exists session. split; [exact Hstored|]. split; [exact Hfac|]. split.
    + destruct (Hscan 1700000060000 Demo.a_student 22.3039 73.3620 1700000060000)%float
        as [Htruthy _]; [vm_compute; reflexivity|exact Htruthy].
    + apply (Hother Demo.a_colleague); [reflexivity|discriminate].
Defined.

Lemma mock_created_session_can_be_closed_witness :
  fst (snd Demo.created) = Demo.session_id
  /\ Mock.sessions (fst Demo.created) !! "SUB001:1" = Mock.sessions Demo.db0 !! "SUB001:1"
  /\ exists wire db'',
      Mock.generateOutQR (fst Demo.created) Demo.session_id (Demo.ticking 1700003600000)
      = (db'', Return wire).
Proof.
  destruct (@mock_created_session_can_be_closed Demo.host Demo.db0 "FAC001" "SUB001"
              "2024-01-15" None (Demo.ticking 1700000000000))
    as (Hid & _ & _ & _ & Hothers & session & _ & _ & _ & _ & _ & _ & Hout & _).
  assert (Hsid : fst (snd Demo.created) = Demo.session_id) by (vm_compute; reflexivity).
  split; [exact Hsid|]. split.
  - apply Hothers. vm_compute. discriminate.
  - destruct (Hout (Demo.ticking 1700003600000)) as [wire Hw].
    exists wire. eexists. rewrite <- Hsid. exact Hw.
Defined.

Lemma in_and_out_scans_complete_the_record_witness :
  exists record,
    Mock.attendance
      (fst (Mock.scanAttendance_record
              (fst (Mock.scanAttendance_record (Demo.db_with None) "STU001" (Demo.payload "OUT")
                      22.3039 73.3620 1700003600000))
              "STU001" (Demo.payload "IN") 22.3039 73.3620 1700000060000))
      !! ("STU001:" +:+ Demo.session_id) = Some record
    /\ Mock.AttendanceRecord.inScanTs record = Some (toISOString 1700000060000)
    /\ Mock.AttendanceRecord.outScanTs record = Some (toISOString 1700003600000).
Proof.
  destruct (@in_and_out_scans_complete_the_record Demo.host (Demo.db_with None) "STU001"
              Demo.session_id Demo.mock_session (Demo.payload "IN") (Demo.payload "OUT")
              22.3039 73.3620 1700000060000 22.3039 73.3620 1700003600000)%float
    as [_ (record & Hl & Hin & _ & Hout & _)]; try (vm_compute; reflexivity).
  exists record. split; [exact Hl|]. split; [exact Hin|exact Hout].
Defined.

Lemma numbers_without_colon_demo : @numbers_without_colon Demo.host.
Proof. intros x. reflexivity. Defined.

Lemma mock_records_refer_to_sessions_witness :
  exists record session,
    Mock.attendance
      (fst (Mock.createSession (MockQueries.initializeData 1700000000000) "FAC002" "SUB004"
              "2024-01-15" None (Demo.ticking 1700000000000)))
      !! "STU002:SUB001:1699913600000" = Some record
    /\ Mock.sessions
         (fst (Mock.createSession (MockQueries.initializeData 1700000000000) "FAC002" "SUB004"
                 "2024-01-15" None (Demo.ticking 1700000000000)))
         !! Mock.AttendanceRecord.sessionId record = Some session
    /\ Mock.Session.subjectId session = "SUB001".
Proof.
  destruct (@mock_records_refer_to_sessions Demo.host 1700000000000
              (fst (Mock.createSession (MockQueries.initializeData 1700000000000) "FAC002"
                      "SUB004" "2024-01-15" None (Demo.ticking 1700000000000)))
              numbers_without_colon_demo) as [_ Hrecords].
  - eapply reachable_step; [apply reachable_new|apply step_createSession].
  - destruct (Mock.attendance _ !! "STU002:SUB001:1699913600000") as [record|] eqn:E;
      [|vm_compute in E; discriminate E].
    destruct (Hrecords _ record E) as [_ (session & Hs & Hsub)].
    exists record, session. split; [reflexivity|]. split; [exact Hs|].
    rewrite Hsub. vm_compute in E. injection E as <-. reflexivity.
Defined.

Lemma mock_attended_le_total_witness :
  (Mock.attendedSessions
     (Mock.subjectAttendance (MockQueries.initializeData 1700000000000) "STU002"
        Demo.data_structures)
   <= Mock.totalSessions
        (Mock.subjectAttendance (MockQueries.initializeData 1700000000000) "STU002"
           Demo.data_structures))%nat.
Proof.
  apply (@mock_attended_le_total Demo.host 1700000000000).
  - exact numbers_without_colon_demo.
  - apply reachable_new.
Defined.

Lemma mock_scan_touches_one_record_witness :
  exists record,
    Mock.attendance (MockQueries.initializeData 1700000000000)
      !! "STU001:SUB001:1699913600000" = Some record
    /\ Mock.attendance
         (fst (Mock.scanAttendance_record (MockQueries.initializeData 1700000000000) "STU002"
                 (Mock.qrPayload_object "SUB002:1700000000000" "IN"
                    1700000000000 1700001800000)
                 22.3039 73.3620 1700000060000))
         !! "STU001:SUB001:1699913600000" = Some record.
Proof.
  destruct (@mock_scan_touches_one_record Demo.host 1700000000000
              (MockQueries.initializeData 1700000000000) "STU002"
              (Mock.qrPayload_object "SUB002:1700000000000" "IN" 1700000000000 1700001800000)
              22.3039 73.3620 1700000060000 numbers_without_colon_demo)%float
    as (_ & _ & _ & Hrecords).
  - apply reachable_new.
  - reflexivity.
  - destruct (Mock.attendance (MockQueries.initializeData 1700000000000)
                !! "STU001:SUB001:1699913600000") as [record|] eqn:E;
      [|vm_compute in E; discriminate E].
    exists record. split; [reflexivity|]. apply Hrecords.
    + exact E.
    + vm_compute in E. injection E as <-. reflexivity.
    + left. vm_compute in E. injection E as <-. discriminate.
Defined.


Lemma mock_session_attendance_counts_witness :
  exists result,
    MockQueries.getSessionAttendance (Demo.db_with (Some Demo.mock_record_both)) Demo.session_id
    = Return result
    /\ MockQueries.totalScans result = length (MockQueries.attendance result)
    /\ (MockQueries.completeAttendance result <= MockQueries.totalScans result)%nat.
Proof.
  destruct (@mock_session_attendance_counts
              (Demo.db_with (Some Demo.mock_record_both)) Demo.session_id) as [_ Hok].
  destruct (MockQueries.getSessionAttendance _ _) as [result|e] eqn:E;
    [|vm_compute in E; discriminate E].
  exists result. destruct (Hok result eq_refl) as (_ & Htotal & _ & Hle & _).
  split; [reflexivity|]. split; [exact Htotal|exact Hle].
Defined.

Lemma server_session_attendance_counts_witness :
  exists result,
    ServerQueries.get_session_attendance (Demo.store_with (Some Demo.server_record_in))
      Demo.a_student Demo.session_id = Server.Json result
    /\ ServerQueries.totalScans result = 1%nat
    /\ (length (ServerQueries.attendance result) <= ServerQueries.totalScans result)%nat.
Proof.
  destruct (ServerQueries.get_session_attendance (Demo.store_with (Some Demo.server_record_in))
              Demo.a_student Demo.session_id) as [result|e s] eqn:E;
    [|vm_compute in E; discriminate E].
  exists result.
  destruct (@server_session_attendance_counts _ _ _ result E) as (Htotal & Hle & _).
  split; [reflexivity|]. split; [|exact Hle].
  rewrite Htotal. vm_compute. reflexivity.
Defined.

Lemma server_session_attendance_access_witness :
  ServerQueries.get_session_attendance (Demo.store_with None) Demo.a_colleague Demo.session_id
  = Server.JsonError "Unauthorized" 403
  /\ exists result,
      ServerQueries.get_session_attendance (Demo.store_with None) Demo.a_student Demo.session_id
      = Server.Json result
      /\ ServerQueries.session result = Demo.server_session.
Proof.
  split.
  - destruct (server_session_attendance_access (Demo.store_with None) Demo.a_colleague
                Demo.session_id) as (_ & [_ Hrefused] & _).
    apply Hrefused. exists Demo.server_session.
    split; [vm_compute; reflexivity|]. split; [reflexivity|discriminate].
  - destruct (server_session_attendance_access (Demo.store_with None) Demo.a_student
                Demo.session_id) as (_ & _ & Hread).
    apply Hread; [vm_compute; reflexivity|discriminate].
Defined.

Lemma mock_login_and_profile_hide_the_password_witness :
  MockQueries.login Demo.db0 "STU001" "student123" 1700000000000
  = Return ("mock-jwt-token-1700000000000", MockQueries.without_password Demo.student)
  /\ forall e,
      MockQueries.login Demo.db0 "STU001" "faculty123" 1700000000000 = Throw e ->
      e = Error "Invalid credentials".
Proof.
  destruct (@mock_login_and_profile_hide_the_password Demo.host Demo.db0) as [Hlogin _].
  split.
  - destruct (Hlogin "STU001" "student123" 1700000000000%float) as (_ & Hok & _).
    apply (Hok Demo.student); reflexivity.
  - destruct (Hlogin "STU001" "faculty123" 1700000000000%float) as (_ & _ & Herr).
    exact Herr.
Defined.

Lemma subjects_by_faculty_witness :
  Demo.data_structures ∈ MockQueries.getSubjects Demo.db0 (Some "FAC001")
  /\ Demo.data_structures ∉ MockQueries.getSubjects Demo.db0 (Some "FAC002").
Proof.
  destruct subjects_by_faculty as [Hmock _].
  destruct (Hmock Demo.db0) as (_ & _ & Hfilter). split.
  - apply Hfilter; [discriminate|]. split; [|reflexivity].
    vm_compute. left.
  - intros Hin. apply Hfilter in Hin as [_ Hfac]; [|discriminate]. discriminate Hfac.
Defined.

Lemma qr_image_label_is_never_the_direction_witness :
  exists wire,
    snd (Mock.generateOutQR (Demo.db_with None) Demo.session_id (Demo.ticking 1700003600000))
    = Return wire
    /\ Ui.generateQRDataURL_label wire = "SCAN".
Proof.
  destruct (@qr_image_label_is_never_the_direction Demo.host) as (_ & _ & _ & Hout).
  destruct (snd (Mock.generateOutQR (Demo.db_with None) Demo.session_id
                   (Demo.ticking 1700003600000))) as [wire|e] eqn:E;
    [|vm_compute in E; discriminate E].
  exists wire. split; [reflexivity|]. exact (Hout _ _ _ wire E).
Defined.

Lemma demo_shortcut_is_refused_witness :
  exists qrData,
    Ui.handleManualInput (fun s => s) "DEMO-OUT" (Demo.ticking 1700000000000) = Some qrData
    /\ Mock.scanAttendance_decode qrData 1700000000003 = Throw (Error "Invalid QR code format").
Proof.
  destruct (@demo_shortcut_is_refused Demo.host (fun s => s) "DEMO-OUT"
              (Demo.ticking 1700000000000)) as (qrData & Hq & Hdec & _).
  - right. reflexivity.
  - exists qrData. split; [exact Hq|apply Hdec].
Defined.

Lemma attendance_labels_of_the_student_page_witness :
  Ui.getAttendanceStatus (Ui.overallAttendance (Some [80; 91; 70]%float)) = "Good"
  /\ Ui.badgeVariant 91 = "default"
  /\ Ui.badgeVariant 70 = "destructive"
  /\ Ui.getAttendanceStatus (Ui.overallAttendance (Some [])) = "Below Average".
Proof.
  destruct attendance_labels_of_the_student_page
    as (Hstatus & _ & _ & _ & Hempty & Hbadge & _).
  destruct (Hstatus (Ui.overallAttendance (Some [80; 91; 70]%float))) as (_ & Hgood & _).
  destruct (Hstatus 91%float) as (Hexcellent & _).
  destruct (Hstatus 70%float) as (_ & _ & Hbelow & _).
  destruct (Hbadge 91%float) as (Hdefault & _).
  destruct (Hbadge 70%float) as (_ & _ & Hdestructive).
  split; [|split; [|split; [|exact Hempty]]].
  - apply Hgood. vm_compute. split; reflexivity.
  - apply Hdefault, Hexcellent. vm_compute. reflexivity.
  - apply Hdestructive, Hbelow. vm_compute. split; reflexivity.
Defined.
